(** * MyFinance-Manager: budget evaluation and savings-goal allocation

    A shallow embedding of the SQLite-backed finance tracker
    [MyFinance-Manager.py].  The six tables are lists of rows in rowid
    order, every SQL statement the program issues is a function on the
    store, and every interactive method takes what the user types at its
    prompts as arguments and returns what it prints (an outcome) together
    with the store it leaves behind.

    Amounts are SQLite REAL / Python float in the program.  In the store
    below they are exact rationals [Q], compared with [==]; the values
    Python reads that are no number of the store are handled where they
    are typed ([typed_float], [fits_int64]), and [Binary64] reads the
    method that moves savings once more over REAL values as SQLite holds
    them, for the statements that depend on rounding. *)

From Stdlib Require Import ZArith QArith List String Ascii Bool Lia Lqa.
From Stdlib Require Import Floats.PrimFloat Floats.FloatOps Floats.SpecFloat.
From Stdlib Require Import Numbers.DecimalString Numbers.DecimalZ.
From Stdlib Require Import Sorting.Sorted Sorting.Permutation.
Import ListNotations.

#[global] Set Warnings "-inexact-float".

Open Scope Z_scope.
Open Scope Q_scope.

(** ** Rows and tables *)

(** [expenses] and [income]: (id, category, amount, timestamp). *)
Record entry := mk_entry {
  entry_id : Z;
  category : string;
  amount : Q;
  timestamp : string
}.

(** [budget]: (id, category, budget_amount, month, year). *)
Record budget_row := mk_budget {
  budget_id : Z;
  budget_category : string;
  budget_amount : Q;
  budget_month : Z;
  budget_year : Z
}.

(** [savings_goals]: (id, goal_name, target_amount, current_saved,
    target_date). *)
Record goal := mk_goal {
  goal_id : Z;
  goal_name : string;
  target_amount : Q;
  current_saved : Q;
  target_date : string
}.

(** [expense_categories] and [income_categories]: (id, name). *)
Record category_row := mk_category {
  category_id : Z;
  category_name : string
}.

Record db := mk_db {
  expenses : list entry;
  expense_categories : list category_row;
  income : list entry;
  income_categories : list category_row;
  budget : list budget_row;
  savings_goals : list goal
}.

Definition empty_db : db := mk_db [] [] [] [] [] [].

Definition set_current_saved (g : goal) (v : Q) : goal :=
  mk_goal (goal_id g) (goal_name g) (target_amount g) v (target_date g).

Definition set_budget_amount (b : budget_row) (v : Q) : budget_row :=
  mk_budget (budget_id b) (budget_category b) v (budget_month b) (budget_year b).

Definition with_goals (d : db) (gs : list goal) : db :=
  mk_db (expenses d) (expense_categories d) (income d) (income_categories d)
        (budget d) gs.

Definition with_budget (d : db) (bs : list budget_row) : db :=
  mk_db (expenses d) (expense_categories d) (income d) (income_categories d)
        bs (savings_goals d).

Definition with_expenses (d : db) (es : list entry) : db :=
  mk_db es (expense_categories d) (income d) (income_categories d)
        (budget d) (savings_goals d).

Definition with_income (d : db) (es : list entry) : db :=
  mk_db (expenses d) (expense_categories d) es (income_categories d)
        (budget d) (savings_goals d).

(** ** Text of the query parameters *)

(** Python [str(n)] on an int. *)
Definition str (n : Z) : string := NilZero.string_of_int (Z.to_int n).

(** Python [f"{n:02d}"]: zero padding up to width two. *)
Definition fmt02 (n : Z) : string :=
  let s := str n in
  if (String.length s <? 2)%nat then String "0" s else s.

(** ** SQLite date text

    [timestamp] is TEXT.  The insert paths store what
    [datetime.strptime(_, '%Y-%m-%d')] accepts; of that text SQLite reads
    only the zero-padded date-only time value [YYYY-MM-DD] as a date, and
    [strftime] below covers that shape: any other text gives NULL
    ([None]).  (SQLite also reads date-time text such as
    [YYYY-MM-DD HH:MM]; [strptime] refuses it, so no row holds it.) *)

Record date := mk_date { year : Z; month : Z; day : Z }.

Definition digit_of_ascii (c : ascii) : option Z :=
  let n := Z.of_nat (nat_of_ascii c) in
  if ((48 <=? n) && (n <=? 57))%Z then Some (n - 48)%Z else None.

Definition ascii_of_digit (n : Z) : ascii :=
  ascii_of_nat (Z.to_nat (48 + n mod 10)).

Definition digits2 (n : Z) : string :=
  String (ascii_of_digit (n / 10)) (String (ascii_of_digit n) "").

Definition digits4 (n : Z) : string :=
  String (ascii_of_digit (n / 1000))
    (String (ascii_of_digit (n / 100))
       (String (ascii_of_digit (n / 10)) (String (ascii_of_digit n) ""))).

(** The canonical text of a date, as the "YYYY-MM-DD" prompts ask for. *)
Definition iso_text (d : date) : string :=
  (digits4 (year d) ++ "-" ++ digits2 (month d) ++ "-" ++ digits2 (day d))%string.

Definition dash (c : ascii) : bool := Ascii.eqb c "-"%char.

(** Reading [DDDD-DD-DD]. *)
Definition parse_iso (s : string) : option date :=
  match s with
  | String y1 (String y2 (String y3 (String y4 (String s1
      (String m1 (String m2 (String s2 (String d1 (String d2 ""))))))))) =>
      match digit_of_ascii y1, digit_of_ascii y2, digit_of_ascii y3,
            digit_of_ascii y4, digit_of_ascii m1, digit_of_ascii m2,
            digit_of_ascii d1, digit_of_ascii d2 with
      | Some a, Some b, Some c, Some e, Some f, Some g, Some h, Some i =>
          if dash s1 && dash s2
          then Some (mk_date (1000 * a + 100 * b + 10 * c + e)
                             (10 * f + g) (10 * h + i))%Z
          else None
      | _, _, _, _, _, _, _, _ => None
      end
  | _ => None
  end.

Definition leap_year (y : Z) : bool :=
  ((y mod 4 =? 0) && (negb (y mod 100 =? 0) || (y mod 400 =? 0)))%Z.

Definition days_in_month (y m : Z) : Z :=
  (if m =? 2 then (if leap_year y then 29 else 28)
   else if (m =? 4) || (m =? 6) || (m =? 9) || (m =? 11) then 30
   else 31)%Z.

(** SQLite accepts month 01..12 and day 01..31.  For a day past the end
    of its month (2025-02-30) the answer of [strftime] depends on the
    SQLite version: the date carried into the next month, as here, or the
    month as written.  [strptime] refuses such text, so no row holds
    it. *)
Definition sqlite_date (s : string) : option date :=
  match parse_iso s with
  | Some d =>
      if ((1 <=? month d) && (month d <=? 12) &&
          (1 <=? day d) && (day d <=? 31))%Z
      then
        if (day d <=? days_in_month (year d) (month d))%Z then Some d
        else Some (mk_date (year d) (month d + 1)
                           (day d - days_in_month (year d) (month d)))%Z
      else None
  | None => None
  end.

(** [strftime('%m', s)] and [strftime('%Y', s)]. *)
Definition strftime_m (s : string) : option string :=
  option_map (fun d => digits2 (month d)) (sqlite_date s).

Definition strftime_Y (s : string) : option string :=
  option_map (fun d => digits4 (year d)) (sqlite_date s).

(** [SUBSTR(s, 6, 2)] and [SUBSTR(s, 1, 4)] (SQL counts from 1). *)
Definition substr_6_2 (s : string) : string := String.substring 5 2 s.
Definition substr_1_4 (s : string) : string := String.substring 0 4 s.

(** SQL [x = ?] where [x] may be NULL: NULL never compares equal. *)
Definition sql_text_eq (x : option string) (p : string) : bool :=
  match x with
  | Some v => String.eqb v p
  | None => false
  end.

(** ** Aggregates *)

Definition Qsum (l : list Q) : Q := fold_left Qplus l 0.

(** SQL [SUM]: NULL on no rows. *)
Definition sql_sum (l : list Q) : option Q :=
  match l with
  | [] => None
  | _ => Some (Qsum l)
  end.

Definition coalesce (x : option Q) (dflt : Q) : Q :=
  match x with
  | Some v => v
  | None => dflt
  end.

(** ** The statements the program issues *)

(** AUTOINCREMENT: an id above every id in use; here the next one (no
    statement of the program deletes a ledger, budget or goal row).  The
    counter of the real table can be further on, since a statement that
    is refused or meets ON CONFLICT may use an id up; the ids of new rows
    enter the statements proved below as fresh keys only. *)
Definition next_id (ids : list Z) : Z := (fold_right Z.max 0 ids + 1)%Z.

(** [INSERT INTO expenses (category, amount, timestamp) VALUES (?, ?, ?)] *)
Definition insert_expense (d : db) (c : string) (a : Q) (ts : string) : db :=
  with_expenses d
    (expenses d ++ [mk_entry (next_id (map entry_id (expenses d))) c a ts]).

(** [INSERT INTO income (category, amount, timestamp) VALUES (?, ?, ?)] *)
Definition insert_income (d : db) (c : string) (a : Q) (ts : string) : db :=
  with_income d
    (income d ++ [mk_entry (next_id (map entry_id (income d))) c a ts]).

(** [UPDATE savings_goals SET current_saved = current_saved + ? WHERE id = ?] *)
Definition update_add (gs : list goal) (id : Z) (amt : Q) : list goal :=
  map (fun g => if (goal_id g =? id)%Z
                then set_current_saved g (current_saved g + amt) else g) gs.

(** [UPDATE savings_goals SET current_saved = current_saved - ? WHERE id = ?] *)
Definition update_sub (gs : list goal) (id : Z) (amt : Q) : list goal :=
  map (fun g => if (goal_id g =? id)%Z
                then set_current_saved g (current_saved g - amt) else g) gs.

(** [SELECT current_saved FROM savings_goals WHERE id = ?] *)
Definition select_current_saved (gs : list goal) (id : Z) : list Q :=
  map current_saved (filter (fun g => (goal_id g =? id)%Z) gs).

(** [WHERE strftime('%m', timestamp) = ? AND strftime('%Y', timestamp) = ?]
    with parameters [(f"{month:02d}", str(year))]. *)
Definition period_strftime (mo yr : Z) (e : entry) : bool :=
  sql_text_eq (strftime_m (timestamp e)) (fmt02 mo) &&
  sql_text_eq (strftime_Y (timestamp e)) (str yr).

(** [WHERE category = ? AND SUBSTR(timestamp, 6, 2) = ? AND
    SUBSTR(timestamp, 1, 4) = ?] with parameters
    [(category, f"{month:02d}", str(year))]. *)
Definition category_period_substr (c : string) (mo yr : Z) (e : entry) : bool :=
  String.eqb (category e) c &&
  String.eqb (substr_6_2 (timestamp e)) (fmt02 mo) &&
  String.eqb (substr_1_4 (timestamp e)) (str yr).

(** [WHERE category = ? AND month = ? AND year = ?] on [budget]. *)
Definition budget_key (c : string) (mo yr : Z) (b : budget_row) : bool :=
  String.eqb (budget_category b) c &&
  (budget_month b =? mo)%Z && (budget_year b =? yr)%Z.

(** [SELECT COALESCE(SUM(amount), 0) FROM <table> WHERE <cond>] *)
Definition total_amount (cond : entry -> bool) (rows : list entry) : Q :=
  coalesce (sql_sum (map amount (filter cond rows))) 0.

(** ** What is typed, and how sqlite3 binds it

    [float(input(...))] that does not raise [ValueError] is a number or
    nan, and sqlite3 binds nan as NULL.  (It can also be an infinity,
    which a REAL column stores; the rational amounts of this store have
    no such value.)  [int(input(...))] that does not raise is an integer
    of any size; sqlite3 binds it as a 64-bit INTEGER and raises
    [OverflowError] outside that range before the statement runs.
    [execute_query] and [fetch_all] catch [sqlite3.Error] only and no
    caller catches [OverflowError] or [TypeError]: the exception ends the
    program with the store as it was. *)

Inductive typed_float :=
| Number (q : Q)
| NotANumber.

Definition fits_int64 (n : Z) : bool :=
  ((- 2 ^ 63 <=? n) && (n <? 2 ^ 63))%Z.

Inductive exception :=
| OverflowError
| TypeError.

(** A method called on a store: it returns, or an exception leaves it. *)
Inductive call (A : Type) :=
| Returned (a : A)
| Raised (e : exception).

Arguments Returned {A} a.
Arguments Raised {A} e.

(** ** BudgetManager *)

Module BudgetManager.

(** [INSERT ... ON CONFLICT(category, month, year) DO UPDATE SET
    budget_amount = excluded.budget_amount] *)
Definition set_budget (d : db) (c : string) (a : Q) (mo yr : Z) : db :=
  if existsb (budget_key c mo yr) (budget d)
  then with_budget d
         (map (fun b => if budget_key c mo yr b then set_budget_amount b a else b)
              (budget d))
  else with_budget d
         (budget d ++ [mk_budget (next_id (map budget_id (budget d))) c a mo yr]).

(** [set_budget] on what the menu read.  The statement binds
    [(category, budget_amount, month, year)]; a nan amount goes in as
    NULL, [budget_amount REAL NOT NULL] refuses the statement,
    [execute_query] prints the error and the method goes on to its
    "Budget of ... set" line. *)
Definition set_budget_typed (d : db) (c : string) (amt : typed_float)
           (mo yr : Z) : call db :=
  if fits_int64 mo && fits_int64 yr then
    match amt with
    | Number a => Returned (set_budget d c a mo yr)
    | NotANumber => Returned d
    end
  else Raised OverflowError.

(** The last line printed by [view_budget_for_category]. *)
Inductive verdict :=
| OverBudgetBy (q : Q)
| UnderBudgetBy (q : Q).

(** What [view_budget_for_category] prints. *)
Inductive budget_view :=
| NoBudgetSet
| BudgetReport (budgeted total_expenses : Q) (v : verdict).

Definition view_budget_for_category (d : db) (c : string) (mo yr : Z)
  : budget_view :=
  match map budget_amount (filter (budget_key c mo yr) (budget d)) with
  | [] => NoBudgetSet
  | budgeted :: _ =>
      let total_expenses :=
        total_amount (category_period_substr c mo yr) (expenses d) in
      BudgetReport budgeted total_expenses
        (if Qlt_le_dec budgeted total_expenses
         then OverBudgetBy (total_expenses - budgeted)
         else UnderBudgetBy (budgeted - total_expenses))
  end.

(** The first query of [view_budget_for_category] binds
    [(category, month, year)]. *)
Definition view_budget_for_category_typed (d : db) (c : string) (mo yr : Z)
  : call budget_view :=
  if fits_int64 mo && fits_int64 yr
  then Returned (view_budget_for_category d c mo yr)
  else Raised OverflowError.

(** What [calculate_overall_budget] prints. *)
Record overall := mk_overall {
  total_income : Q;
  total_expenses : Q;
  net_budget : Q
}.

Definition calculate_overall_budget (d : db) (mo yr : Z) : overall :=
  let total_income := total_amount (period_strftime mo yr) (income d) in
  let total_expenses := total_amount (period_strftime mo yr) (expenses d) in
  mk_overall total_income total_expenses (total_income - total_expenses).

(** [ORDER BY year, month, category]: integers by value, text in the
    BINARY collation (byte by byte, a proper prefix first). *)
Definition budget_le (a b : budget_row) : bool :=
  ((budget_year a <? budget_year b) ||
   ((budget_year a =? budget_year b) &&
    ((budget_month a <? budget_month b) ||
     ((budget_month a =? budget_month b) &&
      String.leb (budget_category a) (budget_category b)))))%Z.

Fixpoint insert_ordered (b : budget_row) (l : list budget_row)
  : list budget_row :=
  match l with
  | [] => [b]
  | h :: t => if budget_le b h then b :: l else h :: insert_ordered b t
  end.

Definition order_by_year_month_category (l : list budget_row)
  : list budget_row :=
  fold_right insert_ordered [] l.

(** The rows [view_all_budgets] prints, in the order it prints them;
    [None] is "No budgets set." *)
Definition view_all_budgets (d : db) : option (list budget_row) :=
  match budget d with
  | [] => None
  | bs => Some (order_by_year_month_category bs)
  end.

End BudgetManager.

(** ** GoalManager *)

Module GoalManager.

(** The Python dict [allocations]: insertion ordered, assignment to a key
    already present replaces its value in place. *)
Definition dict := list (Z * Q).

Fixpoint dict_set (k : Z) (v : Q) (m : dict) : dict :=
  match m with
  | [] => [(k, v)]
  | (k', v') :: m' =>
      if (k' =? k)%Z then (k, v) :: m' else (k', v') :: dict_set k v m'
  end.

Fixpoint dict_get (k : Z) (m : dict) : option Q :=
  match m with
  | [] => None
  | (k', v') :: m' => if (k' =? k)%Z then Some v' else dict_get k m'
  end.

(** What [add_excess_income] prints last.  [InputExhausted] is the
    [EOFError] that [input] raises when the console closes inside the
    prompt loop; no handler of the program catches it. *)
Inductive excess_outcome :=
| MonthOutOfRange
| YearNotPositive
| InvalidMonthYear
| NoExcessIncome
| NoGoalsCreateFirst
| InputExhausted
| SavingsUpdated.

(** [available_excess] as the method computes it. *)
Definition available_excess (d : db) (mo yr : Z) : Q :=
  let total_income := total_amount (period_strftime mo yr) (income d) in
  let total_expenses := total_amount (period_strftime mo yr) (expenses d) in
  let allocated_excess :=
    coalesce (sql_sum (map current_saved (savings_goals d))) 0 in
  total_income - total_expenses - allocated_excess.

(** The [while True] loop around one prompt: an answer is [None] when
    [float] raises [ValueError].  Returns the amount that leaves the loop
    and the answers not yet read.  (A typed nan fails [amt < 0],
    [amt > available_excess] and [amt > 0] alike and so leaves the loop
    as a skip: it is the answer 0 here.) *)
Fixpoint prompt_amount (available : Q) (answers : list (option Q))
  : option (Q * list (option Q)) :=
  match answers with
  | [] => None
  | None :: rest => prompt_amount available rest
  | Some amt :: rest =>
      if Qlt_le_dec amt 0 then prompt_amount available rest
      else if Qlt_le_dec available amt then prompt_amount available rest
      else Some (amt, rest)
  end.

(** The [for goal in goals] loop: the ids in table order, the running
    [available_excess] and the dict built so far. *)
Fixpoint collect (ids : list Z) (available : Q) (allocations : dict)
         (answers : list (option Q)) : option (dict * Q) :=
  match ids with
  | [] => Some (allocations, available)
  | id :: ids' =>
      match prompt_amount available answers with
      | None => None
      | Some (amt, rest) =>
          if Qlt_le_dec 0 amt
          then collect ids' (available - amt) (dict_set id amt allocations) rest
          else collect ids' available allocations rest
      end
  end.

(** The final [for goal_id, amt in allocations.items()] loop. *)
Definition apply_allocations (gs : list goal) (allocations : dict) : list goal :=
  fold_left (fun acc kv => update_add acc (fst kv) (snd kv)) allocations gs.

(** [month_in] and [year_in] are [None] when [int] raises [ValueError]. *)
Definition add_excess_income (d : db) (month_in year_in : option Z)
           (answers : list (option Q)) : excess_outcome * db :=
  match month_in with
  | None => (InvalidMonthYear, d)
  | Some mo =>
      if negb ((1 <=? mo) && (mo <=? 12))%Z then (MonthOutOfRange, d)
      else
        match year_in with
        | None => (InvalidMonthYear, d)
        | Some yr =>
            if (yr <=? 0)%Z then (YearNotPositive, d)
            else
              let available := available_excess d mo yr in
              if Qlt_le_dec 0 available then
                match savings_goals d with
                | [] => (NoGoalsCreateFirst, d)
                | gs =>
                    match collect (map goal_id gs) available [] answers with
                    | None => (InputExhausted, d)
                    | Some (allocations, _) =>
                        (SavingsUpdated,
                         with_goals d (apply_allocations gs allocations))
                    end
                end
              else (NoExcessIncome, d)
        end
  end.

(** What [remove_or_move_savings] prints last. *)
Inductive move_outcome :=
| NoGoalsFound
| InvalidNumbers
| GoalNotFound
| CannotRemoveMore
| AmountRemoved
| InvalidGoalId
| AmountTransferred
| InvalidOption.

(** [goal_in], [amt_in] and [new_goal_in] are [None] when [int] or
    [float] raises [ValueError]; [action] is the text typed at the
    remove-or-transfer prompt. *)
Definition remove_or_move_savings (d : db) (goal_in : option Z)
           (amt_in : option Q) (action : string) (new_goal_in : option Z)
  : move_outcome * db :=
  match savings_goals d with
  | [] => (NoGoalsFound, d)
  | gs =>
      match goal_in, amt_in with
      | Some id, Some amt =>
          match select_current_saved gs id with
          | [] => (GoalNotFound, d)
          | saved :: _ =>
              if Qlt_le_dec saved amt then (CannotRemoveMore, d)
              else if String.eqb action "1" then
                (AmountRemoved, with_goals d (update_sub gs id amt))
              else if String.eqb action "2" then
                match new_goal_in with
                | None => (InvalidGoalId, d)
                | Some new_id =>
                    (AmountTransferred,
                     with_goals d
                       (update_sub (update_add gs new_id amt) id amt))
                end
              else (InvalidOption, d)
          end
      | _, _ => (InvalidNumbers, d)
      end
  end.

(** The [progress] expression of [view_goal_progress]:
    [(saved / target) * 100 if target > 0 else 0]. *)
Definition progress (target saved : Q) : Q :=
  if Qlt_le_dec 0 target then (saved / target) * 100 else 0.

(** One printed line of [view_goal_progress]. *)
Record progress_line := mk_line {
  line_name : string;
  line_saved : Q;
  line_target : Q;
  line_progress : Q;
  line_date : string
}.

(** [None] is the "No savings goals set." message. *)
Definition view_goal_progress (d : db) : option (list progress_line) :=
  match savings_goals d with
  | [] => None
  | gs =>
      Some (map (fun g =>
                   mk_line (goal_name g) (current_saved g) (target_amount g)
                           (progress (target_amount g) (current_saved g))
                           (target_date g)) gs)
  end.

(** What [create_goal] prints last. *)
Inductive create_outcome :=
| InvalidTargetAmount
| IncorrectDateFormat
| GoalCreated.

(** [strptime_ok s] stands for "[datetime.strptime(s, '%Y-%m-%d')] does
    not raise [ValueError]"; [target_in] is [None] when [float] raises.
    The INSERT names three columns: [current_saved] takes its DEFAULT 0. *)
Definition create_goal (strptime_ok : string -> bool) (d : db)
           (name : string) (target_in : option Q) (date_in : string)
  : create_outcome * db :=
  match target_in with
  | None => (InvalidTargetAmount, d)
  | Some target =>
      if strptime_ok date_in then
        (GoalCreated,
         with_goals d
           (savings_goals d ++
            [mk_goal (next_id (map goal_id (savings_goals d)))
                     name target 0 date_in]))
      else (IncorrectDateFormat, d)
  end.

(** [create_goal] on what is typed: a nan target goes in as NULL,
    [target_amount REAL NOT NULL] refuses the INSERT, [execute_query]
    prints the error and the method still prints "created
    successfully". *)
Definition create_goal_typed (strptime_ok : string -> bool) (d : db)
           (name : string) (target_in : option typed_float) (date_in : string)
  : create_outcome * db :=
  match target_in with
  | None => (InvalidTargetAmount, d)
  | Some target =>
      if strptime_ok date_in then
        match target with
        | Number t =>
            (GoalCreated,
             with_goals d
               (savings_goals d ++
                [mk_goal (next_id (map goal_id (savings_goals d)))
                         name t 0 date_in]))
        | NotANumber => (GoalCreated, d)
        end
      else (IncorrectDateFormat, d)
  end.

(** [UPDATE savings_goals SET target_amount = ? WHERE id = ?] *)
Definition update_target (gs : list goal) (id : Z) (v : Q) : list goal :=
  map (fun g => if (goal_id g =? id)%Z
                then mk_goal (goal_id g) (goal_name g) v (current_saved g)
                             (target_date g)
                else g) gs.

(** What [change_goal_amount] prints last. *)
Inductive change_outcome :=
| ChangeNoGoals
| ChangeInvalidNumbers
| GoalUpdated.

Definition change_goal_amount (d : db) (goal_in : option Z)
           (amt_in : option Q) : change_outcome * db :=
  match savings_goals d with
  | [] => (ChangeNoGoals, d)
  | gs =>
      match goal_in, amt_in with
      | Some id, Some new_amount =>
          (GoalUpdated, with_goals d (update_target gs id new_amount))
      | _, _ => (ChangeInvalidNumbers, d)
      end
  end.

(** [change_goal_amount] on what is typed.  The UPDATE binds
    [(new_amount, goal_id)]: a goal id outside 64 bits raises; a nan
    amount is NULL, which [target_amount REAL NOT NULL] refuses on the
    row of that id (and which meets no row otherwise), and "Goal updated
    successfully!" is printed all the same. *)
Definition change_goal_amount_typed (d : db) (goal_in : option Z)
           (amt_in : option typed_float) : call (change_outcome * db) :=
  match savings_goals d with
  | [] => Returned (ChangeNoGoals, d)
  | gs =>
      match goal_in, amt_in with
      | Some id, Some new_amount =>
          if fits_int64 id then
            match new_amount with
            | Number v =>
                Returned (GoalUpdated, with_goals d (update_target gs id v))
            | NotANumber => Returned (GoalUpdated, d)
            end
          else Raised OverflowError
      | _, _ => Returned (ChangeInvalidNumbers, d)
      end
  end.

End GoalManager.

(** ** ExpenseManager and IncomeManager

    The two classes are the same code over two pairs of tables
    ([expense_categories], [expenses]) and ([income_categories],
    [income]); [Ledger] is that code over a pair of tables, and the two
    managers apply it to their pair. *)

Module Ledger.

(** [INSERT INTO <ledger> (category, amount, timestamp) VALUES (?, ?, ?)] *)
Definition insert_entry (rows : list entry) (c : string) (a : Q) (ts : string)
  : list entry :=
  rows ++ [mk_entry (next_id (map entry_id rows)) c a ts].

(** [UPDATE <ledger> SET amount = ? WHERE id = ?] *)
Definition update_entry (rows : list entry) (id : Z) (a : Q) : list entry :=
  map (fun e => if (entry_id e =? id)%Z
                then mk_entry (entry_id e) (category e) a (timestamp e)
                else e) rows.

(** [DELETE FROM <categories> WHERE id = ?] *)
Definition delete_row (cats : list category_row) (id : Z) : list category_row :=
  filter (fun c => negb (category_id c =? id)%Z) cats.

(** The scalar subquery [(SELECT name FROM <categories> WHERE id = ?)]:
    the name of the first row, NULL on no row. *)
Definition name_of_id (cats : list category_row) (id : Z) : option string :=
  option_map category_name (find (fun c => (category_id c =? id)%Z) cats).

(** The [for cat in categories: if cat[0] == choice: ...; break] loop
    followed by [if not category]: the empty name counts as no choice. *)
Definition pick_category (cats : list category_row) (choice : Z)
  : option string :=
  match find (fun c => (category_id c =? choice)%Z) cats with
  | Some c => if String.eqb (category_name c) "" then None
              else Some (category_name c)
  | None => None
  end.

(** What [add_expense_category] / [add_income_category] print last.  The
    flag of [CategoryAdded] is set when "Database error during
    execute_query" came before it. *)
Inductive category_outcome :=
| CategoryNameEmpty
| CategoryAdded (database_error : bool).

(** [name] is [input(...).strip()]; [rowid] is the key AUTOINCREMENT
    takes for the row if it goes in.  [name] is UNIQUE: on a name the
    table has, the INSERT raises, [execute_query] prints the error and
    returns, and the method goes on to its last line. *)
Definition add_category (cats : list category_row) (rowid : Z) (name : string)
  : category_outcome * list category_row :=
  if String.eqb name "" then (CategoryNameEmpty, cats)
  else if existsb (fun c => String.eqb (category_name c) name) cats
       then (CategoryAdded true, cats)
       else (CategoryAdded false, cats ++ [mk_category rowid name]).

(** What [delete_expense_category] / [delete_income_category] print last. *)
Inductive delete_outcome :=
| NoCategories
| DeleteInvalidNumber
| CategoryInUse
| CategoryDeleted.

(** [cat_in] is [None] when [int] raises [ValueError]. *)
Definition delete_category (cats : list category_row) (rows : list entry)
           (cat_in : option Z) : delete_outcome * list category_row :=
  match cats with
  | [] => (NoCategories, cats)
  | _ =>
      match cat_in with
      | None => (DeleteInvalidNumber, cats)
      | Some cat_id =>
          let count :=
            List.length
              (filter (fun e => sql_text_eq (name_of_id cats cat_id)
                                            (category e)) rows) in
          if (0 <? count)%nat then (CategoryInUse, cats)
          else (CategoryDeleted, delete_row cats cat_id)
      end
  end.

(** What [add_expense] / [add_income] print last.  [DateInputClosed] is
    the [EOFError] of [input] inside the date loop. *)
Inductive add_outcome :=
| DateInputClosed
| NoCategoryToUse
| AddInvalidNumber
| InvalidCategorySelection
| EntryAdded.

(** [dates] are the answers to the date prompt, read until one passes
    [strptime_ok]; [rowid] and [name] are used only when the category
    table is empty and the method runs [add_category] first; [choice_in]
    is [None] when [int] raises [ValueError]. *)
Definition add_entry (strptime_ok : string -> bool)
           (cats : list category_row) (rows : list entry) (amt : Q)
           (dates : list string) (rowid : Z) (name : string)
           (choice_in : option Z)
  : add_outcome * (list category_row * list entry) :=
  match find strptime_ok dates with
  | None => (DateInputClosed, (cats, rows))
  | Some date =>
      let categories :=
        match cats with
        | [] => snd (add_category cats rowid name)
        | _ => cats
        end in
      match categories with
      | [] => (NoCategoryToUse, (categories, rows))
      | _ =>
          match choice_in with
          | None => (AddInvalidNumber, (categories, rows))
          | Some choice =>
              match pick_category categories choice with
              | None => (InvalidCategorySelection, (categories, rows))
              | Some c =>
                  (EntryAdded, (categories, insert_entry rows c amt date))
              end
          end
      end
  end.

(** The INSERT of [add_expense] / [add_income] with the amount as typed
    at the menu: a nan goes in as NULL and [amount REAL NOT NULL] refuses
    the row. *)
Definition insert_entry_typed (rows : list entry) (c : string)
           (amt : typed_float) (ts : string) : list entry :=
  match amt with
  | Number a => insert_entry rows c a ts
  | NotANumber => rows
  end.

(** [add_entry] with the amount as typed: the method does not look at
    the amount before the INSERT, and prints "added successfully" after
    it whether the row went in or not. *)
Definition add_entry_typed (strptime_ok : string -> bool)
           (cats : list category_row) (rows : list entry) (amt : typed_float)
           (dates : list string) (rowid : Z) (name : string)
           (choice_in : option Z)
  : add_outcome * (list category_row * list entry) :=
  match find strptime_ok dates with
  | None => (DateInputClosed, (cats, rows))
  | Some date =>
      let categories :=
        match cats with
        | [] => snd (add_category cats rowid name)
        | _ => cats
        end in
      match categories with
      | [] => (NoCategoryToUse, (categories, rows))
      | _ =>
          match choice_in with
          | None => (AddInvalidNumber, (categories, rows))
          | Some choice =>
              match pick_category categories choice with
              | None => (InvalidCategorySelection, (categories, rows))
              | Some c =>
                  (EntryAdded,
                   (categories, insert_entry_typed rows c amt date))
              end
          end
      end
  end.

(** The rows [view_expense] / [view_income] print, and what they return.
    [if category:] takes the no-filter branch on [None] and on the empty
    string. *)
Definition view (rows : list entry) (mo yr : Z) (cat : option string)
  : bool * list entry :=
  let selected :=
    match cat with
    | None => filter (period_strftime mo yr) rows
    | Some c =>
        if String.eqb c "" then filter (period_strftime mo yr) rows
        else filter (fun e => String.eqb (category e) c &&
                              period_strftime mo yr e) rows
    end in
  (match selected with [] => false | _ => true end, selected).

(** What [view_expenses_by_category] / [view_income_by_category] print. *)
Inductive view_outcome :=
| ViewNoCategories
| ViewInvalidNumber
| ViewInvalidSelection
| Viewed (listed : list entry).

Definition view_by_category (cats : list category_row) (rows : list entry)
           (mo yr : Z) (cat_in : option Z) : view_outcome :=
  match cats with
  | [] => ViewNoCategories
  | _ =>
      match cat_in with
      | None => ViewInvalidNumber
      | Some cat_id =>
          match pick_category cats cat_id with
          | None => ViewInvalidSelection
          | Some c => Viewed (snd (view rows mo yr (Some c)))
          end
      end
  end.

(** What [update_expense_amount] / [update_income_record] print last. *)
Inductive update_outcome :=
| UpdateMonthOutOfRange
| UpdateYearNotPositive
| UpdateInvalidMonthYear
| NothingToUpdate
| UpdateInvalidNumbers
| InvalidRecordId
| AmountUpdated.

Definition update_amount (rows : list entry) (month_in year_in id_in : option Z)
           (amount_in : option Q) : update_outcome * list entry :=
  match month_in with
  | None => (UpdateInvalidMonthYear, rows)
  | Some mo =>
      if negb ((1 <=? mo) && (mo <=? 12))%Z then (UpdateMonthOutOfRange, rows)
      else
        match year_in with
        | None => (UpdateInvalidMonthYear, rows)
        | Some yr =>
            if (yr <=? 0)%Z then (UpdateYearNotPositive, rows)
            else
              match filter (period_strftime mo yr) rows with
              | [] => (NothingToUpdate, rows)
              | listed =>
                  match id_in, amount_in with
                  | Some id, Some new_amount =>
                      if existsb (Z.eqb id) (map entry_id listed)
                      then (AmountUpdated, update_entry rows id new_amount)
                      else (InvalidRecordId, rows)
                  | _, _ => (UpdateInvalidNumbers, rows)
                  end
              end
        end
  end.

End Ledger.

Definition with_expense_categories (d : db) (cs : list category_row) : db :=
  mk_db (expenses d) cs (income d) (income_categories d)
        (budget d) (savings_goals d).

Definition with_income_categories (d : db) (cs : list category_row) : db :=
  mk_db (expenses d) (expense_categories d) (income d) cs
        (budget d) (savings_goals d).

Module ExpenseManager.

Definition add_expense_category (d : db) (rowid : Z) (name : string)
  : Ledger.category_outcome * db :=
  let r := Ledger.add_category (expense_categories d) rowid name in
  (fst r, with_expense_categories d (snd r)).

Definition delete_expense_category (d : db) (cat_in : option Z)
  : Ledger.delete_outcome * db :=
  let r := Ledger.delete_category (expense_categories d) (expenses d) cat_in in
  (fst r, with_expense_categories d (snd r)).

Definition add_expense (strptime_ok : string -> bool) (d : db) (amt : Q)
           (dates : list string) (rowid : Z) (name : string)
           (choice_in : option Z) : Ledger.add_outcome * db :=
  let r := Ledger.add_entry strptime_ok (expense_categories d) (expenses d)
                            amt dates rowid name choice_in in
  (fst r,
   with_expenses (with_expense_categories d (fst (snd r))) (snd (snd r))).



Definition view_expenses_by_category (d : db) (mo yr : Z) (cat_in : option Z)
  : Ledger.view_outcome :=
  Ledger.view_by_category (expense_categories d) (expenses d) mo yr cat_in.

Definition update_expense_amount (d : db) (month_in year_in id_in : option Z)
           (amount_in : option Q) : Ledger.update_outcome * db :=
  let r := Ledger.update_amount (expenses d) month_in year_in id_in amount_in in
  (fst r, with_expenses d (snd r)).

End ExpenseManager.

Module IncomeManager.

Definition add_income_category (d : db) (rowid : Z) (name : string)
  : Ledger.category_outcome * db :=
  let r := Ledger.add_category (income_categories d) rowid name in
  (fst r, with_income_categories d (snd r)).

Definition delete_income_category (d : db) (cat_in : option Z)
  : Ledger.delete_outcome * db :=
  let r := Ledger.delete_category (income_categories d) (income d) cat_in in
  (fst r, with_income_categories d (snd r)).

Definition add_income (strptime_ok : string -> bool) (d : db) (amt : Q)
           (dates : list string) (rowid : Z) (name : string)
           (choice_in : option Z) : Ledger.add_outcome * db :=
  let r := Ledger.add_entry strptime_ok (income_categories d) (income d)
                            amt dates rowid name choice_in in
  (fst r,
   with_income (with_income_categories d (fst (snd r))) (snd (snd r))).

Definition add_income_typed (strptime_ok : string -> bool) (d : db)
           (amt : typed_float) (dates : list string) (rowid : Z)
           (name : string) (choice_in : option Z) : Ledger.add_outcome * db :=
  let r := Ledger.add_entry_typed strptime_ok (income_categories d)
                                  (income d) amt dates rowid name choice_in in
  (fst r,
   with_income (with_income_categories d (fst (snd r))) (snd (snd r))).

Definition view_income (d : db) (mo yr : Z) (cat : option string)
  : bool * list entry :=
  Ledger.view (income d) mo yr cat.

Definition view_income_by_category (d : db) (mo yr : Z) (cat_in : option Z)
  : Ledger.view_outcome :=
  Ledger.view_by_category (income_categories d) (income d) mo yr cat_in.

Definition update_income_record (d : db) (month_in year_in id_in : option Z)
           (amount_in : option Q) : Ledger.update_outcome * db :=
  let r := Ledger.update_amount (income d) month_in year_in id_in amount_in in
  (fst r, with_income d (snd r)).

End IncomeManager.

(** ** MainMenu: the Manage Budgets submenu *)

Module MainMenu.

(** What is typed during one pass of the [while True] loop of
    [manage_budgets_menu]: the option, then, as far as the pass asks,
    the category id, the amount, the month and the year ([None] where
    [int] or [float] raises [ValueError]). *)
Record budget_pass := mk_budget_pass {
  pass_choice : string;
  pass_category : option Z;
  pass_amount : option Q;
  pass_month : option Z;
  pass_year : option Z
}.

(** One pass: [None] is [break], [Some] the store the next pass starts
    from (every other exit of the pass is a [continue]). *)
Definition manage_budgets_pass (d : db) (p : budget_pass) : option db :=
  if String.eqb (pass_choice p) "1" then
    match expense_categories d with
    | [] => Some d
    | categories =>
        match pass_category p with
        | None => Some d
        | Some cat_id =>
            match Ledger.pick_category categories cat_id with
            | None => Some d
            | Some selected_category =>
                match pass_amount p, pass_month p with
                | Some budget_amt, Some mo =>
                    if negb ((1 <=? mo) && (mo <=? 12))%Z then Some d
                    else
                      match pass_year p with
                      | None => Some d
                      | Some yr =>
                          if (yr <=? 0)%Z then Some d
                          else Some (BudgetManager.set_budget
                                       d selected_category budget_amt mo yr)
                      end
                | _, _ => Some d
                end
            end
        end
    end
  else if String.eqb (pass_choice p) "2" then None
  else Some d.

(** The loop over what is typed; when the console closes ([EOFError])
    the store is what the passes before left. *)
Fixpoint manage_budgets_menu (d : db) (script : list budget_pass) : db :=
  match script with
  | [] => d
  | p :: rest =>
      match manage_budgets_pass d p with
      | None => d
      | Some d' => manage_budgets_menu d' rest
      end
  end.

End MainMenu.

(** ** REAL arithmetic: [remove_or_move_savings] over binary64

    [current_saved REAL DEFAULT 0] holds NULL or a binary64 double, the
    two UPDATE statements compute in binary64, and SQLite has no nan: a
    nan that is bound or computed is NULL.  This module reads
    [remove_or_move_savings] over the two columns it reads and writes,
    [id] and [current_saved], with those values. *)

Module Binary64.

Definition real := option float.

(** A Python float as a statement parameter, and a double as the value
    of an SQL expression. *)
Definition of_float (x : float) : real :=
  if PrimFloat.is_nan x then None else Some x.

(** SQL [a + b] and [a - b] on REAL: NULL when either side is NULL. *)
Definition sql_add (a b : real) : real :=
  match a, b with
  | Some x, Some y => of_float (x + y)%float
  | _, _ => None
  end.

Definition sql_sub (a b : real) : real :=
  match a, b with
  | Some x, Some y => of_float (x - y)%float
  | _, _ => None
  end.

Record saved_row := mk_saved {
  row_id : Z;
  row_saved : real
}.

(** [UPDATE savings_goals SET current_saved = current_saved + ? WHERE id = ?] *)
Definition update_add (rows : list saved_row) (id : Z) (amt : real)
  : list saved_row :=
  map (fun r => if (row_id r =? id)%Z
                then mk_saved (row_id r) (sql_add (row_saved r) amt) else r)
      rows.

(** [UPDATE savings_goals SET current_saved = current_saved - ? WHERE id = ?] *)
Definition update_sub (rows : list saved_row) (id : Z) (amt : real)
  : list saved_row :=
  map (fun r => if (row_id r =? id)%Z
                then mk_saved (row_id r) (sql_sub (row_saved r) amt) else r)
      rows.

(** [SELECT current_saved FROM savings_goals WHERE id = ?] *)
Definition select_current_saved (rows : list saved_row) (id : Z) : list real :=
  map row_saved (filter (fun r => (row_id r =? id)%Z) rows).

Definition is_null (v : real) : bool :=
  match v with
  | None => true
  | Some _ => false
  end.

(** The listing formats every [current_saved] with [:.2f], which raises
    [TypeError] on [None]; the SELECT binds [goal_id], the credit of a
    transfer binds [new_goal_id] before the debit runs; [amt >
    current_saved] is the comparison of doubles, false on nan. *)
Definition remove_or_move_savings (rows : list saved_row)
           (goal_in : option Z) (amt_in : option float) (action : string)
           (new_goal_in : option Z)
  : call (GoalManager.move_outcome * list saved_row) :=
  match rows with
  | [] => Returned (GoalManager.NoGoalsFound, rows)
  | _ =>
      if existsb (fun r => is_null (row_saved r)) rows then Raised TypeError
      else
        match goal_in, amt_in with
        | Some id, Some amt =>
            if fits_int64 id then
              match select_current_saved rows id with
              | [] => Returned (GoalManager.GoalNotFound, rows)
              | None :: _ => Raised TypeError
              | Some current_saved :: _ =>
                  if (current_saved <? amt)%float
                  then Returned (GoalManager.CannotRemoveMore, rows)
                  else if String.eqb action "1" then
                    Returned (GoalManager.AmountRemoved,
                              update_sub rows id (of_float amt))
                  else if String.eqb action "2" then
                    match new_goal_in with
                    | None => Returned (GoalManager.InvalidGoalId, rows)
                    | Some new_id =>
                        if fits_int64 new_id then
                          Returned
                            (GoalManager.AmountTransferred,
                             update_sub
                               (update_add rows new_id (of_float amt))
                               id (of_float amt))
                        else Raised OverflowError
                    end
                  else Returned (GoalManager.InvalidOption, rows)
              end
            else Raised OverflowError
        | _, _ => Returned (GoalManager.InvalidNumbers, rows)
        end
  end.

End Binary64.

(** ** Schema constraints and readings of the store *)

(** [id INTEGER PRIMARY KEY] on [savings_goals]. *)
Definition unique_ids (gs : list goal) : Prop := NoDup (map goal_id gs).

(** The row of a goal id. *)
Definition lookup_goal (id : Z) (gs : list goal) : option goal :=
  find (fun g => (goal_id g =? id)%Z) gs.

Definition total_saved (gs : list goal) : Q := Qsum (map current_saved gs).

Definition saved_nonneg (gs : list goal) : Prop :=
  Forall (fun g => 0 <= current_saved g) gs.

(** [UNIQUE(category, month, year)] on [budget]. *)
Definition budget_triple (b : budget_row) : string * Z * Z :=
  (budget_category b, budget_month b, budget_year b).

Definition budget_unique (bs : list budget_row) : Prop :=
  NoDup (map budget_triple bs).

(** A calendar date with a four-digit year that does not start with 0. *)
Definition calendar_date (d : date) : Prop :=
  (1000 <= year d <= 9999 /\ 1 <= month d <= 12 /\
   1 <= day d <= days_in_month (year d) (month d))%Z.

(** A ledger row whose [timestamp] is the zero-padded [YYYY-MM-DD] text
    of a calendar date. *)
Definition dated (e : entry) : Prop :=
  exists d, parse_iso (timestamp e) = Some d /\ calendar_date d.

Definition ledger_dated (rows : list entry) : Prop := Forall dated rows.

(** The row is dated in month [mo] of year [yr]. *)
Definition in_period (mo yr : Z) (e : entry) : bool :=
  match parse_iso (timestamp e) with
  | Some d => ((month d =? mo) && (year d =? yr))%Z
  | None => false
  end.

Definition in_category (c : string) (e : entry) : bool :=
  String.eqb (category e) c.

(** The signed difference the verdict line of the budget view stands for:
    "Over budget by x" is [x], "Under budget by x" is [- x]. *)
Definition delta_of (v : BudgetManager.verdict) : Q :=
  match v with
  | BudgetManager.OverBudgetBy q => q
  | BudgetManager.UnderBudgetBy q => - q
  end.

(** A goal row after an accepted amount: amount 0 is a skip and leaves the
    row alone. *)
Definition credit (g : goal) (a : Q) : goal :=
  if Qlt_le_dec 0 a then set_current_saved g (current_saved g + a) else g.

(** Every amount of the sequence is within what the amounts before it
    left of the pool [e]. *)
Fixpoint pool_respected (e : Q) (amounts : list Q) : Prop :=
  match amounts with
  | [] => True
  | a :: rest => 0 <= a /\ a <= e /\ pool_respected (e - a) rest
  end.

(** The rule of the allocation batch: a counter starts at the excess;
    for each goal in turn an answer that is not a number, is negative or
    is above the counter is asked again, and the first other answer is
    the amount of that goal and comes off the counter.
    [accepted_run e n answers amounts]: [n] goals asked with [e] on the
    counter take [amounts], in the order of the goals. *)
Inductive accepted_run : Q -> nat -> list (option Q) -> list Q -> Prop :=
| run_done (e : Q) (answers : list (option Q)) :
    accepted_run e 0 answers []
| run_not_a_number (e : Q) (n : nat) (rest : list (option Q))
                   (amounts : list Q) :
    accepted_run e (S n) rest amounts ->
    accepted_run e (S n) (None :: rest) amounts
| run_negative (e : Q) (n : nat) (a : Q) (rest : list (option Q))
               (amounts : list Q) :
    a < 0 ->
    accepted_run e (S n) rest amounts ->
    accepted_run e (S n) (Some a :: rest) amounts
| run_above_counter (e : Q) (n : nat) (a : Q) (rest : list (option Q))
                    (amounts : list Q) :
    e < a ->
    accepted_run e (S n) rest amounts ->
    accepted_run e (S n) (Some a :: rest) amounts
| run_accepted (e e' : Q) (n : nat) (a : Q) (rest : list (option Q))
               (amounts : list Q) :
    0 <= a -> a <= e -> e' == e - a ->
    accepted_run e' n rest amounts ->
    accepted_run e (S n) (Some a :: rest) (a :: amounts).

(** The row of a goal id in the binary64 reading, and the rational a
    double stands for (none for an infinity or nan). *)
Definition lookup_saved (id : Z) (rows : list Binary64.saved_row)
  : option Binary64.real :=
  option_map Binary64.row_saved
             (find (fun r => (Binary64.row_id r =? id)%Z) rows).

Definition exact (x : float) : option Q :=
  match Prim2SF x with
  | S754_zero _ => Some 0
  | S754_finite s m e =>
      let v := inject_Z (Z.pos m) * Qpower 2 e in
      Some (if s then - v else v)
  | S754_infinity _ => None
  | S754_nan => None
  end.

(** The number a finite double is. *)
Definition value (x : float) : Q :=
  match exact x with
  | Some q => q
  | None => 0
  end.

(** The [id] and [current_saved] columns of a goal table that satisfies
    its PRIMARY KEY and holds no NULL. *)
Definition real_rows (rows : list Binary64.saved_row) : Prop :=
  Forall (fun r => fits_int64 (Binary64.row_id r) = true /\
                   Binary64.row_saved r <> None) rows.

(** What the [for goal in goals] loop records for a sequence of accepted
    amounts, one per goal. *)
Definition record_all (ids : list Z) (amounts : list Q)
           (m : GoalManager.dict) : GoalManager.dict :=
  fold_left (fun acc ka =>
               if Qlt_le_dec 0 (snd ka)
               then GoalManager.dict_set (fst ka) (snd ka) acc else acc)
            (combine ids amounts) m.

(** One row through the final update loop. *)
Definition credit_all (g : goal) (m : GoalManager.dict) : goal :=
  fold_left (fun h kv =>
               if (goal_id h =? fst kv)%Z
               then set_current_saved h (current_saved h + snd kv) else h)
            m g.

(** Both UPDATE statements on [savings_goals] rewrite [current_saved] of
    the rows with the given id. *)
Definition update_saved (f : Q -> Q) (gs : list goal) (id : Z) : list goal :=
  map (fun g => if (goal_id g =? id)%Z
                then set_current_saved g (f (current_saved g)) else g) gs.

(** Reading a decimal numeral back. *)
Definition int_of_text (s : string) : option Z :=
  option_map Z.of_int (NilZero.int_of_string s).

(** [name TEXT UNIQUE] and [id INTEGER PRIMARY KEY] on a category table. *)
Definition names_unique (cats : list category_row) : Prop :=
  NoDup (map category_name cats).

Definition category_ids_unique (cats : list category_row) : Prop :=
  NoDup (map category_id cats).

(** [id INTEGER PRIMARY KEY] on a ledger table. *)
Definition entry_ids_unique (rows : list entry) : Prop :=
  NoDup (map entry_id rows).

(** Every ledger row names a category of the table. *)
Definition categories_cover (cats : list category_row) (rows : list entry)
  : Prop :=
  Forall (fun e => In (category e) (map category_name cats)) rows.

(** A budget row as the Manage Budgets menu lets one be entered. *)
Definition budget_row_valid (cats : list category_row) (b : budget_row) : Prop :=
  (1 <= budget_month b <= 12)%Z /\ (0 < budget_year b)%Z /\
  In (budget_category b) (map category_name cats).

(** The key of [ORDER BY year, month, category] as an order on rows. *)
Definition budget_ordered (a b : budget_row) : Prop :=
  BudgetManager.budget_le a b = true.

(** ** Stores used in the examples *)

(** Two goals holding 200 and 10. *)
Definition two_goals : db :=
  mk_db [] [] [] [] []
        [mk_goal 1 "Holiday" 1000 200 "2026-01-01";
         mk_goal 2 "Laptop" 500 10 "2026-06-01"].

(** Income 1000 on 2025-03-01, expense 400 in "Food" on 2025-03-15 and a
    budget of 300 for "Food" in 3/2025, entered into the empty store. *)
Definition march_2025 : db :=
  BudgetManager.set_budget
    (insert_expense (insert_income empty_db "Salary" 1000 "2025-03-01")
                    "Food" 400 "2025-03-15")
    "Food" 300 3 2025.

(** The same ledger with goals holding 200 and 10: 390 of the month's net
    600 is not yet saved. *)
Definition march_goals : db :=
  with_goals march_2025 (savings_goals two_goals).

(** The same ledger with goals holding 500 and 200: more is saved than
    the month's net 600. *)
Definition march_oversaved : db :=
  with_goals march_2025
    [mk_goal 1 "Holiday" 1000 500 "2026-01-01";
     mk_goal 2 "Laptop" 500 200 "2026-06-01"].

(** A goal with a negative target and a goal with target 0. *)
Definition odd_targets : db :=
  mk_db [] [] [] [] []
        [mk_goal 1 "Debt" (-100) 50 "2026-01-01";
         mk_goal 2 "Open" 0 50 "2026-01-01";
         mk_goal 3 "Car" 200 50 "2026-01-01"].

(** Three expense categories, two of them in use. *)
Definition some_categories : list category_row :=
  [mk_category 1 "Food"; mk_category 2 "Rent"; mk_category 3 "Travel"].

Definition some_rows : list entry :=
  [mk_entry 1 "Food" 400 "2025-03-15"; mk_entry 2 "Rent" 900 "2025-04-01"].

(** A stand-in for [strptime] in the examples: it lets the zero-padded
    date texts through. *)
Definition accepts_iso (s : string) : bool :=
  match parse_iso s with
  | Some _ => true
  | None => false
  end.

(** The March ledger and goals with the categories "Food" and "Rent". *)
Definition household : db :=
  with_expense_categories march_goals
    [mk_category 1 "Food"; mk_category 2 "Rent"].

(** The same two goals in the binary64 reading, and two goals holding
    0.3 and 0.7. *)
Definition two_real_goals : list Binary64.saved_row :=
  [Binary64.mk_saved 1 (Some 200%float); Binary64.mk_saved 2 (Some 10%float)].

Definition tenths : list Binary64.saved_row :=
  [Binary64.mk_saved 1 (Some 0.3%float); Binary64.mk_saved 2 (Some 0.7%float)].

(** The store before the March scenario is typed in: the categories
    "Food" and "Salary", a budget of 300 for "Food" in 3/2025 and one goal
    with nothing saved. *)
Definition before_march : db :=
  BudgetManager.set_budget
    (mk_db [] [mk_category 1 "Food"] [] [mk_category 1 "Salary"] []
           [mk_goal 1 "Holiday" 1000 0 "2026-01-01"])
    "Food" 300 3 2025.

(** Text cut at the dashes. *)
Fixpoint split_dash (s cur : string) : list string :=
  match s with
  | EmptyString => [cur]
  | String c rest =>
      if dash c then cur :: split_dash rest ""
      else split_dash rest (cur ++ String c "")
  end.

Fixpoint digits_value (s : string) (acc : Z) : option Z :=
  match s with
  | EmptyString => Some acc
  | String c rest =>
      match digit_of_ascii c with
      | Some n => digits_value rest (10 * acc + n)%Z
      | None => None
      end
  end.

(** A stand-in for [strptime(_, '%Y-%m-%d')] in the examples that, like
    it, takes the month and the day with or without the leading zero: a
    year of four digits and a month and a day of one or two digits that
    are on the calendar. *)
Definition accepts_unpadded (s : string) : bool :=
  match split_dash s "" with
  | [y; m; d] =>
      match digits_value y 0, digits_value m 0, digits_value d 0 with
      | Some yv, Some mv, Some dv =>
          (String.length y =? 4)%nat &&
          (1 <=? String.length m)%nat && (String.length m <=? 2)%nat &&
          (1 <=? String.length d)%nat && (String.length d <=? 2)%nat &&
          ((1 <=? yv) && (1 <=? mv) && (mv <=? 12) &&
           (1 <=? dv) && (dv <=? days_in_month yv mv))%Z
      | _, _, _ => false
      end
  | _ => false
  end.

(** Budgets entered out of order. *)
Definition unordered_budgets : db :=
  with_budget empty_db
    [mk_budget 1 "Rent" 900 4 2025; mk_budget 2 "Food" 300 3 2025;
     mk_budget 3 "Food" 250 12 2024; mk_budget 4 "Car" 80 3 2025].

(** * Proofs *)

(** ** Decimal text *)

Lemma to_int_not_nil (z : Z) :
  Z.to_int z <> Decimal.Pos Decimal.Nil /\ Z.to_int z <> Decimal.Neg Decimal.Nil.
Proof.
  destruct z as [|p|p]; simpl; split; try discriminate;
    intros H; injection H as H; now apply DecimalPos.Unsigned.to_uint_nonnil in H.
Qed.

Lemma int_of_text_str (z : Z) : int_of_text (str z) = Some z.
Proof.
  unfold int_of_text, str.
  destruct (to_int_not_nil z) as [Hp Hn].
  rewrite NilZero.isi by assumption.
  simpl. now rewrite DecimalZ.of_to.
Qed.

Lemma str_inj (a b : Z) : str a = str b -> a = b.
Proof.
  intros H. apply (f_equal int_of_text) in H.
  rewrite !int_of_text_str in H. congruence.
Qed.

(** From [str z = "<numeral>"] to the value of [z]. *)
Ltac read_str H :=
  apply (f_equal int_of_text) in H; rewrite int_of_text_str in H;
  vm_compute in H; injection H as H.

Lemma fmt02_month (mo m' : Z) :
  (1 <= m' <= 12)%Z -> fmt02 mo = digits2 m' <-> mo = m'.
Proof.
  intros Hr.
  assert (Hc : (m' = 1 \/ m' = 2 \/ m' = 3 \/ m' = 4 \/ m' = 5 \/ m' = 6 \/
                m' = 7 \/ m' = 8 \/ m' = 9 \/ m' = 10 \/ m' = 11 \/ m' = 12)%Z)
    by lia.
  split.
  - unfold fmt02.
    remember (str mo) as s eqn:Hs. symmetry in Hs.
    destruct (String.length s <? 2)%nat eqn:Hlen; intros H;
      repeat (destruct Hc as [Hc | Hc]); subst m';
      vm_compute in H; try discriminate H;
      try (injection H as H); rewrite H in Hs, Hlen; clear H;
      read_str Hs; subst mo; try reflexivity; vm_compute in Hlen; discriminate.
  - intros ->. repeat (destruct Hc as [Hc | Hc]); subst m'; reflexivity.
Qed.

Lemma digits4_is_str_table :
  forallb (fun n => let y := (1000 + Z.of_nat n)%Z in
                    String.eqb (digits4 y) (str y))
          (seq 0 (Z.to_nat 9000)) = true.
Proof. vm_compute. reflexivity. Qed.

Lemma digits4_is_str (y : Z) : (1000 <= y <= 9999)%Z -> digits4 y = str y.
Proof.
  intros Hr.
  pose proof digits4_is_str_table as H.
  rewrite forallb_forall in H.
  specialize (H (Z.to_nat (y - 1000))).
  cbv zeta in H.
  replace (1000 + Z.of_nat (Z.to_nat (y - 1000)))%Z with y in H by lia.
  apply String.eqb_eq, H, in_seq. lia.
Qed.

Lemma str_year (yr y' : Z) :
  (1000 <= y' <= 9999)%Z -> str yr = digits4 y' <-> yr = y'.
Proof.
  intros Hr. rewrite digits4_is_str by assumption.
  split; [apply str_inj | now intros ->].
Qed.

(** ** Date text *)

Lemma digit_of_ascii_inv (c : ascii) (n : Z) :
  digit_of_ascii c = Some n -> (0 <= n <= 9)%Z /\ ascii_of_digit n = c.
Proof.
  destruct c as [[] [] [] [] [] [] [] []]; intros H; vm_compute in H;
    try discriminate H; injection H as <-; (split; [lia | reflexivity]).
Qed.

Lemma ascii_of_digit_eq (n k : Z) :
  (n mod 10 = k mod 10)%Z -> ascii_of_digit n = ascii_of_digit k.
Proof. unfold ascii_of_digit. now intros ->. Qed.

Lemma digits2_of (f g : Z) :
  (0 <= f <= 9)%Z -> (0 <= g <= 9)%Z ->
  digits2 (10 * f + g) = String (ascii_of_digit f) (String (ascii_of_digit g) "").
Proof.
  intros Hf Hg. unfold digits2.
  rewrite (ascii_of_digit_eq ((10 * f + g) / 10) f),
          (ascii_of_digit_eq (10 * f + g) g);
    [reflexivity | |]; Z.div_mod_to_equations; lia.
Qed.

Lemma digits4_of (a b c e : Z) :
  (0 <= a <= 9)%Z -> (0 <= b <= 9)%Z -> (0 <= c <= 9)%Z -> (0 <= e <= 9)%Z ->
  digits4 (1000 * a + 100 * b + 10 * c + e) =
  String (ascii_of_digit a) (String (ascii_of_digit b)
    (String (ascii_of_digit c) (String (ascii_of_digit e) ""))).
Proof.
  intros Ha Hb Hc He. unfold digits4.
  set (y := (1000 * a + 100 * b + 10 * c + e)%Z).
  rewrite (ascii_of_digit_eq (y / 1000) a), (ascii_of_digit_eq (y / 100) b),
          (ascii_of_digit_eq (y / 10) c), (ascii_of_digit_eq y e);
    [reflexivity | | | |]; subst y; Z.div_mod_to_equations; lia.
Qed.

(** [parse_iso] reads exactly the canonical texts. *)
Lemma parse_iso_sound (ts : string) (d : date) :
  parse_iso ts = Some d -> ts = iso_text d.
Proof.
  unfold parse_iso.
  do 10 (destruct ts as [|? ts]; try discriminate).
  destruct ts; try discriminate.
  repeat match goal with
         | |- context [digit_of_ascii ?c] =>
             let H := fresh "D" in
             destruct (digit_of_ascii c) eqn:H; try discriminate;
             apply digit_of_ascii_inv in H; destruct H as [? <-]
         end.
  destruct (dash _ && dash _) eqn:Hd; try discriminate.
  apply andb_true_iff in Hd. destruct Hd as [Hs1 Hs2].
  apply Ascii.eqb_eq in Hs1, Hs2. subst.
  intros E.
  match type of E with Some ?x = _ => assert (Hd : d = x) by congruence end.
  clear E. subst d. unfold iso_text. cbn [month year day].
  rewrite !digits2_of, digits4_of by assumption. reflexivity.
Qed.

Lemma digit_of_ascii_of_digit (n : Z) :
  digit_of_ascii (ascii_of_digit n) = Some (n mod 10)%Z.
Proof.
  unfold ascii_of_digit.
  assert (H : (0 <= n mod 10 < 10)%Z) by (apply Z.mod_pos_bound; lia).
  set (k := (n mod 10)%Z) in *.
  assert (Hc : (k = 0 \/ k = 1 \/ k = 2 \/ k = 3 \/ k = 4 \/ k = 5 \/
                k = 6 \/ k = 7 \/ k = 8 \/ k = 9)%Z) by lia.
  clearbody k. repeat (destruct Hc as [Hc | Hc]); subst k; reflexivity.
Qed.

Lemma parse_iso_iso_text (d : date) :
  (0 <= year d <= 9999)%Z -> (0 <= month d <= 99)%Z -> (0 <= day d <= 99)%Z ->
  parse_iso (iso_text d) = Some d.
Proof.
  destruct d as [y m dd]. cbn [year month day]. intros Hy Hm Hd.
  unfold iso_text, digits4, digits2. cbn [year month day append parse_iso].
  rewrite !digit_of_ascii_of_digit. cbn [dash Ascii.eqb Bool.eqb andb].
  f_equal. f_equal; Z.div_mod_to_equations; lia.
Qed.

(** A row is [dated] exactly when its timestamp is the canonical text of
    a calendar date. *)
Lemma dated_iso_text (e : entry) :
  dated e <-> exists d, calendar_date d /\ timestamp e = iso_text d.
Proof.
  unfold dated. split; intros (d & H1 & H2); exists d.
  - split; [assumption | now apply parse_iso_sound].
  - split; [|assumption]. rewrite H2. destruct H1 as (Hy & Hm & Hd).
    apply parse_iso_iso_text; try lia.
    assert (days_in_month (year d) (month d) <= 31)%Z; [|lia].
    unfold days_in_month.
    repeat match goal with |- context [if ?b then _ else _] => destruct b end;
      lia.
Qed.

Lemma parse_iso_fields (ts : string) (d : date) :
  parse_iso ts = Some d ->
  substr_6_2 ts = digits2 (month d) /\ substr_1_4 ts = digits4 (year d).
Proof.
  intros H. apply parse_iso_sound in H. subst ts. split; reflexivity.
Qed.

Lemma sqlite_date_calendar (ts : string) (d : date) :
  parse_iso ts = Some d -> calendar_date d -> sqlite_date ts = Some d.
Proof.
  intros Hp (Hy & Hm & Hd). unfold sqlite_date. rewrite Hp.
  assert (Hdim : (days_in_month (year d) (month d) <= 31)%Z).
  { unfold days_in_month.
    repeat match goal with |- context [if ?b then _ else _] => destruct b end;
      lia. }
  replace ((1 <=? month d) && (month d <=? 12) &&
           (1 <=? day d) && (day d <=? 31))%Z with true
    by (symmetry; rewrite !andb_true_iff; repeat split; lia).
  replace (day d <=? days_in_month (year d) (month d))%Z with true
    by (symmetry; lia).
  reflexivity.
Qed.

Lemma string_eqb_iff (a b : string) (P : Prop) :
  (a = b <-> P) -> forall p : bool, (p = true <-> P) -> String.eqb a b = p.
Proof.
  intros H p Hp. destruct (String.eqb_spec a b) as [E | E], p; try reflexivity.
  - apply H, Hp in E. discriminate.
  - exfalso. apply E, H, Hp. reflexivity.
Qed.

(** On a dated row, the strftime condition of the period queries selects
    by the month and year of the date. *)
Lemma period_strftime_dated (mo yr : Z) (e : entry) :
  dated e -> period_strftime mo yr e = in_period mo yr e.
Proof.
  intros (d & Hp & Hc). unfold period_strftime, in_period, strftime_m, strftime_Y.
  rewrite (sqlite_date_calendar _ _ Hp Hc), Hp. cbn [option_map sql_text_eq].
  destruct Hc as (Hy & Hm & _).
  f_equal.
  - apply string_eqb_iff with (P := month d = mo).
    + destruct (fmt02_month mo (month d) Hm) as [F1 F2].
      split; intros E; symmetry; [apply F1 | apply F2]; congruence.
    + apply Z.eqb_eq.
  - apply string_eqb_iff with (P := year d = yr).
    + destruct (str_year yr (year d) Hy) as [F1 F2].
      split; intros E; symmetry; [apply F1 | apply F2]; congruence.
    + apply Z.eqb_eq.
Qed.

(** So does the SUBSTR condition of the budget view. *)
Lemma category_period_substr_dated (c : string) (mo yr : Z) (e : entry) :
  dated e ->
  category_period_substr c mo yr e = in_category c e && in_period mo yr e.
Proof.
  intros (d & Hp & Hc). unfold category_period_substr, in_category, in_period.
  destruct (parse_iso_fields _ _ Hp) as [Hm' Hy']. rewrite Hp, Hm', Hy'.
  destruct Hc as (Hy & Hm & _).
  rewrite <- andb_assoc. f_equal. f_equal.
  - apply string_eqb_iff with (P := month d = mo).
    + destruct (fmt02_month mo (month d) Hm) as [F1 F2].
      split; intros E; symmetry; [apply F1 | apply F2]; congruence.
    + apply Z.eqb_eq.
  - apply string_eqb_iff with (P := year d = yr).
    + destruct (str_year yr (year d) Hy) as [F1 F2].
      split; intros E; symmetry; [apply F1 | apply F2]; congruence.
    + apply Z.eqb_eq.
Qed.

Lemma filter_ext_Forall {A} (f g : A -> bool) (P : A -> Prop) (l : list A) :
  Forall P l -> (forall x, P x -> f x = g x) -> filter f l = filter g l.
Proof.
  intros HF Hfg. induction HF as [|x l Hx _ IH]; simpl; [reflexivity|].
  rewrite (Hfg x Hx), IH. reflexivity.
Qed.

Lemma total_amount_strftime (mo yr : Z) (rows : list entry) :
  ledger_dated rows ->
  total_amount (period_strftime mo yr) rows =
  total_amount (in_period mo yr) rows.
Proof.
  intros H. unfold total_amount.
  rewrite (filter_ext_Forall _ (in_period mo yr) dated rows H); [reflexivity|].
  intros x Hx. now apply period_strftime_dated.
Qed.

Lemma total_amount_substr (c : string) (mo yr : Z) (rows : list entry) :
  ledger_dated rows ->
  total_amount (category_period_substr c mo yr) rows =
  total_amount (fun e => in_category c e && in_period mo yr e) rows.
Proof.
  intros H. unfold total_amount.
  rewrite (filter_ext_Forall _ (fun e => in_category c e && in_period mo yr e)
             dated rows H); [reflexivity|].
  intros x Hx. now apply category_period_substr_dated.
Qed.

(** Outside [dated] the two conditions do not read a month and year: a
    timestamp typed without zero padding is NULL to [strftime] and has
    "3-" at the SUBSTR position, and a year below 1000 is "0999" in the
    text but "999" in the parameter. *)
Example unpadded_or_short_year_not_selected :
  period_strftime 3 2025 (mk_entry 1 "Food" 400 "2025-3-15") = false /\
  category_period_substr "Food" 3 2025 (mk_entry 1 "Food" 400 "2025-3-15")
  = false /\
  period_strftime 3 999 (mk_entry 1 "Food" 400 "0999-03-15") = false.
Proof. repeat split; reflexivity. Qed.

(** ** Sums *)

Lemma Qsum_acc (l : list Q) (x : Q) : fold_left Qplus l x == x + Qsum l.
Proof.
  unfold Qsum. revert x. induction l as [|a l IH]; intros x; simpl.
  - lra.
  - rewrite (IH (x + a)), (IH (0 + a)). lra.
Qed.

Lemma Qsum_cons (a : Q) (l : list Q) : Qsum (a :: l) == a + Qsum l.
Proof. unfold Qsum at 1. simpl. rewrite Qsum_acc. lra. Qed.

Lemma coalesce_sum (l : list Q) : coalesce (sql_sum l) 0 == Qsum l.
Proof. destruct l; simpl; reflexivity. Qed.

(** ** Updates of the goal table *)

Lemma update_add_saved (gs : list goal) (id : Z) (a : Q) :
  update_add gs id a = update_saved (fun s => s + a) gs id.
Proof. reflexivity. Qed.

Lemma update_sub_saved (gs : list goal) (id : Z) (a : Q) :
  update_sub gs id a = update_saved (fun s => s - a) gs id.
Proof. reflexivity. Qed.

Section UpdateSaved.
Variable f : Q -> Q.

Lemma update_saved_ids (gs : list goal) (id : Z) :
  map goal_id (update_saved f gs id) = map goal_id gs.
Proof.
  induction gs as [|g gs IH]; simpl; [reflexivity|].
  rewrite IH. now destruct (goal_id g =? id)%Z.
Qed.

Lemma update_saved_absent (gs : list goal) (id : Z) :
  ~ In id (map goal_id gs) -> update_saved f gs id = gs.
Proof.
  induction gs as [|g gs IH]; simpl; intros H; [reflexivity|].
  destruct (Z.eqb_spec (goal_id g) id) as [E | E].
  - exfalso. apply H. now left.
  - f_equal. apply IH. intros HI. apply H. now right.
Qed.

Lemma lookup_update_same (gs : list goal) (id : Z) (g : goal) :
  lookup_goal id gs = Some g ->
  lookup_goal id (update_saved f gs id) =
  Some (set_current_saved g (f (current_saved g))).
Proof.
  unfold lookup_goal.
  induction gs as [|h gs IH]; simpl; intros H; [discriminate|].
  destruct (goal_id h =? id)%Z eqn:E; simpl; rewrite E.
  - now injection H as ->.
  - now apply IH.
Qed.

Lemma lookup_update_other (gs : list goal) (id id' : Z) :
  id' <> id ->
  lookup_goal id' (update_saved f gs id) = lookup_goal id' gs.
Proof.
  unfold lookup_goal. intros Hne.
  induction gs as [|h gs IH]; simpl; [reflexivity|].
  destruct (Z.eqb_spec (goal_id h) id) as [E | E]; simpl.
  - replace (goal_id h =? id')%Z with false by (symmetry; apply Z.eqb_neq; lia).
    apply IH.
  - destruct (goal_id h =? id')%Z; [reflexivity | apply IH].
Qed.

(** With unique ids the UPDATE rewrites one row, so the total moves by
    what that row moves by. *)
Lemma total_update_saved (gs : list goal) (id : Z) (g : goal) :
  unique_ids gs -> lookup_goal id gs = Some g ->
  total_saved (update_saved f gs id) ==
  total_saved gs - current_saved g + f (current_saved g).
Proof.
  unfold unique_ids, lookup_goal, total_saved.
  induction gs as [|h gs IH]; simpl; intros Hn H; [discriminate|].
  inversion Hn as [|? ? Hnot Hn']; subst.
  destruct (Z.eqb_spec (goal_id h) id) as [E | E]; simpl.
  - injection H as ->. rewrite E in Hnot.
    change (map (fun g0 => if (goal_id g0 =? id)%Z
              then set_current_saved g0 (f (current_saved g0)) else g0) gs)
      with (update_saved f gs id).
    rewrite (update_saved_absent gs id Hnot), !Qsum_cons. lra.
  - rewrite !Qsum_cons.
    change (map (fun g0 => if (goal_id g0 =? id)%Z
              then set_current_saved g0 (f (current_saved g0)) else g0) gs)
      with (update_saved f gs id).
    rewrite (IH Hn' H). lra.
Qed.
End UpdateSaved.

Lemma select_current_saved_lookup (gs : list goal) (id : Z) :
  hd_error (select_current_saved gs id) =
  option_map current_saved (lookup_goal id gs).
Proof.
  unfold select_current_saved, lookup_goal.
  induction gs as [|h gs IH]; simpl; [reflexivity|].
  destruct (goal_id h =? id)%Z; [reflexivity | apply IH].
Qed.

Lemma select_of_lookup (gs : list goal) (id : Z) (g : goal) :
  lookup_goal id gs = Some g ->
  exists rest, select_current_saved gs id = current_saved g :: rest.
Proof.
  intros H. pose proof (select_current_saved_lookup gs id) as E.
  rewrite H in E. simpl in E.
  destruct (select_current_saved gs id) as [|s rest]; [discriminate|].
  injection E as ->. now exists rest.
Qed.

Import BudgetManager GoalManager.

(** ** Removing and transferring savings *)

Lemma goals_of_lookup (d : db) (id : Z) (g : goal) :
  lookup_goal id (savings_goals d) = Some g ->
  exists h gs rest,
    savings_goals d = h :: gs /\
    select_current_saved (h :: gs) id = current_saved g :: rest.
Proof.
  intros H. destruct (select_of_lookup _ _ _ H) as [rest Hs].
  destruct (savings_goals d) as [|h gs] eqn:E; [discriminate|].
  now exists h, gs, rest.
Qed.



(** The transfer in the exact reading of the store: with unique goal
    ids, transferring [x] from the goal under [id1] to a different
    existing goal under [id2], [x] at most what the source has saved,
    leaves the source with [current_saved - x], the destination with
    [current_saved + x] and, as long as nothing is rounded, the sum over
    all goals unchanged. *)
Lemma transfer_conserves (d : db) (id1 id2 : Z) (g1 g2 : goal) (x : Q) :
  unique_ids (savings_goals d) ->
  lookup_goal id1 (savings_goals d) = Some g1 ->
  lookup_goal id2 (savings_goals d) = Some g2 ->
  id1 <> id2 ->
  x <= current_saved g1 ->
  exists d',
    remove_or_move_savings d (Some id1) (Some x) "2" (Some id2)
    = (AmountTransferred, d') /\
    lookup_goal id1 (savings_goals d')
    = Some (set_current_saved g1 (current_saved g1 - x)) /\
    lookup_goal id2 (savings_goals d')
    = Some (set_current_saved g2 (current_saved g2 + x)) /\
    (forall id', id' <> id1 -> id' <> id2 ->
       lookup_goal id' (savings_goals d') = lookup_goal id' (savings_goals d)) /\
    total_saved (savings_goals d') == total_saved (savings_goals d).
Proof.
  intros Hu H1 H2 Hne Hx.
  destruct (goals_of_lookup d id1 g1 H1) as (h & gs & rest & Hg & Hs).
  unfold remove_or_move_savings. rewrite Hg in *. rewrite Hs.
  destruct (Qlt_le_dec (current_saved g1) x) as [Hlt | _]; [lra|].
  cbn [String.eqb Ascii.eqb Bool.eqb].
  eexists. split; [reflexivity|]. cbn [savings_goals with_goals].
  rewrite update_sub_saved, update_add_saved.
  set (gs1 := update_saved (fun s => s + x) (h :: gs) id2).
  assert (L1 : lookup_goal id1 gs1 = Some g1).
  { subst gs1. rewrite lookup_update_other by assumption. exact H1. }
  assert (L2 : lookup_goal id2 gs1
               = Some (set_current_saved g2 (current_saved g2 + x))).
  { subst gs1. now apply lookup_update_same. }
  assert (U1 : unique_ids gs1).
  { subst gs1. unfold unique_ids. now rewrite update_saved_ids. }
  repeat split.
  - now apply lookup_update_same.
  - rewrite lookup_update_other by congruence. exact L2.
  - intros id' N1 N2. subst gs1. now rewrite !lookup_update_other by assumption.
  - rewrite (total_update_saved _ gs1 id1 g1 U1 L1). subst gs1.
    rewrite (total_update_saved _ (h :: gs) id2 g2 Hu H2). lra.
Qed.

Lemma unique_ids_two_goals : unique_ids (savings_goals two_goals).
Proof.
  unfold unique_ids. simpl.
  constructor; [simpl; intros [H | []]; discriminate|].
  constructor; [simpl; tauto | constructor].
Defined.

(** C2 (transfer to a goal that does not exist).  Goal 99 is not in the
    table: the credit UPDATE matches no row, the debit UPDATE still runs,
    the method reports success, and 50 has left goal 1 without arriving
    anywhere. *)
Theorem transfer_to_missing_goal_debits_source :
  lookup_goal 99 (savings_goals two_goals) = None /\
  remove_or_move_savings two_goals (Some 1%Z) (Some 50) "2" (Some 99%Z)
  = (AmountTransferred,
     with_goals two_goals
       [mk_goal 1 "Holiday" 1000 (200 - 50) "2026-01-01";
        mk_goal 2 "Laptop" 500 10 "2026-06-01"]) /\
  ~ total_saved (savings_goals
       (snd (remove_or_move_savings two_goals (Some 1%Z) (Some 50) "2"
               (Some 99%Z))))
    == total_saved (savings_goals two_goals).
Proof.
  split; [reflexivity|]. split; [reflexivity|]. vm_compute. discriminate.
Qed.

(** C4 (negative amount).  Every [current_saved] is non-negative before;
    a transfer of -50 from goal 1 to goal 2 passes the only check
    ([amt > current_saved]), and goal 2 ends at 10 + -50. *)
Theorem negative_transfer_breaks_nonneg :
  saved_nonneg (savings_goals two_goals) /\
  remove_or_move_savings two_goals (Some 1%Z) (Some (-50)) "2" (Some 2%Z)
  = (AmountTransferred,
     with_goals two_goals
       [mk_goal 1 "Holiday" 1000 (200 - -50) "2026-01-01";
        mk_goal 2 "Laptop" 500 (10 + -50) "2026-06-01"]) /\
  ~ saved_nonneg
      (savings_goals
         (snd (remove_or_move_savings two_goals (Some 1%Z) (Some (-50)) "2"
                 (Some 2%Z)))).
Proof.
  split; [|split].
  - repeat constructor; simpl; discriminate.
  - reflexivity.
  - intros H. simpl in H.
    inversion H as [|? ? _ H']; subst. inversion H' as [|? ? Hneg _]; subst.
    simpl in Hneg. revert Hneg. vm_compute. intros F. now apply F.
Qed.

(** ** The transfer in REAL arithmetic *)

Section RealRows.

Import Binary64.

Variable f : real -> real.

(** Both UPDATE statements rewrite [current_saved] of the rows of one id. *)
Let rewritten (rows : list saved_row) (id : Z) : list saved_row :=
  map (fun r => if (row_id r =? id)%Z
                then mk_saved (row_id r) (f (row_saved r)) else r) rows.

Lemma rewritten_ids (rows : list saved_row) (id : Z) :
  map row_id (rewritten rows id) = map row_id rows.
Proof.
  unfold rewritten. rewrite map_map. apply map_ext. intros r.
  now destruct (row_id r =? id)%Z.
Qed.

Lemma lookup_rewritten_same (rows : list saved_row) (id : Z) (v : real) :
  lookup_saved id rows = Some v ->
  lookup_saved id (rewritten rows id) = Some (f v).
Proof.
  unfold lookup_saved, rewritten.
  induction rows as [|r rows IH]; simpl; intros H; [discriminate|].
  destruct (row_id r =? id)%Z eqn:E; simpl; rewrite E.
  - simpl in *. now injection H as <-.
  - now apply IH.
Qed.

Lemma lookup_rewritten_other (rows : list saved_row) (id id' : Z) :
  id' <> id ->
  lookup_saved id' (rewritten rows id) = lookup_saved id' rows.
Proof.
  unfold lookup_saved, rewritten. intros N.
  induction rows as [|r rows IH]; simpl; [reflexivity|].
  destruct (Z.eqb_spec (row_id r) id) as [E | _]; simpl.
  - destruct (Z.eqb_spec (row_id r) id') as [E' | _]; [congruence | exact IH].
  - destruct (row_id r =? id')%Z; [reflexivity | exact IH].
Qed.

Lemma rewritten_absent (rows : list saved_row) (id : Z) :
  lookup_saved id rows = None -> rewritten rows id = rows.
Proof.
  unfold lookup_saved, rewritten.
  induction rows as [|r rows IH]; simpl; intros H; [reflexivity|].
  destruct (row_id r =? id)%Z; [discriminate|]. now rewrite IH.
Qed.

End RealRows.

Lemma lookup_saved_In (id : Z) (rows : list Binary64.saved_row)
      (v : Binary64.real) :
  lookup_saved id rows = Some v ->
  exists r, In r rows /\ Binary64.row_id r = id /\ Binary64.row_saved r = v.
Proof.
  unfold lookup_saved.
  destruct (find _ rows) as [r|] eqn:F; [|discriminate].
  intros [= <-]. apply find_some in F. destruct F as [HI E].
  exists r. repeat split; [exact HI | now apply Z.eqb_eq].
Qed.

Lemma select_of_lookup_saved (id : Z) (rows : list Binary64.saved_row)
      (v : Binary64.real) :
  lookup_saved id rows = Some v ->
  exists rest, Binary64.select_current_saved rows id = v :: rest.
Proof.
  unfold lookup_saved, Binary64.select_current_saved.
  induction rows as [|r rows IH]; simpl; intros H; [discriminate|].
  destruct (Binary64.row_id r =? id)%Z.
  - simpl in *. injection H as <-. now eexists.
  - now apply IH.
Qed.

Lemma real_rows_no_null (rows : list Binary64.saved_row) :
  real_rows rows ->
  existsb (fun r => Binary64.is_null (Binary64.row_saved r)) rows = false.
Proof.
  induction 1 as [|r rows [_ Hr] _ IH]; simpl; [reflexivity|].
  rewrite IH. now destruct (Binary64.row_saved r).
Qed.

(** On a table without NULL, with the id of a row and an amount that the
    check [amt > current_saved] lets through, the method is at the
    remove-or-transfer prompt. *)
Lemma remove_or_move_at_prompt (rows : list Binary64.saved_row) (id : Z)
      (s x : float) (action : string) (new_goal_in : option Z) :
  real_rows rows ->
  lookup_saved id rows = Some (Some s) ->
  (s <? x)%float = false ->
  Binary64.remove_or_move_savings rows (Some id) (Some x) action new_goal_in
  = if String.eqb action "1" then
      Returned (AmountRemoved,
                Binary64.update_sub rows id (Binary64.of_float x))
    else if String.eqb action "2" then
      match new_goal_in with
      | None => Returned (InvalidGoalId, rows)
      | Some new_id =>
          if fits_int64 new_id then
            Returned
              (AmountTransferred,
               Binary64.update_sub
                 (Binary64.update_add rows new_id (Binary64.of_float x))
                 id (Binary64.of_float x))
          else Raised OverflowError
      end
    else Returned (InvalidOption, rows).
Proof.
  intros Hr Hl Hx. unfold Binary64.remove_or_move_savings.
  destruct (lookup_saved_In _ _ _ Hl) as (r & HI & Hid & _).
  assert (Hfit : fits_int64 id = true).
  { unfold real_rows in Hr. rewrite Forall_forall in Hr.
    destruct (Hr r HI) as [Hf _]. now rewrite <- Hid. }
  destruct (select_of_lookup_saved _ _ _ Hl) as [rest Hs].
  rewrite (real_rows_no_null rows Hr), Hfit, Hs, Hx.
  destruct rows; [contradiction | reflexivity].
Qed.

(** C3 as stated, in the arithmetic of the program: 0.1 transferred from
    a goal holding 0.3 to a goal holding 0.7.  The amount is within what
    the source holds and the transfer is carried out; the destination
    ends at the double nearest to 0.7 + 0.1, which is not 0.7 + 0.1, and
    the two goals together hold less than before: their sum, as numbers
    and as the double that adding them gives, has changed. *)
Lemma transfer_rounds :
  (0.1 <=? 0.3)%float = true /\
  Binary64.remove_or_move_savings tenths (Some 1%Z) (Some 0.1%float) "2"
                                  (Some 2%Z)
  = Returned (AmountTransferred,
              [Binary64.mk_saved 1 (Some (0.3 - 0.1)%float);
               Binary64.mk_saved 2 (Some (0.7 + 0.1)%float)]) /\
  ~ value (0.7 + 0.1)%float == value 0.7%float + value 0.1%float /\
  value (0.3 - 0.1)%float + value (0.7 + 0.1)%float
  < value 0.3%float + value 0.7%float /\
  ((0.3 - 0.1) + (0.7 + 0.1) =? 0.3 + 0.7)%float = false.
Proof.
  split; [reflexivity|]. split; [reflexivity|]. split.
  - vm_compute. discriminate.
  - split; reflexivity.
Qed.

(** C3 (transfer), in the arithmetic of the program.  On a goal table
    without NULL, transferring [x] from the goal under [id1], which holds
    [s1], to a different existing goal under [id2], which holds [s2],
    where [x] is a number and the check [x > s1] does not fire
    ([x <= s1]), is reported as done and leaves the source with the
    double [s1 - x], the destination with the double [s2 + x] and the
    [current_saved] of every other id, and every id, as they were. *)
Theorem transfer_in_binary64 (rows : list Binary64.saved_row) (id1 id2 : Z)
        (s1 s2 x : float) :
  real_rows rows ->
  lookup_saved id1 rows = Some (Some s1) ->
  lookup_saved id2 rows = Some (Some s2) ->
  id1 <> id2 ->
  PrimFloat.is_nan x = false ->
  (s1 <? x)%float = false ->
  exists rows',
    Binary64.remove_or_move_savings rows (Some id1) (Some x) "2" (Some id2)
    = Returned (AmountTransferred, rows') /\
    lookup_saved id1 rows' = Some (Binary64.of_float (s1 - x)%float) /\
    lookup_saved id2 rows' = Some (Binary64.of_float (s2 + x)%float) /\
    (forall id, id <> id1 -> id <> id2 ->
       lookup_saved id rows' = lookup_saved id rows) /\
    map Binary64.row_id rows' = map Binary64.row_id rows.
Proof.
  intros Hr H1 H2 Hne Hnan Hx.
  rewrite (remove_or_move_at_prompt rows id1 s1 x "2" (Some id2) Hr H1 Hx).
  cbn [String.eqb Ascii.eqb Bool.eqb].
  destruct (lookup_saved_In _ _ _ H2) as (r & HI & Hid & _).
  assert (Hfit : fits_int64 id2 = true).
  { unfold real_rows in Hr. rewrite Forall_forall in Hr.
    destruct (Hr r HI) as [Hf _]. now rewrite <- Hid. }
  rewrite Hfit. eexists. split; [reflexivity|].
  assert (Hb : Binary64.of_float x = Some x).
  { unfold Binary64.of_float. now rewrite Hnan. }
  rewrite Hb. unfold Binary64.update_sub, Binary64.update_add.
  set (debit := fun v => Binary64.sql_sub v (Some x)).
  set (credit_x := fun v => Binary64.sql_add v (Some x)).
  split; [|split; [|split]].
  - rewrite (lookup_rewritten_same debit _ id1 (Some s1)); [reflexivity|].
    rewrite (lookup_rewritten_other credit_x) by assumption. exact H1.
  - rewrite (lookup_rewritten_other debit) by congruence.
    now rewrite (lookup_rewritten_same credit_x _ id2 (Some s2)).
  - intros id N1 N2.
    rewrite (lookup_rewritten_other debit) by assumption.
    now rewrite (lookup_rewritten_other credit_x) by assumption.
  - now rewrite (rewritten_ids debit), (rewritten_ids credit_x).
Qed.

Lemma two_real_goals_rows : real_rows two_real_goals.
Proof. repeat constructor; discriminate. Defined.

(** The transfer of 50 from a goal holding 200 to a goal holding 10
    leaves 150 and 60. *)
Lemma transfer_in_binary64_witness :
  exists rows',
    Binary64.remove_or_move_savings two_real_goals (Some 1%Z) (Some 50%float)
                                    "2" (Some 2%Z)
    = Returned (AmountTransferred, rows') /\
    lookup_saved 1 rows' = Some (Some 150%float) /\
    lookup_saved 2 rows' = Some (Some 60%float) /\
    (forall id, id <> 1%Z -> id <> 2%Z ->
       lookup_saved id rows' = lookup_saved id two_real_goals) /\
    map Binary64.row_id rows' = map Binary64.row_id two_real_goals.
Proof.
  apply (transfer_in_binary64 two_real_goals 1 2 200 10 50
           two_real_goals_rows);
    [reflexivity | reflexivity | discriminate | reflexivity | reflexivity].
Defined.

(** X23.  The destination of a transfer is not looked up (C2, in the
    arithmetic of the program and for any table without NULL).  With the
    source under [id1] holding [s1] and a number [x] that the check lets
    through: a destination id that no goal has is reported as a transfer
    done, the source is left with the double [s1 - x] and no other goal
    changes, so [x] is credited to nobody; a destination id that SQLite
    does not take as a 64-bit integer ends the method with
    [OverflowError] at the credit, before the debit. *)
Theorem transfer_destination_unchecked (rows : list Binary64.saved_row)
        (id1 : Z) (s1 x : float) :
  real_rows rows ->
  lookup_saved id1 rows = Some (Some s1) ->
  PrimFloat.is_nan x = false ->
  (s1 <? x)%float = false ->
  (forall id2,
     fits_int64 id2 = true -> lookup_saved id2 rows = None ->
     exists rows',
       Binary64.remove_or_move_savings rows (Some id1) (Some x) "2" (Some id2)
       = Returned (AmountTransferred, rows') /\
       lookup_saved id1 rows' = Some (Binary64.of_float (s1 - x)%float) /\
       (forall id, id <> id1 -> lookup_saved id rows' = lookup_saved id rows)) /\
  (forall id2,
     fits_int64 id2 = false ->
     Binary64.remove_or_move_savings rows (Some id1) (Some x) "2" (Some id2)
     = Raised OverflowError).
Proof.
  intros Hr H1 Hnan Hx. split; intros id2 Hfit;
    rewrite (remove_or_move_at_prompt rows id1 s1 x "2" (Some id2) Hr H1 Hx);
    cbn [String.eqb Ascii.eqb Bool.eqb]; rewrite Hfit; [|reflexivity].
  intros Hnone. eexists. split; [reflexivity|].
  assert (Hb : Binary64.of_float x = Some x).
  { unfold Binary64.of_float. now rewrite Hnan. }
  rewrite Hb.
  set (debit := fun v => Binary64.sql_sub v (Some x)).
  set (credit_x := fun v => Binary64.sql_add v (Some x)).
  assert (E : Binary64.update_add rows id2 (Some x) = rows)
    by exact (rewritten_absent credit_x rows id2 Hnone).
  rewrite E. unfold Binary64.update_sub. split.
  - now rewrite (lookup_rewritten_same debit _ id1 (Some s1)).
  - intros id N. now rewrite (lookup_rewritten_other debit).
Qed.

(** The transfer of 50 from goal 1 to a goal 99, and to a goal 2^63. *)
Lemma transfer_destination_unchecked_witness :
  (exists rows',
     Binary64.remove_or_move_savings two_real_goals (Some 1%Z) (Some 50%float)
                                     "2" (Some 99%Z)
     = Returned (AmountTransferred, rows') /\
     lookup_saved 1 rows' = Some (Some 150%float) /\
     (forall id, id <> 1%Z ->
        lookup_saved id rows' = lookup_saved id two_real_goals)) /\
  Binary64.remove_or_move_savings two_real_goals (Some 1%Z) (Some 50%float)
                                  "2" (Some (2 ^ 63)%Z)
  = Raised OverflowError.
Proof.
  destruct (transfer_destination_unchecked two_real_goals 1 200 50
              two_real_goals_rows eq_refl eq_refl eq_refl) as [A B].
  split.
  - apply (A 99%Z); reflexivity.
  - apply (B (2 ^ 63)%Z). reflexivity.
Defined.

(** X24.  A nan typed as the amount to remove passes the only check
    (no comparison with nan holds), is bound as NULL and leaves the
    [current_saved] of the goal NULL while "Amount removed successfully."
    is printed; the other goals are as they were.  From then on every
    call of the method ends in [TypeError] at the listing of the goals,
    whatever is typed. *)
Theorem nan_removal_leaves_null (rows : list Binary64.saved_row) (id : Z)
        (s x : float) :
  real_rows rows ->
  lookup_saved id rows = Some (Some s) ->
  PrimFloat.is_nan x = true ->
  (s <? x)%float = false ->
  exists rows',
    Binary64.remove_or_move_savings rows (Some id) (Some x) "1" None
    = Returned (AmountRemoved, rows') /\
    lookup_saved id rows' = Some None /\
    (forall id', id' <> id -> lookup_saved id' rows' = lookup_saved id' rows) /\
    forall goal_in amt_in action new_goal_in,
      Binary64.remove_or_move_savings rows' goal_in amt_in action new_goal_in
      = Raised TypeError.
Proof.
  intros Hr Hl Hnan Hx.
  rewrite (remove_or_move_at_prompt rows id s x "1" None Hr Hl Hx).
  cbn [String.eqb Ascii.eqb Bool.eqb]. eexists. split; [reflexivity|].
  assert (Hb : Binary64.of_float x = None).
  { unfold Binary64.of_float. now rewrite Hnan. }
  rewrite Hb. unfold Binary64.update_sub.
  set (debit := fun v => Binary64.sql_sub v None).
  assert (L : lookup_saved id
                (map (fun r => if (Binary64.row_id r =? id)%Z
                               then Binary64.mk_saved (Binary64.row_id r)
                                      (debit (Binary64.row_saved r))
                               else r) rows) = Some None).
  { now rewrite (lookup_rewritten_same debit _ id (Some s)). }
  split; [exact L|]. split.
  - intros id' N. now rewrite (lookup_rewritten_other debit).
  - intros goal_in amt_in action new_goal_in.
    destruct (lookup_saved_In _ _ _ L) as (r & HI & _ & Hnull).
    unfold Binary64.remove_or_move_savings.
    replace (existsb _ _) with true.
    + destruct (map _ rows); [contradiction | reflexivity].
    + symmetry. apply existsb_exists. exists r.
      split; [exact HI | now rewrite Hnull].
Qed.

Lemma nan_removal_leaves_null_witness :
  exists rows',
    Binary64.remove_or_move_savings two_real_goals (Some 1%Z) (Some nan)
                                    "1" None
    = Returned (AmountRemoved, rows') /\
    lookup_saved 1 rows' = Some None /\
    (forall id', id' <> 1%Z ->
       lookup_saved id' rows' = lookup_saved id' two_real_goals) /\
    forall goal_in amt_in action new_goal_in,
      Binary64.remove_or_move_savings rows' goal_in amt_in action new_goal_in
      = Raised TypeError.
Proof.
  apply (nan_removal_leaves_null two_real_goals 1 200 nan
           two_real_goals_rows); reflexivity.
Defined.

(** ** Budgets *)

Lemma budget_key_triple (c : string) (mo yr : Z) (b : budget_row) :
  budget_key c mo yr b = true <-> budget_triple b = (c, mo, yr).
Proof.
  unfold budget_key, budget_triple.
  rewrite !andb_true_iff, String.eqb_eq, !Z.eqb_eq.
  split; [intros [[-> ->] ->]; reflexivity | intros [= -> -> ->]; auto].
Qed.

Lemma budget_key_set_amount (c : string) (mo yr : Z) (b : budget_row) (a : Q) :
  budget_key c mo yr (set_budget_amount b a) = budget_key c mo yr b.
Proof. reflexivity. Qed.

Lemma filter_key_absent (c : string) (mo yr : Z) (bs : list budget_row) :
  ~ In (c, mo, yr) (map budget_triple bs) ->
  forall upd : budget_row -> budget_row,
    (forall b, budget_triple (upd b) = budget_triple b) ->
    filter (budget_key c mo yr) (map upd bs) = [].
Proof.
  intros Hn upd Hupd. induction bs as [|b bs IH]; simpl; [reflexivity|].
  destruct (budget_key c mo yr (upd b)) eqn:E.
  - exfalso. apply Hn. left. rewrite <- Hupd. now apply budget_key_triple.
  - apply IH. intros HI. apply Hn. now right.
Qed.

Lemma existsb_key_false (c : string) (mo yr : Z) (bs : list budget_row) :
  existsb (budget_key c mo yr) bs = false ->
  ~ In (c, mo, yr) (map budget_triple bs).
Proof.
  intros He HI. apply in_map_iff in HI. destruct HI as (b & Hb & HI).
  apply budget_key_triple in Hb.
  assert (existsb (budget_key c mo yr) bs = true)
    by (apply existsb_exists; eauto).
  congruence.
Qed.

Lemma set_budget_unique (d : db) (c : string) (a : Q) (mo yr : Z) :
  budget_unique (budget d) ->
  budget_unique (budget (set_budget d c a mo yr)).
Proof.
  unfold budget_unique, set_budget. intros Hu.
  destruct (existsb (budget_key c mo yr) (budget d)) eqn:E; cbn [budget with_budget].
  - rewrite map_map.
    erewrite map_ext; [exact Hu|].
    intros b. now destruct (budget_key c mo yr b).
  - rewrite map_app. cbn [map budget_triple budget_category budget_month budget_year].
    apply existsb_key_false in E.
    apply NoDup_app; [exact Hu | repeat constructor; intros [] | ].
    intros x Hx [<- | []]. now apply E.
Qed.

(** After one [set_budget] the triple has one row, holding the amount. *)
Lemma set_budget_row (d : db) (c : string) (a : Q) (mo yr : Z) :
  budget_unique (budget d) ->
  exists row,
    filter (budget_key c mo yr) (budget (set_budget d c a mo yr)) = [row] /\
    budget_amount row = a.
Proof.
  unfold budget_unique, set_budget. intros Hu.
  destruct (existsb (budget_key c mo yr) (budget d)) eqn:E; cbn [budget with_budget].
  - induction (budget d) as [|b bs IH]; [discriminate|].
    inversion Hu as [|? ? Hnot Hu']; subst. simpl in E |- *.
    destruct (budget_key c mo yr b) eqn:K.
    + rewrite budget_key_set_amount, K.
      exists (set_budget_amount b a). split; [|reflexivity]. f_equal.
      apply filter_key_absent.
      * apply budget_key_triple in K. now rewrite <- K.
      * intros b'. now destruct (budget_key c mo yr b').
    + rewrite K. simpl in E. now apply IH.
  - rewrite filter_app.
    apply existsb_key_false in E.
    pose proof (filter_key_absent c mo yr (budget d) E (fun b => b)
                  (fun b => eq_refl)) as F.
    rewrite map_id in F. rewrite F. simpl.
    unfold budget_key at 1. simpl. rewrite String.eqb_refl, !Z.eqb_refl. simpl.
    eexists. split; reflexivity.
Qed.

(** The two values the prompts of the Manage Budgets menu let through
    that the table does not take: a year of 2^63 ends the call with
    [OverflowError] and no row is stored; with a nan as second amount the
    row keeps the first.  C8 as stated, for every year and every pair of
    amounts, does not hold. *)
Lemma set_budget_refused :
  set_budget_typed empty_db "Food" (Number 100) 3 (2 ^ 63)
  = Raised OverflowError /\
  (exists d1,
     set_budget_typed empty_db "Food" (Number 100) 3 2025 = Returned d1 /\
     set_budget_typed d1 "Food" NotANumber 3 2025 = Returned d1 /\
     map budget_amount (filter (budget_key "Food" 3 2025) (budget d1))
     = [100]) /\
  ~ (forall (amt1 amt2 : typed_float) (yr : Z),
       exists d1 d2 row,
         set_budget_typed empty_db "Food" amt1 3 yr = Returned d1 /\
         set_budget_typed d1 "Food" amt2 3 yr = Returned d2 /\
         filter (budget_key "Food" 3 yr) (budget d2) = [row] /\
         Number (budget_amount row) = amt2).
Proof.
  split; [reflexivity|]. split.
  - eexists. repeat split.
  - intros H.
    destruct (H (Number 100) NotANumber 2025%Z)
      as (d1 & d2 & row & _ & _ & _ & E).
    discriminate E.
Qed.

(** C8 (budget upsert), for a month and a year that SQLite takes as
    64-bit integers and amounts that are numbers.  On a budget table that
    satisfies its UNIQUE constraint, [set_budget c a mo yr] followed by
    [set_budget c b mo yr] both return and leave exactly one row for the
    triple, and its amount is [b]. *)
Theorem set_budget_twice (d : db) (c : string) (a b : Q) (mo yr : Z) :
  budget_unique (budget d) ->
  fits_int64 mo = true -> fits_int64 yr = true ->
  exists d1 d2 row,
    set_budget_typed d c (Number a) mo yr = Returned d1 /\
    set_budget_typed d1 c (Number b) mo yr = Returned d2 /\
    filter (budget_key c mo yr) (budget d2) = [row] /\
    budget_amount row = b.
Proof.
  intros Hu Hmo Hyr. unfold set_budget_typed. rewrite Hmo, Hyr. cbn [andb].
  destruct (set_budget_row (set_budget d c a mo yr) c b mo yr)
    as (row & Hrow & Hamount); [now apply set_budget_unique|].
  exists (set_budget d c a mo yr),
         (set_budget (set_budget d c a mo yr) c b mo yr), row.
  repeat split; assumption.
Qed.

Lemma set_budget_twice_witness :
  exists d1 d2 row,
    set_budget_typed empty_db "Food" (Number 100) 3 2025 = Returned d1 /\
    set_budget_typed d1 "Food" (Number 150) 3 2025 = Returned d2 /\
    filter (budget_key "Food" 3 2025) (budget d2) = [row] /\
    budget_amount row = 150.
Proof.
  apply (set_budget_twice empty_db "Food" 100 150 3 2025);
    [constructor | reflexivity | reflexivity].
Defined.

(** ** Goal progress *)

(** C9 as the spec words it: 0 at target 0, the quotient at every other
    target.  The goal "Debt" has target -100 and 50 saved: the method
    prints 0 where the quotient is -50. *)
Lemma progress_negative_target :
  ~ (forall target saved : Q,
       (target == 0 -> progress target saved == 0) /\
       (~ target == 0 -> progress target saved == saved / target * 100)).
Proof.
  intros H. destruct (H (-100) 50) as [_ H2].
  assert (N : ~ -100 == 0) by discriminate.
  specialize (H2 N). vm_compute in H2. discriminate.
Qed.

(** C9 (amended).  Every line of [view_goal_progress] shows 0 for a goal
    whose target is 0 or negative and [current_saved / target_amount * 100]
    for a goal whose target is positive. *)
Theorem progress_lines (d : db) (lines : list progress_line) :
  view_goal_progress d = Some lines ->
  Forall2 (fun g l =>
             line_progress l = progress (target_amount g) (current_saved g) /\
             (target_amount g <= 0 -> line_progress l == 0) /\
             (0 < target_amount g ->
              line_progress l == current_saved g / target_amount g * 100))
          (savings_goals d) lines.
Proof.
  unfold view_goal_progress. intros H.
  assert (E : lines = map (fun g =>
                   mk_line (goal_name g) (current_saved g) (target_amount g)
                           (progress (target_amount g) (current_saved g))
                           (target_date g)) (savings_goals d)).
  { destruct (savings_goals d); [discriminate | congruence]. }
  subst lines. clear H.
  induction (savings_goals d) as [|g gs IH]; simpl; constructor; [|exact IH].
  cbn [line_progress]. unfold progress. split; [reflexivity|].
  destruct (Qlt_le_dec 0 (target_amount g)); split; intros; try reflexivity; lra.
Qed.

Lemma progress_lines_witness :
  Forall2 (fun g l =>
             line_progress l = progress (target_amount g) (current_saved g) /\
             (target_amount g <= 0 -> line_progress l == 0) /\
             (0 < target_amount g ->
              line_progress l == current_saved g / target_amount g * 100))
          (savings_goals odd_targets)
          [mk_line "Debt" 50 (-100) 0 "2026-01-01";
           mk_line "Open" 50 0 0 "2026-01-01";
           mk_line "Car" 50 200 (50 / 200 * 100) "2026-01-01"].
Proof.
  apply (progress_lines odd_targets). reflexivity.
Defined.

(** ** Budget evaluation *)

Lemma total_amount_Qsum (cond : entry -> bool) (rows : list entry) :
  total_amount cond rows = Qsum (map amount (filter cond rows)).
Proof.
  unfold total_amount. now destruct (map amount (filter cond rows)).
Qed.

Lemma filter_key_In (c : string) (mo yr : Z) (bs : list budget_row)
      (b : budget_row) :
  NoDup (map budget_triple bs) -> In b bs -> budget_triple b = (c, mo, yr) ->
  filter (budget_key c mo yr) bs = [b].
Proof.
  intros Hu. induction bs as [|h bs IH]; simpl; intros HI Hb; [contradiction|].
  inversion Hu as [|? ? Hnot Hu']; subst.
  pose proof (filter_key_absent c mo yr bs) as F.
  destruct HI as [-> | HI].
  - replace (budget_key c mo yr b) with true
      by (symmetry; now apply budget_key_triple).
    f_equal. rewrite <- Hb in F at 1.
    specialize (F Hnot (fun x => x) (fun x => eq_refl)).
    now rewrite map_id in F.
  - destruct (budget_key c mo yr h) eqn:K; [|now apply IH].
    exfalso. apply Hnot. apply budget_key_triple in K. rewrite K, <- Hb.
    now apply in_map.
Qed.

Lemma filter_key_none (c : string) (mo yr : Z) (bs : list budget_row) :
  (forall b, In b bs -> budget_triple b <> (c, mo, yr)) ->
  filter (budget_key c mo yr) bs = [].
Proof.
  intros H. induction bs as [|h bs IH]; simpl; [reflexivity|].
  destruct (budget_key c mo yr h) eqn:K.
  - exfalso. apply (H h); [now left | now apply budget_key_triple].
  - apply IH. intros b Hb. apply H. now right.
Qed.

(** Budget evaluation where every expense row carries the zero-padded
    text of a calendar date and the budget table satisfies its UNIQUE
    constraint: if [b] is the
    budget row of (c, mo, yr), the view reports [budget_amount b] as
    budgeted, the sum of the amounts of the expenses of category [c]
    dated in month [mo] of year [yr] as spent (the empty sum is 0), and a
    verdict line that stands for spent - budgeted; with no budget row for
    the triple it reports "No budget set" and nothing else. *)
Lemma budget_evaluation (d : db) (c : string) (mo yr : Z) :
  ledger_dated (expenses d) ->
  budget_unique (budget d) ->
  let spent :=
    Qsum (map amount
            (filter (fun e => in_category c e && in_period mo yr e)
                    (expenses d))) in
  (forall b, In b (budget d) -> budget_triple b = (c, mo, yr) ->
     exists v,
       view_budget_for_category d c mo yr
       = BudgetReport (budget_amount b) spent v /\
       delta_of v == spent - budget_amount b) /\
  ((forall b, In b (budget d) -> budget_triple b <> (c, mo, yr)) ->
   view_budget_for_category d c mo yr = NoBudgetSet).
Proof.
  intros Hd Hu spent. unfold view_budget_for_category. split.
  - intros b Hb Ht.
    rewrite (filter_key_In c mo yr (budget d) b Hu Hb Ht). cbn [map].
    rewrite (total_amount_substr c mo yr (expenses d) Hd), total_amount_Qsum.
    fold spent.
    destruct (Qlt_le_dec (budget_amount b) spent);
      eexists; (split; [reflexivity|]); cbn [delta_of]; lra.
  - intros Hn. now rewrite (filter_key_none c mo yr (budget d) Hn).
Qed.

Lemma march_2025_dated :
  ledger_dated (expenses march_2025) /\ ledger_dated (income march_2025).
Proof.
  split; (constructor; [|constructor]).
  - exists (mk_date 2025 3 15). split; [reflexivity|].
    unfold calendar_date. cbn. lia.
  - exists (mk_date 2025 3 1). split; [reflexivity|].
    unfold calendar_date. cbn. lia.
Defined.

Lemma march_2025_budget_unique : budget_unique (budget march_2025).
Proof.
  unfold budget_unique. cbn.
  constructor; [intros [] | constructor].
Defined.

Lemma budget_evaluation_witness :
  (forall b, In b (budget march_2025) -> budget_triple b = ("Food"%string, 3, 2025)%Z ->
     exists v,
       view_budget_for_category march_2025 "Food" 3 2025
       = BudgetReport (budget_amount b)
           (Qsum (map amount
                    (filter (fun e => in_category "Food" e && in_period 3 2025 e)
                            (expenses march_2025)))) v /\
       delta_of v ==
       Qsum (map amount
               (filter (fun e => in_category "Food" e && in_period 3 2025 e)
                       (expenses march_2025))) - budget_amount b) /\
  ((forall b, In b (budget march_2025) -> budget_triple b <> ("Travel"%string, 3, 2025)%Z) ->
   view_budget_for_category march_2025 "Travel" 3 2025 = NoBudgetSet).
Proof.
  split.
  - apply (budget_evaluation march_2025 "Food" 3 2025
             (proj1 march_2025_dated) march_2025_budget_unique).
  - apply (budget_evaluation march_2025 "Travel" 3 2025
             (proj1 march_2025_dated) march_2025_budget_unique).
Defined.

(** The scenario of the spec: budgeted 300, spent 400, over by 100; income
    1000, expenses 400, net 600. *)
Example end_to_end :
  view_budget_for_category march_2025 "Food" 3 2025
  = BudgetReport 300 400 (OverBudgetBy 100) /\
  calculate_overall_budget march_2025 3 2025 = mk_overall 1000 400 600 /\
  view_budget_for_category march_2025 "Food" 4 2025 = NoBudgetSet.
Proof. repeat split; reflexivity. Qed.

(** C7 at the input that separates the code from it: the expense of
    the scenario typed as 2025-3-15.  [strptime] accepts the text, the
    row is stored as typed, and neither [SUBSTR] nor [strftime] reads
    March 2025 out of it: with the budget of 300 for "Food" in 3/2025 the
    view reports spent 0 and "Under budget by 300", and the overall
    figures show expenses 0, where the claim has spent 400, delta 100 and
    expenses 400.  For a year of 2^63, for which there is no budget row,
    the view is left by [OverflowError] and reports nothing. *)
Theorem unpadded_expense_outside_budget (strptime_ok : string -> bool) :
  strptime_ok "2025-3-15"%string = true ->
  let r := ExpenseManager.add_expense strptime_ok before_march 400
                                      ["2025-3-15"%string] 2 "" (Some 1%Z) in
  fst r = Ledger.EntryAdded /\
  expenses (snd r) = [mk_entry 1 "Food" 400 "2025-3-15"] /\
  view_budget_for_category (snd r) "Food" 3 2025
  = BudgetReport 300 0 (UnderBudgetBy 300) /\
  calculate_overall_budget (snd r) 3 2025 = mk_overall 0 0 0 /\
  view_budget_for_category_typed (snd r) "Food" 3 (2 ^ 63)
  = Raised OverflowError.
Proof.
  intros H r. subst r.
  unfold ExpenseManager.add_expense, Ledger.add_entry.
  cbn [find]. rewrite H. repeat split; reflexivity.
Qed.

Lemma unpadded_expense_outside_budget_witness :
  let r := ExpenseManager.add_expense accepts_unpadded before_march 400
                                      ["2025-3-15"%string] 2 "" (Some 1%Z) in
  fst r = Ledger.EntryAdded /\
  expenses (snd r) = [mk_entry 1 "Food" 400 "2025-3-15"] /\
  view_budget_for_category (snd r) "Food" 3 2025
  = BudgetReport 300 0 (UnderBudgetBy 300) /\
  calculate_overall_budget (snd r) 3 2025 = mk_overall 0 0 0 /\
  view_budget_for_category_typed (snd r) "Food" 3 (2 ^ 63)
  = Raised OverflowError.
Proof.
  apply (unpadded_expense_outside_budget accepts_unpadded). reflexivity.
Defined.

(** ** Available excess *)

(** Available excess where every ledger row carries the zero-padded text
    of a calendar date: the
    excess the method computes for (mo, yr) is the sum of the income
    amounts dated in that month and year, minus the sum of the expense
    amounts dated in it (each sum is 0 on no rows), minus the sum of
    [current_saved] over every goal; when it is not positive the method
    leaves the store as it found it, whatever is typed. *)
Lemma available_excess_formula (d : db) (mo yr : Z) :
  ledger_dated (income d) ->
  ledger_dated (expenses d) ->
  available_excess d mo yr
  == Qsum (map amount (filter (in_period mo yr) (income d)))
     - Qsum (map amount (filter (in_period mo yr) (expenses d)))
     - total_saved (savings_goals d) /\
  (available_excess d mo yr <= 0 ->
   forall answers,
     snd (add_excess_income d (Some mo) (Some yr) answers) = d /\
     fst (add_excess_income d (Some mo) (Some yr) answers) <> SavingsUpdated).
Proof.
  intros Hi He. split.
  - unfold available_excess, total_saved.
    rewrite (total_amount_strftime mo yr _ Hi), (total_amount_strftime mo yr _ He).
    rewrite !total_amount_Qsum, coalesce_sum. reflexivity.
  - intros Hle answers. unfold add_excess_income.
    destruct (negb _); [split; [reflexivity | discriminate]|].
    destruct (yr <=? 0)%Z; [split; [reflexivity | discriminate]|].
    destruct (Qlt_le_dec 0 (available_excess d mo yr)) as [Hlt | _]; [lra|].
    split; [reflexivity | discriminate].
Qed.

(** The store where 700 is saved against a net of 600. *)
Lemma available_excess_formula_witness :
  available_excess march_oversaved 3 2025
  == Qsum (map amount (filter (in_period 3 2025) (income march_oversaved)))
     - Qsum (map amount (filter (in_period 3 2025) (expenses march_oversaved)))
     - total_saved (savings_goals march_oversaved) /\
  available_excess march_oversaved 3 2025 == -100 /\
  forall answers,
    snd (add_excess_income march_oversaved (Some 3%Z) (Some 2025%Z) answers)
    = march_oversaved /\
    fst (add_excess_income march_oversaved (Some 3%Z) (Some 2025%Z) answers)
    <> SavingsUpdated.
Proof.
  destruct (available_excess_formula march_oversaved 3 2025
              (proj2 march_2025_dated) (proj1 march_2025_dated)) as [A B].
  split; [exact A|]. split; [reflexivity|].
  apply B. vm_compute. discriminate.
Defined.

(** C5 at the input that separates the code from it: an income of 1000
    typed with the date 2025-3-5.  [strptime] accepts the text, the row
    is stored as typed, [strftime] gives NULL on it and the row is in no
    period: the excess of 3/2025 is 0 where the claim has 1000 (nothing
    is spent and nothing saved), and the method answers "No excess income
    available" whatever is typed. *)
Theorem unpadded_income_outside_excess (strptime_ok : string -> bool) :
  strptime_ok "2025-3-5"%string = true ->
  let r := IncomeManager.add_income strptime_ok before_march 1000
                                    ["2025-3-5"%string] 2 "" (Some 1%Z) in
  fst r = Ledger.EntryAdded /\
  income (snd r) = [mk_entry 1 "Salary" 1000 "2025-3-5"] /\
  expenses (snd r) = [] /\
  total_saved (savings_goals (snd r)) == 0 /\
  available_excess (snd r) 3 2025 == 0 /\
  forall answers,
    add_excess_income (snd r) (Some 3%Z) (Some 2025%Z) answers
    = (NoExcessIncome, snd r).
Proof.
  intros H r. subst r.
  unfold IncomeManager.add_income, Ledger.add_entry.
  cbn [find]. rewrite H.
  do 5 (split; [reflexivity|]). intros answers. reflexivity.
Qed.

Lemma unpadded_income_outside_excess_witness :
  let r := IncomeManager.add_income accepts_unpadded before_march 1000
                                    ["2025-3-5"%string] 2 "" (Some 1%Z) in
  fst r = Ledger.EntryAdded /\
  income (snd r) = [mk_entry 1 "Salary" 1000 "2025-3-5"] /\
  expenses (snd r) = [] /\
  total_saved (savings_goals (snd r)) == 0 /\
  available_excess (snd r) 3 2025 == 0 /\
  forall answers,
    add_excess_income (snd r) (Some 3%Z) (Some 2025%Z) answers
    = (NoExcessIncome, snd r).
Proof.
  apply (unpadded_income_outside_excess accepts_unpadded). reflexivity.
Defined.

(** ** The allocations dict *)

Lemma dict_get_set (k k' : Z) (v : Q) (m : dict) :
  dict_get k (dict_set k' v m) = if (k' =? k)%Z then Some v else dict_get k m.
Proof.
  induction m as [|[k0 v0] m IH]; simpl.
  - reflexivity.
  - destruct (Z.eqb_spec k0 k') as [-> | N]; simpl.
    + destruct (k' =? k)%Z; reflexivity.
    + rewrite IH. destruct (Z.eqb_spec k0 k) as [-> | N'].
      * replace (k' =? k)%Z with false by (symmetry; apply Z.eqb_neq; congruence).
        reflexivity.
      * reflexivity.
Qed.

Lemma dict_set_keys (k x : Z) (v : Q) (m : dict) :
  In x (map fst (dict_set k v m)) <-> x = k \/ In x (map fst m).
Proof.
  induction m as [|[k0 v0] m IH]; simpl.
  - intuition congruence.
  - destruct (Z.eqb_spec k0 k) as [-> | N]; simpl; [intuition congruence|].
    rewrite IH. intuition congruence.
Qed.

Lemma dict_set_NoDup (k : Z) (v : Q) (m : dict) :
  NoDup (map fst m) -> NoDup (map fst (dict_set k v m)).
Proof.
  induction m as [|[k0 v0] m IH]; simpl; intros H.
  - repeat constructor. intros [].
  - inversion H as [|? ? Hn H']; subst.
    destruct (Z.eqb_spec k0 k) as [-> | N]; simpl.
    + now constructor.
    + constructor; [|now apply IH].
      rewrite dict_set_keys. intros [-> | HI]; [congruence | contradiction].
Qed.

Lemma dict_get_absent (k : Z) (m : dict) :
  ~ In k (map fst m) -> dict_get k m = None.
Proof.
  induction m as [|[k0 v0] m IH]; simpl; intros H; [reflexivity|].
  destruct (Z.eqb_spec k0 k) as [-> | N]; [exfalso; apply H; now left|].
  apply IH. intros HI. apply H. now right.
Qed.

(** ** The final update loop, row by row *)

Lemma credit_all_get (g : goal) (m : dict) :
  NoDup (map fst m) ->
  credit_all g m =
  match dict_get (goal_id g) m with
  | Some a => set_current_saved g (current_saved g + a)
  | None => g
  end.
Proof.
  revert g. induction m as [|[k v] m IH]; intros g H; [reflexivity|].
  inversion H as [|? ? Hn H']; subst.
  change (credit_all g ((k, v) :: m))
    with (credit_all (if (goal_id g =? k)%Z
                      then set_current_saved g (current_saved g + v) else g) m).
  cbn [dict_get]. rewrite (Z.eqb_sym k).
  destruct (Z.eqb_spec (goal_id g) k) as [E | N].
  - rewrite IH by assumption. cbn [goal_id set_current_saved].
    rewrite E, (dict_get_absent k m Hn). reflexivity.
  - now apply IH.
Qed.

Lemma apply_allocations_rows (gs : list goal) (m : dict) :
  apply_allocations gs m = map (fun g => credit_all g m) gs.
Proof.
  unfold apply_allocations. revert gs.
  induction m as [|[k v] m IH]; intros gs; simpl.
  - now rewrite map_id.
  - rewrite IH. unfold update_add. rewrite map_map. reflexivity.
Qed.

(** ** The prompt loop *)

Lemma prompt_amount_accepts (e : Q) (answers : list (option Q)) (a : Q)
      (rest : list (option Q)) :
  prompt_amount e answers = Some (a, rest) ->
  0 <= a /\ a <= e /\ In (Some a) answers /\
  (forall x, In x rest -> In x answers).
Proof.
  induction answers as [|[amt|] answers IH]; simpl; intros H.
  - discriminate.
  - destruct (Qlt_le_dec amt 0) as [_ | Hn].
    { destruct (IH H) as (? & ? & ? & ?). intuition. }
    destruct (Qlt_le_dec e amt) as [_ | He].
    { destruct (IH H) as (? & ? & ? & ?). intuition. }
    injection H as <- <-. intuition.
  - destruct (IH H) as (? & ? & ? & ?). intuition.
Qed.

Lemma pool_respected_compat (e e' : Q) (amounts : list Q) :
  e == e' -> pool_respected e amounts -> pool_respected e' amounts.
Proof.
  revert e e'. induction amounts as [|a l IH]; simpl; intros e e' E H; [exact I|].
  destruct H as (H0 & H1 & H2). repeat split; [assumption | lra |].
  apply (IH (e - a)); [lra | assumption].
Qed.

Lemma record_all_cons (id : Z) (ids : list Z) (a : Q) (amounts : list Q)
      (m : dict) :
  record_all (id :: ids) (a :: amounts) m =
  record_all ids amounts (if Qlt_le_dec 0 a then dict_set id a m else m).
Proof. reflexivity. Qed.

(** A completed run of the loop accepted one amount per goal, each typed
    by the user and each within what was left of the pool. *)
Lemma collect_trace (ids : list Z) :
  forall (e : Q) (m : dict) (answers : list (option Q)) (m' : dict) (e' : Q),
    collect ids e m answers = Some (m', e') ->
    exists amounts,
      List.length amounts = List.length ids /\
      pool_respected e amounts /\
      e' == e - Qsum amounts /\
      Forall (fun a => In (Some a) answers) amounts /\
      m' = record_all ids amounts m.
Proof.
  induction ids as [|id ids IH]; intros e m answers m' e' H; simpl in H.
  - injection H as <- <-. exists []. repeat split; try constructor.
    unfold Qsum. simpl. lra.
  - destruct (prompt_amount e answers) as [[amt rest]|] eqn:P; [|discriminate].
    destruct (prompt_amount_accepts _ _ _ _ P) as (H0 & H1 & HI & Hrest).
    assert (Hsub : forall l, Forall (fun a => In (Some a) rest) l ->
                             Forall (fun a => In (Some a) answers) l).
    { intros l. apply Forall_impl. intros a. apply Hrest. }
    destruct (Qlt_le_dec 0 amt) as [Hpos | Hz] eqn:D;
      destruct (IH _ _ _ _ _ H) as (amounts & Hlen & Hpool & He' & Hin & Hm);
      exists (amt :: amounts); rewrite record_all_cons, D;
      (repeat split;
       [ simpl; congruence | assumption | assumption
       | | rewrite Qsum_cons; lra | constructor; auto | assumption ]).
    + assumption.
    + apply (pool_respected_compat e); [lra | assumption].
Qed.

(** *** The batch rule and the loop *)

Lemma accepted_run_pool (e : Q) (n : nat) (answers : list (option Q))
      (amounts : list Q) :
  accepted_run e n answers amounts ->
  List.length amounts = n /\ pool_respected e amounts /\
  Forall (fun a => In (Some a) answers) amounts.
Proof.
  induction 1 as [e answers
                 | e n rest amounts _ (IL & IP & II)
                 | e n a rest amounts Ha _ (IL & IP & II)
                 | e n a rest amounts Ha _ (IL & IP & II)
                 | e e' n a rest amounts H0 H1 He _ (IL & IP & II)].
  - repeat split; constructor.
  - repeat split; try assumption.
    revert II. apply Forall_impl. intros x Hx. now right.
  - repeat split; try assumption.
    revert II. apply Forall_impl. intros x Hx. now right.
  - repeat split; try assumption.
    revert II. apply Forall_impl. intros x Hx. now right.
  - split; [simpl; congruence|]. split.
    + simpl. repeat split; try assumption.
      apply (pool_respected_compat e'); assumption.
    + constructor; [now left|].
      revert II. apply Forall_impl. intros x Hx. now right.
Qed.

(** The answers decide the amounts: the rule has one outcome. *)
Lemma accepted_run_unique (e : Q) (n : nat) (answers : list (option Q))
      (amounts : list Q) :
  accepted_run e n answers amounts ->
  forall e2 others,
    e == e2 -> accepted_run e2 n answers others -> others = amounts.
Proof.
  induction 1 as [e answers
                 | e n rest amounts _ IH
                 | e n a rest amounts Ha _ IH
                 | e n a rest amounts Ha _ IH
                 | e e' n a rest amounts H0 H1 He _ IH];
    intros e2 others E R; inversion R; subst;
    try lra; try reflexivity; try (now apply (IH e2)).
  f_equal.
  match goal with
  | Hr : accepted_run ?x n rest _ |- _ => apply (IH x); [lra | exact Hr]
  end.
Qed.

Lemma prompt_amount_run (e : Q) (answers : list (option Q)) (a : Q)
      (rest : list (option Q)) :
  prompt_amount e answers = Some (a, rest) ->
  forall n e' amounts,
    e' == e - a -> accepted_run e' n rest amounts ->
    accepted_run e (S n) answers (a :: amounts).
Proof.
  induction answers as [|[amt|] answers IH]; simpl; intros H n e' amounts He Hr.
  - discriminate.
  - destruct (Qlt_le_dec amt 0) as [Hn | Hn].
    { apply run_negative; [exact Hn | now apply (IH H n e')]. }
    destruct (Qlt_le_dec e amt) as [Ha | Ha].
    { apply run_above_counter; [exact Ha | now apply (IH H n e')]. }
    injection H as <- <-. now apply (run_accepted e e').
  - apply run_not_a_number. now apply (IH H n e').
Qed.

(** A completed loop followed the rule. *)
Lemma collect_run (ids : list Z) :
  forall (e : Q) (m : dict) (answers : list (option Q)) (m' : dict) (e' : Q),
    collect ids e m answers = Some (m', e') ->
    exists amounts,
      accepted_run e (List.length ids) answers amounts /\
      m' = record_all ids amounts m.
Proof.
  induction ids as [|id ids IH]; intros e m answers m' e' H; simpl in H.
  - injection H as <- <-. exists []. split; [constructor | reflexivity].
  - destruct (prompt_amount e answers) as [[amt rest]|] eqn:P; [|discriminate].
    destruct (Qlt_le_dec 0 amt) as [Hpos | Hz] eqn:D;
      destruct (IH _ _ _ _ _ H) as (amounts & Hr & Hm);
      exists (amt :: amounts); rewrite record_all_cons, D;
      (split; [|exact Hm]); cbn [List.length];
      [ apply (prompt_amount_run _ _ _ _ P _ (e - amt)); [lra | exact Hr]
      | apply (prompt_amount_run _ _ _ _ P _ e); [|exact Hr] ].
    destruct (prompt_amount_accepts _ _ _ _ P) as (H0 & _). lra.
Qed.




Lemma record_all_NoDup (ids : list Z) :
  forall (amounts : list Q) (m : dict),
    NoDup (map fst m) -> NoDup (map fst (record_all ids amounts m)).
Proof.
  induction ids as [|id ids IH]; intros [|a amounts] m H; try assumption.
  rewrite record_all_cons. apply IH.
  destruct (Qlt_le_dec 0 a); [now apply dict_set_NoDup | assumption].
Qed.

Lemma record_all_get_other (k : Z) (ids : list Z) :
  forall (amounts : list Q) (m : dict),
    ~ In k ids -> dict_get k (record_all ids amounts m) = dict_get k m.
Proof.
  induction ids as [|id ids IH]; intros [|a amounts] m H; try reflexivity.
  rewrite record_all_cons, IH by (intros HI; apply H; now right).
  destruct (Qlt_le_dec 0 a); [|reflexivity].
  rewrite dict_get_set.
  destruct (Z.eqb_spec id k) as [-> | N]; [exfalso; apply H; now left | reflexivity].
Qed.

Lemma record_all_get (k : Z) (a : Q) (ids : list Z) :
  forall (amounts : list Q) (m : dict),
    NoDup ids -> In (k, a) (combine ids amounts) ->
    dict_get k (record_all ids amounts m) =
    if Qlt_le_dec 0 a then Some a else dict_get k m.
Proof.
  induction ids as [|id ids IH]; intros [|x amounts] m Hn HI;
    try contradiction.
  inversion Hn as [|? ? Hnot Hn']; subst.
  rewrite record_all_cons. destruct HI as [[= -> ->] | HI].
  - rewrite record_all_get_other by assumption.
    destruct (Qlt_le_dec 0 a); [|reflexivity].
    now rewrite dict_get_set, Z.eqb_refl.
  - rewrite (IH _ _ Hn' HI).
    destruct (Qlt_le_dec 0 a); [reflexivity|].
    destruct (Qlt_le_dec 0 x); [|reflexivity].
    rewrite dict_get_set.
    destruct (Z.eqb_spec id k) as [-> | N]; [|reflexivity].
    exfalso. apply Hnot. now apply in_combine_l in HI.
Qed.

Lemma combine_map_l {A B C} (f : A -> C) (l : list A) (l' : list B) :
  combine (map f l) l' = map (fun p => (f (fst p), snd p)) (combine l l').
Proof.
  revert l'. induction l as [|x l IH]; intros [|y l']; simpl; try reflexivity.
  now rewrite IH.
Qed.

Lemma map_fst_combine {A B} (l : list A) (l' : list B) :
  List.length l' = List.length l -> map fst (combine l l') = l.
Proof.
  revert l'. induction l as [|x l IH]; intros [|y l'] H; simpl in *;
    try reflexivity; try discriminate.
  f_equal. apply IH. congruence.
Qed.

(** With unique ids the update loop credits each goal with its own
    accepted amount and nothing else. *)
Lemma apply_recorded (gs : list goal) (amounts : list Q) :
  unique_ids gs -> List.length amounts = List.length gs ->
  apply_allocations gs (record_all (map goal_id gs) amounts [])
  = map (fun p => credit (fst p) (snd p)) (combine gs amounts).
Proof.
  intros Hu Hlen. rewrite apply_allocations_rows.
  rewrite <- (map_fst_combine gs amounts Hlen) at 1. rewrite map_map.
  apply map_ext_in. intros [g a] HI. cbn [fst snd].
  rewrite credit_all_get by (apply record_all_NoDup; constructor).
  rewrite (record_all_get (goal_id g) a).
  - unfold credit. now destruct (Qlt_le_dec 0 a).
  - exact Hu.
  - rewrite combine_map_l.
    apply (in_map (fun p => (goal_id (fst p), snd p))) in HI. exact HI.
Qed.

(** ** Allocation of excess income *)


Lemma credit_fields (g : goal) (a : Q) :
  goal_id (credit g a) = goal_id g /\
  goal_name (credit g a) = goal_name g /\
  target_amount (credit g a) = target_amount g /\
  target_date (credit g a) = target_date g.
Proof. unfold credit. destruct (Qlt_le_dec 0 a); repeat split. Qed.


(** The method either leaves the store alone or went through the prompt
    loop with a positive excess and applied what the loop recorded. *)
Lemma add_excess_income_cases (d : db) (month_in year_in : option Z)
      (answers : list (option Q)) :
  (fst (add_excess_income d month_in year_in answers) <> SavingsUpdated /\
   snd (add_excess_income d month_in year_in answers) = d) \/
  (exists mo yr m' e',
     month_in = Some mo /\ year_in = Some yr /\
     0 < available_excess d mo yr /\
     collect (map goal_id (savings_goals d)) (available_excess d mo yr) []
             answers = Some (m', e') /\
     add_excess_income d month_in year_in answers
     = (SavingsUpdated,
        with_goals d (apply_allocations (savings_goals d) m'))).
Proof.
  unfold add_excess_income.
  destruct month_in as [mo|]; [|left; split; [discriminate | reflexivity]].
  destruct (negb _); [left; split; [discriminate | reflexivity]|].
  destruct year_in as [yr|]; [|left; split; [discriminate | reflexivity]].
  destruct (yr <=? 0)%Z; [left; split; [discriminate | reflexivity]|].
  destruct (Qlt_le_dec 0 (available_excess d mo yr)) as [Hpos | _];
    [|left; split; [discriminate | reflexivity]].
  destruct (savings_goals d) as [|g gs] eqn:G;
    [left; split; [discriminate | reflexivity]|].
  destruct (collect (map goal_id (g :: gs)) (available_excess d mo yr) [] answers)
    as [[m' e']|] eqn:C; [|left; split; [discriminate | reflexivity]].
  right. exists mo, yr, m', e'. repeat split; assumption || reflexivity.
Qed.

(** The goal table after a run: one accepted amount per goal, credited
    to that goal. *)
Lemma add_excess_income_goals (d : db) (month_in year_in : option Z)
      (answers : list (option Q)) (d' : db) :
  unique_ids (savings_goals d) ->
  add_excess_income d month_in year_in answers = (SavingsUpdated, d') ->
  exists mo yr amounts,
    month_in = Some mo /\ year_in = Some yr /\
    0 < available_excess d mo yr /\
    List.length amounts = List.length (savings_goals d) /\
    pool_respected (available_excess d mo yr) amounts /\
    Forall (fun a => In (Some a) answers) amounts /\
    savings_goals d'
    = map (fun p => credit (fst p) (snd p)) (combine (savings_goals d) amounts).
Proof.
  intros Hu Hrun.
  destruct (add_excess_income_cases d month_in year_in answers)
    as [[Hne _] | (mo & yr & m' & e' & -> & -> & Hpos & Hc & Hr)].
  - rewrite Hrun in Hne. now elim Hne.
  - rewrite Hr in Hrun. injection Hrun as <-.
    destruct (collect_trace _ _ _ _ _ _ Hc)
      as (amounts & Hlen & Hpool & _ & Hin & ->).
    rewrite length_map in Hlen.
    exists mo, yr, amounts. repeat split; try assumption.
    cbn [savings_goals with_goals]. now apply apply_recorded.
Qed.

(** A run that reaches "Savings updated" followed the batch rule, and
    each goal was credited with the amount the rule gives it. *)
Lemma add_excess_income_run (d : db) (month_in year_in : option Z)
      (answers : list (option Q)) (d' : db) :
  unique_ids (savings_goals d) ->
  add_excess_income d month_in year_in answers = (SavingsUpdated, d') ->
  exists mo yr amounts,
    month_in = Some mo /\ year_in = Some yr /\
    0 < available_excess d mo yr /\
    accepted_run (available_excess d mo yr) (List.length (savings_goals d))
                 answers amounts /\
    savings_goals d'
    = map (fun p => credit (fst p) (snd p)) (combine (savings_goals d) amounts).
Proof.
  intros Hu Hrun.
  destruct (add_excess_income_cases d month_in year_in answers)
    as [[Hne _] | (mo & yr & m' & e' & -> & -> & Hpos & Hc & Hr)].
  - rewrite Hrun in Hne. now elim Hne.
  - rewrite Hr in Hrun. injection Hrun as <-.
    destruct (collect_run _ _ _ _ _ _ Hc) as (amounts & Hrule & ->).
    rewrite length_map in Hrule.
    exists mo, yr, amounts. repeat split; try assumption.
    cbn [savings_goals with_goals]. apply apply_recorded; [exact Hu|].
    now apply accepted_run_pool in Hrule.
Qed.


Lemma Forall2_map_r {A B} (R : A -> B -> Prop) (f : A -> B) (l : list A) :
  (forall x, In x l -> R x (f x)) -> Forall2 R l (map f l).
Proof.
  induction l as [|x l IH]; simpl; intros H; constructor.
  - apply H. now left.
  - apply IH. intros y Hy. apply H. now right.
Qed.






(** ** What an allocation run touches *)

Lemma credit_zero_rows (gs : list goal) :
  map (fun p => credit (fst p) (snd p)) (combine gs (map (fun _ => 0) gs)) = gs.
Proof.
  induction gs as [|g gs IH]; simpl; [reflexivity|]. now rewrite IH.
Qed.

Lemma add_excess_income_credits (d : db) (month_in year_in : option Z)
      (answers : list (option Q)) :
  unique_ids (savings_goals d) ->
  exists amounts,
    List.length amounts = List.length (savings_goals d) /\
    Forall (fun a => 0 < a -> In (Some a) answers) amounts /\
    savings_goals (snd (add_excess_income d month_in year_in answers))
    = map (fun p => credit (fst p) (snd p)) (combine (savings_goals d) amounts).
Proof.
  intros Hu.
  destruct (add_excess_income d month_in year_in answers) as [o d'] eqn:R.
  destruct (add_excess_income_cases d month_in year_in answers)
    as [[_ Hsame] | (mo & yr & m' & e' & _ & _ & _ & _ & Hr)].
  - rewrite R in Hsame. cbn [snd] in *. subst d'.
    exists (map (fun _ => 0) (savings_goals d)).
    rewrite length_map, credit_zero_rows. repeat split.
    apply Forall_forall. intros a Ha Hpos. apply in_map_iff in Ha.
    destruct Ha as (_ & <- & _). discriminate.
  - rewrite R in Hr. injection Hr as -> _.
    destruct (add_excess_income_goals d _ _ answers d' Hu R)
      as (_ & _ & amounts & _ & _ & _ & Hlen & _ & Hin & Hg).
    exists amounts. cbn [snd]. repeat split; try assumption.
    revert Hin. apply Forall_impl. auto.
Qed.

(** C10 (frame of an allocation run).  Whatever is typed, the run leaves
    the expense, income, budget and category tables as they were, and a
    run that does not reach "Savings updated" leaves the goal table as it
    was too.  In the goal table (unique ids) every row keeps its id,
    name, target amount and target date; the i-th row changes by the
    i-th amount of the batch rule [accepted_run], which the answers
    decide: a row whose amount is 0 (a skip, or a run that stopped before
    the updates) is the row it was, and a row whose [current_saved]
    changed got a strictly positive amount that the user typed for it
    added to it. *)
Theorem allocation_frame (d : db) (month_in year_in : option Z)
        (answers : list (option Q)) :
  unique_ids (savings_goals d) ->
  let r := add_excess_income d month_in year_in answers in
  let d' := snd r in
  expenses d' = expenses d /\
  expense_categories d' = expense_categories d /\
  income d' = income d /\
  income_categories d' = income_categories d /\
  budget d' = budget d /\
  (fst r <> SavingsUpdated -> savings_goals d' = savings_goals d) /\
  exists amounts,
    List.length amounts = List.length (savings_goals d) /\
    (fst r = SavingsUpdated ->
     exists mo yr,
       month_in = Some mo /\ year_in = Some yr /\
       accepted_run (available_excess d mo yr)
                    (List.length (savings_goals d)) answers amounts /\
       forall others,
         accepted_run (available_excess d mo yr)
                      (List.length (savings_goals d)) answers others ->
         others = amounts) /\
    Forall2 (fun ga g' =>
               goal_id g' = goal_id (fst ga) /\
               goal_name g' = goal_name (fst ga) /\
               target_amount g' = target_amount (fst ga) /\
               target_date g' = target_date (fst ga) /\
               (snd ga <= 0 -> g' = fst ga) /\
               (0 < snd ga ->
                In (Some (snd ga)) answers /\
                current_saved g' = current_saved (fst ga) + snd ga))
            (combine (savings_goals d) amounts) (savings_goals d').
Proof.
  intros Hu r d'.
  assert (Hrows : forall amounts,
            Forall (fun a => 0 < a -> In (Some a) answers) amounts ->
            Forall2 (fun ga g' =>
               goal_id g' = goal_id (fst ga) /\
               goal_name g' = goal_name (fst ga) /\
               target_amount g' = target_amount (fst ga) /\
               target_date g' = target_date (fst ga) /\
               (snd ga <= 0 -> g' = fst ga) /\
               (0 < snd ga ->
                In (Some (snd ga)) answers /\
                current_saved g' = current_saved (fst ga) + snd ga))
              (combine (savings_goals d) amounts)
              (map (fun p => credit (fst p) (snd p))
                   (combine (savings_goals d) amounts))).
  { intros amounts Hin. apply Forall2_map_r.
    intros [g a] HI. cbn [fst snd].
    destruct (credit_fields g a) as (C1 & C2 & C3 & C4).
    repeat (split; [assumption|]).
    unfold credit. split; intros Ha.
    - destruct (Qlt_le_dec 0 a); [lra | reflexivity].
    - destruct (Qlt_le_dec 0 a); [|lra]. split; [|reflexivity].
      rewrite Forall_forall in Hin. apply Hin; [|assumption].
      now apply in_combine_r in HI. }
  destruct (add_excess_income_cases d month_in year_in answers)
    as [[Hne Hsame] | (mo & yr & m' & e' & Hm & Hy & Hpos & Hc & Hr)].
  - fold r in Hne, Hsame. fold d' in Hsame.
    rewrite Hsame. do 5 (split; [reflexivity|]).
    split; [intros _; reflexivity|].
    exists (map (fun _ => 0) (savings_goals d)).
    split; [apply length_map|]. split; [intros E; now elim Hne|].
    rewrite <- (credit_zero_rows (savings_goals d)) at 3.
    apply Hrows. apply Forall_forall. intros a Ha Hlt.
    apply in_map_iff in Ha. destruct Ha as (_ & <- & _). discriminate.
  - assert (Hrun : add_excess_income d month_in year_in answers
                   = (SavingsUpdated, d')).
    { subst d' r. now rewrite Hr. }
    destruct (add_excess_income_run d _ _ answers d' Hu Hrun)
      as (mo' & yr' & amounts & Hm' & Hy' & _ & Hrule & Hg).
    assert (Hd' : d' = with_goals d (apply_allocations (savings_goals d) m')).
    { subst d' r. now rewrite Hr. }
    repeat (split; [rewrite Hd'; reflexivity|]).
    split. { intros Hne. subst r. rewrite Hr in Hne. now elim Hne. }
    destruct (accepted_run_pool _ _ _ _ Hrule) as (Hlen & _ & Hin).
    exists amounts. split; [exact Hlen|]. split.
    + intros _. exists mo', yr'. repeat split; try assumption.
      intros others Ho.
      apply (accepted_run_unique _ _ _ _ Hrule (available_excess d mo' yr'));
        [reflexivity | exact Ho].
    + rewrite Hg. apply Hrows. revert Hin. apply Forall_impl. auto.
Qed.

(** On the March store the answers 500, a non-number, -5, 100, 300 and 0
    give the first goal 100 and leave the second, which is skipped, the
    row it was. *)
Lemma allocation_frame_witness :
  let answers := [Some 500; None; Some (-5); Some 100; Some 300; Some 0] in
  let r := add_excess_income march_goals (Some 3%Z) (Some 2025%Z) answers in
  let d' := snd r in
  expenses d' = expenses march_goals /\
  expense_categories d' = expense_categories march_goals /\
  income d' = income march_goals /\
  income_categories d' = income_categories march_goals /\
  budget d' = budget march_goals /\
  (fst r <> SavingsUpdated -> savings_goals d' = savings_goals march_goals) /\
  exists amounts,
    List.length amounts = List.length (savings_goals march_goals) /\
    (fst r = SavingsUpdated ->
     exists mo yr,
       Some 3%Z = Some mo /\ Some 2025%Z = Some yr /\
       accepted_run (available_excess march_goals mo yr)
                    (List.length (savings_goals march_goals)) answers amounts /\
       forall others,
         accepted_run (available_excess march_goals mo yr)
                      (List.length (savings_goals march_goals)) answers others ->
         others = amounts) /\
    Forall2 (fun ga g' =>
               goal_id g' = goal_id (fst ga) /\
               goal_name g' = goal_name (fst ga) /\
               target_amount g' = target_amount (fst ga) /\
               target_date g' = target_date (fst ga) /\
               (snd ga <= 0 -> g' = fst ga) /\
               (0 < snd ga ->
                In (Some (snd ga)) answers /\
                current_saved g' = current_saved (fst ga) + snd ga))
            (combine (savings_goals march_goals) amounts) (savings_goals d').
Proof.
  apply (allocation_frame march_goals (Some 3%Z) (Some 2025%Z)
           [Some 500; None; Some (-5); Some 100; Some 300; Some 0]
           unique_ids_two_goals).
Defined.

(** ** Where [current_saved] stays non-negative

    The negative transfer of C4 is the only way below zero: an allocation
    run, a removal of any number and a transfer of a number that is not
    negative keep every [current_saved] at 0 or above. *)

Lemma unique_lookup (gs : list goal) (g : goal) :
  unique_ids gs -> In g gs -> lookup_goal (goal_id g) gs = Some g.
Proof.
  unfold unique_ids, lookup_goal.
  induction gs as [|h gs IH]; simpl; intros Hu HI; [contradiction|].
  inversion Hu as [|? ? Hnot Hu']; subst.
  destruct HI as [-> | HI]; [now rewrite Z.eqb_refl|].
  destruct (Z.eqb_spec (goal_id h) (goal_id g)) as [E | _]; [|now apply IH].
  exfalso. apply Hnot. rewrite E. now apply in_map.
Qed.

Lemma update_saved_nonneg (f : Q -> Q) (gs : list goal) (id : Z) :
  saved_nonneg gs ->
  (forall g, In g gs -> goal_id g = id -> 0 <= f (current_saved g)) ->
  saved_nonneg (update_saved f gs id).
Proof.
  unfold saved_nonneg, update_saved. intros Hn Hf.
  apply Forall_forall. intros g' HI. apply in_map_iff in HI.
  destruct HI as (g & <- & HI). rewrite Forall_forall in Hn.
  destruct (Z.eqb_spec (goal_id g) id) as [E | _]; [|now apply Hn].
  cbn [current_saved set_current_saved]. now apply Hf.
Qed.

(** X20.  An allocation run keeps every [current_saved] at 0 or above
    (goal ids unique), whatever is typed. *)
Lemma add_excess_income_keeps_nonneg (d : db) (month_in year_in : option Z)
      (answers : list (option Q)) :
  unique_ids (savings_goals d) -> saved_nonneg (savings_goals d) ->
  saved_nonneg
    (savings_goals (snd (add_excess_income d month_in year_in answers))).
Proof.
  intros Hu Hn.
  destruct (add_excess_income_credits d month_in year_in answers Hu)
    as (amounts & _ & _ & ->).
  unfold saved_nonneg in *. rewrite Forall_forall in Hn.
  apply Forall_forall. intros g' HI. apply in_map_iff in HI.
  destruct HI as ([g a] & <- & HI). apply in_combine_l in HI.
  specialize (Hn g HI). cbn [fst snd]. unfold credit.
  destruct (Qlt_le_dec 0 a); cbn [current_saved set_current_saved]; lra.
Qed.

(** X21.  For an amount that is a number, [remove_or_move_savings] keeps
    every [current_saved] at 0 or above (goal ids unique) in every
    removal and in every transfer of an amount that is not negative.  (A
    nan is no amount of this store; what it does to the row is
    [nan_removal_leaves_null].) *)
Lemma remove_or_move_keeps_nonneg (d : db) (goal_in : option Z)
      (amt_in : option Q) (action : string) (new_goal_in : option Z) :
  unique_ids (savings_goals d) -> saved_nonneg (savings_goals d) ->
  (forall x, amt_in = Some x -> action = "2"%string -> 0 <= x) ->
  saved_nonneg
    (savings_goals
       (snd (remove_or_move_savings d goal_in amt_in action new_goal_in))).
Proof.
  intros Hu Hn Hx. unfold remove_or_move_savings.
  destruct (savings_goals d) as [|h gs] eqn:G; [cbn [snd]; rewrite G; exact Hn|].
  destruct goal_in as [id|]; [|cbn [snd]; rewrite G; exact Hn].
  destruct amt_in as [x|]; [|cbn [snd]; rewrite G; exact Hn].
  pose proof (select_current_saved_lookup (h :: gs) id) as S.
  destruct (select_current_saved (h :: gs) id) as [|saved rest]; [cbn [snd]; rewrite G; exact Hn|].
  destruct (lookup_goal id (h :: gs)) as [g0|] eqn:L; [|discriminate].
  injection S as ->.
  destruct (Qlt_le_dec (current_saved g0) x) as [_ | Hle]; [cbn [snd]; rewrite G; exact Hn|].
  assert (Hrow : forall g, In g (h :: gs) -> goal_id g = id -> g = g0).
  { intros g HI E. pose proof (unique_lookup _ g Hu HI) as U.
    rewrite E, L in U. congruence. }
  destruct (String.eqb_spec action "1") as [_ | _].
  - cbn [snd savings_goals with_goals]. rewrite update_sub_saved.
    apply update_saved_nonneg; [assumption|].
    intros g HI E. rewrite (Hrow g HI E). lra.
  - destruct (String.eqb_spec action "2") as [A | _]; [|cbn [snd]; rewrite G; exact Hn].
    destruct new_goal_in as [new_id|]; [|cbn [snd]; rewrite G; exact Hn].
    specialize (Hx x eq_refl A).
    cbn [snd savings_goals with_goals].
    rewrite update_sub_saved, update_add_saved.
    assert (N1 : saved_nonneg (update_saved (fun s => s + x) (h :: gs) new_id)).
    { apply update_saved_nonneg; [assumption|].
      intros g HI _. unfold saved_nonneg in Hn. rewrite Forall_forall in Hn.
      specialize (Hn g HI). lra. }
    apply update_saved_nonneg; [assumption|].
    intros g' HI E. unfold update_saved in HI. apply in_map_iff in HI.
    destruct HI as (g & <- & HI).
    assert (Eg : goal_id g = id).
    { destruct (goal_id g =? new_id)%Z; exact E. }
    rewrite (Hrow g HI Eg).
    destruct (goal_id g0 =? new_id)%Z;
      cbn [current_saved set_current_saved]; lra.
Qed.

(** * Further properties of the managers *)

(** ** Keys *)

Lemma next_id_above (ids : list Z) (x : Z) : In x ids -> (x < next_id ids)%Z.
Proof.
  unfold next_id. induction ids as [|i ids IH]; simpl; intros H; [contradiction|].
  destruct H as [-> | H]; [lia|]. specialize (IH H). lia.
Qed.

Lemma next_id_fresh (ids : list Z) : ~ In (next_id ids) ids.
Proof. intros H. apply next_id_above in H. lia. Qed.

Lemma NoDup_snoc {A} (l : list A) (x : A) :
  NoDup l -> ~ In x l -> NoDup (l ++ [x]).
Proof.
  intros Hl Hx. apply NoDup_app; [exact Hl | repeat constructor; intros [] |].
  intros y Hy [<- | []]. now apply Hx.
Qed.

(** On a table with unique keys, selecting by the key of a row gives
    that row alone. *)
Lemma filter_unique_key {A K} (key : A -> K) (eqb : K -> K -> bool)
      (l : list A) (a : A) :
  (forall x y, eqb x y = true <-> x = y) ->
  NoDup (map key l) -> In a l ->
  filter (fun x => eqb (key x) (key a)) l = [a].
Proof.
  intros Heqb Hn. induction l as [|h l IH]; simpl; intros HI; [contradiction|].
  inversion Hn as [|? ? Hnot Hn']; subst.
  assert (Hout : forall l', ~ In (key a) (map key l') ->
                            filter (fun x => eqb (key x) (key a)) l' = []).
  { induction l' as [|h' l' IH']; simpl; intros H; [reflexivity|].
    destruct (eqb (key h') (key a)) eqn:E.
    - exfalso. apply H. left. now apply Heqb.
    - apply IH'. intros HI'. apply H. now right. }
  destruct HI as [-> | HI].
  - replace (eqb (key a) (key a)) with true by (symmetry; now apply Heqb).
    f_equal. now apply Hout.
  - destruct (eqb (key h) (key a)) eqn:E; [|now apply IH].
    exfalso. apply Hnot. apply Heqb in E. rewrite E. now apply in_map.
Qed.

Lemma find_unique_key {A} (key : A -> Z) (l : list A) (a : A) :
  NoDup (map key l) -> In a l ->
  find (fun x => (key x =? key a)%Z) l = Some a.
Proof.
  intros Hn. induction l as [|h l IH]; simpl; intros HI; [contradiction|].
  inversion Hn as [|? ? Hnot Hn']; subst.
  destruct HI as [-> | HI]; [now rewrite Z.eqb_refl|].
  destruct (Z.eqb_spec (key h) (key a)) as [E | _]; [|now apply IH].
  exfalso. apply Hnot. rewrite E. now apply in_map.
Qed.

(** ** Category tables *)

Lemma existsb_name (cats : list category_row) (name : string) :
  existsb (fun c => String.eqb (category_name c) name) cats = true
  <-> In name (map category_name cats).
Proof.
  rewrite existsb_exists, in_map_iff.
  split; intros (c & H1 & H2); exists c.
  - apply String.eqb_eq in H2. auto.
  - split; [assumption | now apply String.eqb_eq].
Qed.

Lemma add_category_cases (cats : list category_row) (rowid : Z) (name : string) :
  Ledger.add_category cats rowid name
  = (if String.eqb name "" then Ledger.CategoryNameEmpty
     else Ledger.CategoryAdded
            (existsb (fun c => String.eqb (category_name c) name) cats),
     if String.eqb name "" then cats
     else if existsb (fun c => String.eqb (category_name c) name) cats
          then cats else cats ++ [mk_category rowid name]).
Proof.
  unfold Ledger.add_category.
  destruct (String.eqb name ""); [reflexivity|].
  now destruct (existsb _ cats).
Qed.

(** X1.  Adding a category keeps names and ids unique (the id is fresh)
    and leaves every row the table had in place; for a non-empty name the
    table then holds exactly one row of that name.  A name the table
    already has is not inserted again, and the method still reports
    "added successfully" after the database error. *)
Theorem add_category_one_row (cats : list category_row) (rowid : Z)
        (name : string) :
  names_unique cats ->
  category_ids_unique cats ->
  ~ In rowid (map category_id cats) ->
  let r := Ledger.add_category cats rowid name in
  names_unique (snd r) /\
  category_ids_unique (snd r) /\
  (exists added, snd r = cats ++ added) /\
  (name <> ""%string ->
   exists row,
     filter (fun c => String.eqb (category_name c) name) (snd r) = [row] /\
     category_name row = name) /\
  (In name (map category_name cats) -> name <> ""%string ->
   r = (Ledger.CategoryAdded true, cats)).
Proof.
  intros Hn Hi Hfresh r. subst r. rewrite add_category_cases. cbn [fst snd].
  destruct (String.eqb_spec name "") as [E | E].
  { repeat split; try assumption; try (exists []; now rewrite app_nil_r);
      intros; contradiction. }
  destruct (existsb (fun c => String.eqb (category_name c) name) cats) eqn:Ex.
  - apply existsb_name in Ex. repeat split; try assumption.
    + exists []. now rewrite app_nil_r.
    + intros _. apply in_map_iff in Ex. destruct Ex as (c & Hc & HI).
      exists c. split; [|assumption]. rewrite <- Hc.
      apply (filter_unique_key category_name String.eqb); auto.
      apply String.eqb_eq.
  - assert (Hnot : ~ In name (map category_name cats)).
    { intros HI. apply existsb_name in HI. congruence. }
    repeat split.
    + unfold names_unique. rewrite map_app. now apply NoDup_snoc.
    + unfold category_ids_unique. rewrite map_app. now apply NoDup_snoc.
    + now exists [mk_category rowid name].
    + intros _. exists (mk_category rowid name). split; [|reflexivity].
      rewrite filter_app. cbn [filter category_name]. rewrite String.eqb_refl.
      replace (filter (fun c => String.eqb (category_name c) name) cats)
        with (@nil category_row); [reflexivity|].
      symmetry. clear -Hnot. induction cats as [|c cats IH]; [reflexivity|].
      simpl. destruct (String.eqb_spec (category_name c) name) as [E | _].
      * exfalso. apply Hnot. now left.
      * apply IH. intros H. apply Hnot. now right.
    + intros HI. contradiction.
Qed.

Lemma name_of_id_unique (cats : list category_row) (c : category_row) :
  category_ids_unique cats -> In c cats ->
  Ledger.name_of_id cats (category_id c) = Some (category_name c).
Proof.
  intros Hu HI. unfold Ledger.name_of_id.
  now rewrite (find_unique_key category_id cats c Hu HI).
Qed.

Lemma delete_row_In (cats : list category_row) (id : Z) (c : category_row) :
  In c (Ledger.delete_row cats id) <-> In c cats /\ category_id c <> id.
Proof.
  unfold Ledger.delete_row. rewrite filter_In, negb_true_iff, Z.eqb_neq.
  reflexivity.
Qed.

Lemma count_positive {A} (f : A -> bool) (l : list A) :
  (0 <? List.length (filter f l))%nat = true <-> exists x, In x l /\ f x = true.
Proof.
  rewrite Nat.ltb_lt. split.
  - destruct (filter f l) as [|x t] eqn:E; simpl; [lia|]. intros _.
    exists x. apply filter_In. rewrite E. now left.
  - intros (x & Hx & Hf).
    assert (HI : In x (filter f l)) by (apply filter_In; auto).
    destruct (filter f l); [contradiction | simpl; lia].
Qed.

(** A category that a ledger row names survives any run of the
    deletion. *)
Lemma delete_category_keeps_used (cats : list category_row) (rows : list entry)
      (cat_in : option Z) (c : category_row) (e : entry) :
  category_ids_unique cats ->
  In c cats -> In e rows -> category e = category_name c ->
  In c (snd (Ledger.delete_category cats rows cat_in)).
Proof.
  intros Hu Hc He Hcat. unfold Ledger.delete_category.
  destruct cats as [|c0 cats0] eqn:Ec; [contradiction|].
  rewrite <- Ec in *. clear Ec c0 cats0.
  destruct cat_in as [id|]; [|assumption].
  destruct (0 <? List.length
                   (filter (fun e0 => sql_text_eq (Ledger.name_of_id cats id)
                                                  (category e0)) rows))%nat
    eqn:Hcount; cbn [snd]; [assumption|].
  apply delete_row_In. split; [assumption|]. intros Hid.
  assert (T : (0 <? List.length
                      (filter (fun e0 => sql_text_eq (Ledger.name_of_id cats id)
                                                     (category e0)) rows))%nat
              = true).
  { apply count_positive. exists e. split; [assumption|].
    rewrite <- Hid, (name_of_id_unique cats c Hu Hc). cbn [sql_text_eq].
    rewrite Hcat. apply String.eqb_refl. }
  congruence.
Qed.

(** X2.  Deleting a category (ids unique): while a ledger row carries
    the name of the category with the chosen id the table is left as it
    is ("Cannot delete category"); a deletion that goes through removes
    the rows of that id and no other row, and no ledger row carried the
    name; every other outcome leaves the table as it is. *)
Theorem delete_category_guard (cats : list category_row) (rows : list entry)
        (cat_in : option Z) :
  category_ids_unique cats ->
  let r := Ledger.delete_category cats rows cat_in in
  (forall c e,
     In c cats -> cat_in = Some (category_id c) ->
     In e rows -> category e = category_name c ->
     r = (Ledger.CategoryInUse, cats)) /\
  (fst r = Ledger.CategoryDeleted ->
   exists id,
     cat_in = Some id /\
     (forall c, In c (snd r) <-> In c cats /\ category_id c <> id) /\
     (forall c e, In c cats -> category_id c = id -> In e rows ->
                  category e <> category_name c)) /\
  (fst r <> Ledger.CategoryDeleted -> snd r = cats).
Proof.
  intros Hu r. subst r. unfold Ledger.delete_category.
  destruct cats as [|c0 cats0] eqn:Ec.
  { repeat split; try discriminate; intros; contradiction. }
  rewrite <- Ec in *. clear Ec c0 cats0.
  destruct cat_in as [id|]; [|repeat split; discriminate].
  set (used := fun e => sql_text_eq (Ledger.name_of_id cats id) (category e)).
  destruct (0 <? List.length (filter used rows))%nat eqn:Hc; cbn [fst snd].
  - repeat split; try discriminate; reflexivity.
  - split; [|split; [|intros H; now elim H]].
    + intros c e HI [= ->] He Hcat. exfalso.
      assert (T : (0 <? List.length (filter used rows))%nat = true).
      { apply count_positive. exists e. split; [assumption|]. subst used.
        cbn beta. rewrite (name_of_id_unique cats c Hu HI). cbn [sql_text_eq].
        rewrite Hcat. apply String.eqb_refl. }
      congruence.
    + intros _. exists id. split; [reflexivity|]. split.
      * intros c. apply delete_row_In.
      * intros c e HI Hid He Hcat.
        assert (T : (0 <? List.length (filter used rows))%nat = true).
        { apply count_positive. exists e. split; [assumption|]. subst used.
          cbn beta. rewrite <- Hid, (name_of_id_unique cats c Hu HI).
          cbn [sql_text_eq]. rewrite Hcat. apply String.eqb_refl. }
        congruence.
Qed.

Lemma pick_category_In (cats : list category_row) (choice : Z) (c : string) :
  Ledger.pick_category cats choice = Some c ->
  In c (map category_name cats) /\ c <> ""%string.
Proof.
  unfold Ledger.pick_category.
  destruct (find (fun c0 => (category_id c0 =? choice)%Z) cats) as [row|] eqn:F;
    [|discriminate].
  destruct (String.eqb_spec (category_name row) "") as [_ | N]; [discriminate|].
  intros [= <-]. split; [|assumption].
  apply find_some in F. apply in_map. tauto.
Qed.

(** What [add_entry] does to the two tables, case by case. *)
Lemma add_entry_cases (strptime_ok : string -> bool)
      (cats : list category_row) (rows : list entry) (amt : Q)
      (dates : list string) (rowid : Z) (name : string)
      (choice_in : option Z) :
  let r := Ledger.add_entry strptime_ok cats rows amt dates rowid name
                            choice_in in
  (fst r <> Ledger.EntryAdded /\ snd (snd r) = rows /\
   (fst (snd r) = cats \/
    cats = [] /\ fst (snd r) = snd (Ledger.add_category [] rowid name))) \/
  (exists date choice c,
     find strptime_ok dates = Some date /\
     choice_in = Some choice /\
     Ledger.pick_category (fst (snd r)) choice = Some c /\
     (fst (snd r) = cats \/
      cats = [] /\ fst (snd r) = snd (Ledger.add_category [] rowid name)) /\
     r = (Ledger.EntryAdded,
          (fst (snd r), Ledger.insert_entry rows c amt date))).
Proof.
  unfold Ledger.add_entry.
  destruct (find strptime_ok dates) as [date|];
    [|left; repeat split; [discriminate | now left]].
  set (categories := match cats with
                     | [] => snd (Ledger.add_category cats rowid name)
                     | _ :: _ => cats
                     end).
  assert (Hcat : categories = cats \/
                 cats = [] /\
                 categories = snd (Ledger.add_category [] rowid name)).
  { subst categories. destruct cats; [right; split; reflexivity | now left]. }
  clearbody categories.
  destruct categories as [|c0 cs] eqn:Ec;
    [left; repeat split; [discriminate | assumption]|].
  rewrite <- Ec in *. clear Ec c0 cs.
  destruct choice_in as [choice|];
    [|left; repeat split; [discriminate | assumption]].
  destruct (Ledger.pick_category categories choice) as [c|] eqn:P;
    [|left; repeat split; [discriminate | assumption]].
  right. exists date, choice, c. cbn [fst snd]. repeat split; assumption.
Qed.

Lemma add_entry_typed_number (strptime_ok : string -> bool)
      (cats : list category_row) (rows : list entry) (a : Q)
      (dates : list string) (rowid : Z) (name : string)
      (choice_in : option Z) :
  Ledger.add_entry_typed strptime_ok cats rows (Number a) dates rowid name
                         choice_in
  = Ledger.add_entry strptime_ok cats rows a dates rowid name choice_in.
Proof. reflexivity. Qed.

(** With a nan the method goes the way it goes with a number, up to the
    INSERT, which is refused. *)
Lemma add_entry_typed_nan (strptime_ok : string -> bool)
      (cats : list category_row) (rows : list entry) (a : Q)
      (dates : list string) (rowid : Z) (name : string)
      (choice_in : option Z) :
  let r := Ledger.add_entry_typed strptime_ok cats rows NotANumber dates
                                  rowid name choice_in in
  let r0 := Ledger.add_entry strptime_ok cats rows a dates rowid name
                             choice_in in
  fst r = fst r0 /\ fst (snd r) = fst (snd r0) /\ snd (snd r) = rows.
Proof.
  unfold Ledger.add_entry_typed, Ledger.add_entry.
  destruct (find strptime_ok dates) as [date|]; [|repeat split].
  set (categories := match cats with
                     | [] => snd (Ledger.add_category cats rowid name)
                     | _ :: _ => cats
                     end).
  clearbody categories.
  destruct categories; [repeat split|].
  destruct choice_in as [choice|]; [|repeat split].
  destruct (Ledger.pick_category _ choice); repeat split.
Qed.

(** X3.  An expense or income is stored only after a date answer has
    passed [strptime] and a listed category has been chosen.  When the
    method then prints "added successfully" and the amount typed is a
    number (of any sign), the one new row has that amount, the first date
    answer that passed, a non-empty name found in the category table, and
    an id no row had; when the amount typed is nan the INSERT was refused
    and the ledger is as it was, although the same line is printed.  With
    any other outcome the ledger is as it was.  Row ids stay unique. *)
Theorem add_entry_effect (strptime_ok : string -> bool)
        (cats : list category_row) (rows : list entry) (amt : typed_float)
        (dates : list string) (rowid : Z) (name : string)
        (choice_in : option Z) :
  entry_ids_unique rows ->
  let r := Ledger.add_entry_typed strptime_ok cats rows amt dates rowid name
                                  choice_in in
  entry_ids_unique (snd (snd r)) /\
  (fst r = Ledger.EntryAdded ->
   exists date c,
     find strptime_ok dates = Some date /\
     strptime_ok date = true /\ In date dates /\
     In c (map category_name (fst (snd r))) /\ c <> ""%string /\
     match amt with
     | Number a =>
         exists id,
           snd (snd r) = rows ++ [mk_entry id c a date] /\
           ~ In id (map entry_id rows)
     | NotANumber => snd (snd r) = rows
     end) /\
  (fst r <> Ledger.EntryAdded -> snd (snd r) = rows).
Proof.
  intros Hu r.
  assert (Hcases :
            forall a,
              let r0 := Ledger.add_entry strptime_ok cats rows a dates rowid
                                         name choice_in in
              (fst r0 <> Ledger.EntryAdded /\ snd (snd r0) = rows) \/
              (exists date c,
                 find strptime_ok dates = Some date /\
                 strptime_ok date = true /\ In date dates /\
                 In c (map category_name (fst (snd r0))) /\ c <> ""%string /\
                 fst r0 = Ledger.EntryAdded /\
                 snd (snd r0) = Ledger.insert_entry rows c a date)).
  { intros a r0.
    destruct (add_entry_cases strptime_ok cats rows a dates rowid name
                              choice_in)
      as [(Hne & Hrows & _) | (date & choice & c & Hf & _ & Hp & _ & Hr)];
      fold r0 in Hne, Hrows || fold r0 in Hp, Hr.
    - left. split; assumption.
    - right. exists date, c.
      destruct (pick_category_In _ _ _ Hp) as [Hin Hne].
      destruct (find_some _ _ Hf) as [Hd Hok].
      rewrite Hr. cbn [fst snd]. rewrite Hr in Hin. cbn [fst snd] in Hin.
      repeat split; assumption. }
  destruct amt as [a|].
  - subst r. rewrite add_entry_typed_number.
    destruct (Hcases a)
      as [(Hne & Hrows) | (date & c & Hf & Hok & Hd & Hin & Hc & Ho & Hr)].
    + repeat split.
      * now rewrite Hrows.
      * intros H. contradiction.
      * intros _. exact Hrows.
    + split; [|split].
      * rewrite Hr. unfold Ledger.insert_entry, entry_ids_unique.
        rewrite map_app. apply NoDup_snoc; [exact Hu | apply next_id_fresh].
      * intros _. exists date, c. do 5 (split; [assumption|]).
        exists (next_id (map entry_id rows)).
        split; [exact Hr | apply next_id_fresh].
      * intros H. contradiction.
  - destruct (add_entry_typed_nan strptime_ok cats rows 0 dates rowid name
                                  choice_in) as (E1 & E2 & E3).
    fold r in E1, E2, E3. rewrite E1, E2, E3.
    split; [exact Hu|]. split; [|reflexivity].
    intros Ho.
    destruct (Hcases 0)
      as [(Hne & _) | (date & c & Hf & Hok & Hd & Hin & Hc & _ & _)];
      [contradiction|].
    exists date, c. repeat split; assumption.
Qed.

Lemma add_category_names (cats : list category_row) (rowid : Z) (name x : string) :
  In x (map category_name cats) ->
  In x (map category_name (snd (Ledger.add_category cats rowid name))).
Proof.
  rewrite add_category_cases. cbn [snd]. intros H.
  destruct (String.eqb name ""); [assumption|].
  destruct (existsb _ cats); [assumption|].
  rewrite map_app. apply in_or_app. now left.
Qed.

(** What [update_amount] does, case by case. *)
Lemma update_amount_cases (rows : list entry) (month_in year_in id_in : option Z)
      (amount_in : option Q) :
  let r := Ledger.update_amount rows month_in year_in id_in amount_in in
  (fst r <> Ledger.AmountUpdated /\ snd r = rows) \/
  (exists mo yr id a e,
     month_in = Some mo /\ year_in = Some yr /\
     id_in = Some id /\ amount_in = Some a /\
     (1 <= mo <= 12)%Z /\ (0 < yr)%Z /\
     In e rows /\ entry_id e = id /\ period_strftime mo yr e = true /\
     r = (Ledger.AmountUpdated, Ledger.update_entry rows id a)).
Proof.
  unfold Ledger.update_amount.
  destruct month_in as [mo|]; [|left; split; [discriminate | reflexivity]].
  destruct ((1 <=? mo) && (mo <=? 12))%Z eqn:Hm; cbn [negb];
    [|left; split; [discriminate | reflexivity]].
  destruct year_in as [yr|]; [|left; split; [discriminate | reflexivity]].
  destruct (yr <=? 0)%Z eqn:Hy; [left; split; [discriminate | reflexivity]|].
  destruct (filter (period_strftime mo yr) rows) as [|l0 listed] eqn:F;
    [left; split; [discriminate | reflexivity]|].
  rewrite <- F. clear l0 listed F.
  destruct id_in as [id|]; [|left; split; [discriminate | reflexivity]].
  destruct amount_in as [a|]; [|left; split; [discriminate | reflexivity]].
  destruct (existsb (Z.eqb id) (map entry_id (filter (period_strftime mo yr) rows)))
    eqn:Ex; [|left; split; [discriminate | reflexivity]].
  right. apply existsb_exists in Ex. destruct Ex as (i & Hi & Heq).
  apply Z.eqb_eq in Heq. subst i. apply in_map_iff in Hi.
  destruct Hi as (e & He & Hf). apply filter_In in Hf. destruct Hf as [Hin Hp].
  exists mo, yr, id, a, e. apply andb_true_iff in Hm.
  repeat split; try assumption; try reflexivity; lia.
Qed.

(** X4.  Every ledger row names a category of its table, and the four
    operations that write to the two tables keep it so (category ids
    unique): adding a category, deleting one, adding a row and updating
    an amount. *)
Theorem categories_cover_kept (strptime_ok : string -> bool)
        (cats : list category_row) (rows : list entry) :
  category_ids_unique cats ->
  categories_cover cats rows ->
  (forall rowid name,
     categories_cover (snd (Ledger.add_category cats rowid name)) rows) /\
  (forall cat_in,
     categories_cover (snd (Ledger.delete_category cats rows cat_in)) rows) /\
  (forall amt dates rowid name choice_in,
     let r := Ledger.add_entry strptime_ok cats rows amt dates rowid name
                               choice_in in
     categories_cover (fst (snd r)) (snd (snd r))) /\
  (forall month_in year_in id_in amount_in,
     categories_cover cats
       (snd (Ledger.update_amount rows month_in year_in id_in amount_in))).
Proof.
  intros Hu Hc. unfold categories_cover in *. rewrite Forall_forall in Hc.
  split; [|split; [|split]].
  - intros rowid name. apply Forall_forall. intros e He.
    apply add_category_names. now apply Hc.
  - intros cat_in. apply Forall_forall. intros e He.
    specialize (Hc e He). apply in_map_iff in Hc. destruct Hc as (c & Hn & HI).
    apply in_map_iff. exists c. split; [assumption|].
    now apply (delete_category_keeps_used cats rows cat_in c e).
  - intros amt dates rowid name choice_in.
    set (r := Ledger.add_entry strptime_ok cats rows amt dates rowid name
                               choice_in).
    destruct (add_entry_cases strptime_ok cats rows amt dates rowid name
                              choice_in)
      as [(_ & Hrows & Hcats) | (date & choice & c & _ & _ & Hp & Hcats & Hr)];
      fold r in Hrows, Hcats || fold r in Hp, Hcats, Hr.
    + rewrite Hrows. apply Forall_forall. intros e He.
      destruct Hcats as [-> | [-> ->]]; [now apply Hc|].
      apply add_category_names. now apply Hc.
    + destruct (pick_category_In _ _ _ Hp) as [Hin _].
      rewrite Hr. cbn [fst snd]. unfold Ledger.insert_entry.
      apply Forall_app. split.
      * apply Forall_forall. intros e He.
        destruct Hcats as [-> | [-> ->]]; [now apply Hc|].
        apply add_category_names. now apply Hc.
      * repeat constructor. exact Hin.
  - intros month_in year_in id_in amount_in. apply Forall_forall. intros e He.
    destruct (update_amount_cases rows month_in year_in id_in amount_in)
      as [(_ & Hr) | (mo & yr & id & a & e1 & _ & _ & _ & _ & _ & _ & _ & _ & _ & Hr)];
      rewrite Hr in He; [now apply Hc|].
    cbn [snd] in He. unfold Ledger.update_entry in He. apply in_map_iff in He.
    destruct He as (e0 & <- & He0).
    specialize (Hc e0 He0). now destruct (entry_id e0 =? id)%Z.
Qed.

(** ** Ledger rows *)

Lemma unique_row (rows : list entry) (e e' : entry) :
  entry_ids_unique rows -> In e rows -> In e' rows ->
  entry_id e = entry_id e' -> e = e'.
Proof.
  intros Hu He He' Hid.
  pose proof (find_unique_key entry_id rows e Hu He) as F.
  pose proof (find_unique_key entry_id rows e' Hu He') as F'.
  rewrite Hid in F. congruence.
Qed.

Lemma Forall2_same {A} (R : A -> A -> Prop) (l : list A) :
  (forall x, In x l -> R x x) -> Forall2 R l l.
Proof.
  induction l as [|x l IH]; intros H; constructor.
  - apply H. now left.
  - apply IH. intros y Hy. apply H. now right.
Qed.

(** X5.  Updating an amount (row ids unique) changes nothing but the
    amount of one row: every row keeps its id, category and timestamp,
    and a row whose amount differs afterwards is the row of the id typed,
    now holds the amount typed, and is dated in the month and year typed
    first.  An id that is not among the rows listed for that month and
    year changes nothing. *)
Theorem update_amount_frame (rows : list entry)
        (month_in year_in id_in : option Z) (amount_in : option Q) :
  entry_ids_unique rows ->
  let r := Ledger.update_amount rows month_in year_in id_in amount_in in
  Forall2 (fun e e' =>
             entry_id e' = entry_id e /\ category e' = category e /\
             timestamp e' = timestamp e /\
             (amount e' <> amount e ->
              fst r = Ledger.AmountUpdated /\
              id_in = Some (entry_id e) /\ amount_in = Some (amount e') /\
              exists mo yr,
                month_in = Some mo /\ year_in = Some yr /\
                period_strftime mo yr e = true))
          rows (snd r) /\
  (forall mo yr id,
     month_in = Some mo -> year_in = Some yr -> id_in = Some id ->
     ~ In id (map entry_id (filter (period_strftime mo yr) rows)) ->
     snd r = rows).
Proof.
  intros Hu r. split.
  - destruct (update_amount_cases rows month_in year_in id_in amount_in)
      as [(_ & Hr) | (mo & yr & id & a & e1 & -> & -> & -> & -> & _ & _ &
                      He1 & Hid & Hp & Hr)]; fold r in Hr; rewrite Hr.
    + apply Forall2_same. intros e _.
      do 3 (split; [reflexivity|]). intros H. now elim H.
    + cbn [fst snd]. unfold Ledger.update_entry. apply Forall2_map_r.
      intros e He. destruct (Z.eqb_spec (entry_id e) id) as [E | _].
      * cbn [entry_id category timestamp amount].
        do 3 (split; [reflexivity|]). intros _.
        split; [reflexivity|]. split; [now rewrite E|].
        split; [reflexivity|]. exists mo, yr.
        do 2 (split; [reflexivity|]).
        rewrite (unique_row rows e e1 Hu He He1); [assumption | congruence].
      * do 3 (split; [reflexivity|]). intros H. now elim H.
  - intros mo yr id -> -> -> Hnot.
    destruct (update_amount_cases rows (Some mo) (Some yr) (Some id) amount_in)
      as [(_ & Hr) | (mo' & yr' & id' & a & e1 & [= <-] & [= <-] & [= <-] & _ &
                      _ & _ & He1 & Hid & Hp & _)]; [exact Hr|].
    exfalso. apply Hnot. apply in_map_iff. exists e1. split; [assumption|].
    apply filter_In. now split.
Qed.




(** ** Budgets, further *)

(** X9.  Set, then view, with what the menu read.  A month or year
    that SQLite does not take as a 64-bit integer ends either call with
    [OverflowError].  Otherwise, on a budget table that satisfies its
    UNIQUE constraint, [set_budget] returns; after an amount that is a
    number the budget view of (c, mo, yr) reports it as budgeted, with
    total expenses computed from the same expense rows as before, and
    after a nan the store is as it was. *)
Theorem set_budget_then_view (d : db) (c : string) (amt : typed_float)
        (mo yr : Z) :
  budget_unique (budget d) ->
  (fits_int64 mo && fits_int64 yr = false ->
   set_budget_typed d c amt mo yr = Raised OverflowError /\
   view_budget_for_category_typed d c mo yr = Raised OverflowError) /\
  (fits_int64 mo && fits_int64 yr = true ->
   exists d',
     set_budget_typed d c amt mo yr = Returned d' /\
     match amt with
     | Number a =>
         exists v,
           view_budget_for_category_typed d' c mo yr
           = Returned
               (BudgetReport a
                  (total_amount (category_period_substr c mo yr) (expenses d))
                  v)
     | NotANumber => d' = d
     end).
Proof.
  intros Hu. unfold set_budget_typed, view_budget_for_category_typed.
  split; intros Hfit; rewrite Hfit; [split; reflexivity|].
  destruct amt as [a|]; eexists; (split; [reflexivity|]); [|reflexivity].
  destruct (set_budget_row d c a mo yr Hu) as (row & Hf & Ha).
  unfold view_budget_for_category. rewrite Hf. cbn [map]. rewrite Ha.
  replace (expenses (set_budget d c a mo yr)) with (expenses d)
    by (unfold set_budget; now destruct (existsb _ (budget d))).
  eexists. reflexivity.
Qed.

Lemma budget_key_other (c c' : string) (mo mo' yr yr' : Z) (b : budget_row) :
  (c', mo', yr') <> (c, mo, yr) ->
  budget_key c mo yr b = true -> budget_key c' mo' yr' b = false.
Proof.
  intros Hne K. apply budget_key_triple in K.
  destruct (budget_key c' mo' yr' b) eqn:K'; [|reflexivity].
  apply budget_key_triple in K'. congruence.
Qed.

(** X10.  [set_budget] on one triple leaves the budget view of every
    other triple as it was. *)
Theorem set_budget_other_triple (d : db) (c c' : string) (a : Q)
        (mo mo' yr yr' : Z) :
  (c', mo', yr') <> (c, mo, yr) ->
  view_budget_for_category (set_budget d c a mo yr) c' mo' yr'
  = view_budget_for_category d c' mo' yr'.
Proof.
  intros Hne. unfold view_budget_for_category.
  assert (Hf : filter (budget_key c' mo' yr') (budget (set_budget d c a mo yr))
               = filter (budget_key c' mo' yr') (budget d)).
  { unfold set_budget.
    destruct (existsb (budget_key c mo yr) (budget d)); cbn [budget with_budget].
    - induction (budget d) as [|b bs IH]; [reflexivity|]. cbn [map filter].
      destruct (budget_key c mo yr b) eqn:K.
      + rewrite budget_key_set_amount.
        rewrite (budget_key_other c c' mo mo' yr yr' b Hne K). exact IH.
      + rewrite IH. reflexivity.
    - rewrite filter_app. cbn [filter].
      rewrite (budget_key_other c c' mo mo' yr yr' _ Hne);
        [apply app_nil_r|].
      apply budget_key_triple. reflexivity. }
  rewrite Hf.
  replace (expenses (set_budget d c a mo yr)) with (expenses d)
    by (unfold set_budget; now destruct (existsb _ (budget d))).
  reflexivity.
Qed.

Lemma set_budget_other_triple_witness :
  view_budget_for_category (set_budget march_2025 "Food" 150 4 2025)
                           "Food" 3 2025
  = view_budget_for_category march_2025 "Food" 3 2025.
Proof.
  apply (set_budget_other_triple march_2025 "Food" "Food" 150 4 3 2025 2025).
  discriminate.
Defined.

(** *** The listing of all budgets *)

Lemma budget_le_total (a b : budget_row) :
  budget_le a b = false -> budget_le b a = true.
Proof.
  unfold budget_le.
  destruct (Z.ltb_spec (budget_year a) (budget_year b)); [discriminate|].
  destruct (Z.ltb_spec (budget_year b) (budget_year a)); [reflexivity|].
  replace (budget_year a =? budget_year b)%Z with true by (symmetry; lia).
  replace (budget_year b =? budget_year a)%Z with true by (symmetry; lia).
  cbn [orb andb].
  destruct (Z.ltb_spec (budget_month a) (budget_month b)); [discriminate|].
  destruct (Z.ltb_spec (budget_month b) (budget_month a)); [reflexivity|].
  replace (budget_month a =? budget_month b)%Z with true by (symmetry; lia).
  replace (budget_month b =? budget_month a)%Z with true by (symmetry; lia).
  cbn [orb andb]. intros Hleb.
  destruct (String.leb_total (budget_category a) (budget_category b));
    congruence.
Qed.

Lemma insert_ordered_perm (b : budget_row) (l : list budget_row) :
  Permutation (b :: l) (insert_ordered b l).
Proof.
  induction l as [|h t IH]; cbn [insert_ordered]; [reflexivity|].
  destruct (budget_le b h); [reflexivity|].
  rewrite perm_swap. now constructor.
Qed.

Lemma insert_ordered_sorted (b : budget_row) (l : list budget_row) :
  Sorted budget_ordered l -> Sorted budget_ordered (insert_ordered b l).
Proof.
  induction l as [|h t IH]; cbn [insert_ordered]; intros Hs.
  - repeat constructor.
  - destruct (budget_le b h) eqn:E.
    + constructor; [assumption | now constructor].
    + inversion Hs as [|? ? Ht Hh]; subst. constructor; [now apply IH|].
      destruct t as [|h' t']; cbn [insert_ordered].
      * constructor. now apply budget_le_total.
      * destruct (budget_le b h') eqn:E'.
        -- constructor. now apply budget_le_total.
        -- inversion Hh; subst. now constructor.
Qed.

(** X12.  [view_all_budgets] prints every budget row exactly once, in
    non-decreasing order of (year, month, category); it prints "No
    budgets set." exactly when the table is empty. *)
Theorem view_all_budgets_sorted (d : db) :
  (view_all_budgets d = None <-> budget d = []) /\
  forall listed,
    view_all_budgets d = Some listed ->
    Permutation (budget d) listed /\ Sorted budget_ordered listed.
Proof.
  unfold view_all_budgets. split.
  - destruct (budget d); split; intros H; try reflexivity; discriminate.
  - intros listed H.
    assert (E : listed = order_by_year_month_category (budget d))
      by (destruct (budget d); [discriminate | congruence]).
    subst listed. clear H. unfold order_by_year_month_category.
    induction (budget d) as [|b bs [IHp IHs]]; cbn [fold_right].
    + split; constructor.
    + split.
      * rewrite <- insert_ordered_perm. now constructor.
      * now apply insert_ordered_sorted.
Qed.

(** *** The Manage Budgets menu *)

Lemma set_budget_frame (d : db) (c : string) (a : Q) (mo yr : Z) :
  expenses (set_budget d c a mo yr) = expenses d /\
  expense_categories (set_budget d c a mo yr) = expense_categories d /\
  income (set_budget d c a mo yr) = income d /\
  income_categories (set_budget d c a mo yr) = income_categories d /\
  savings_goals (set_budget d c a mo yr) = savings_goals d.
Proof.
  unfold set_budget. destruct (existsb _ (budget d)); repeat split.
Qed.

Lemma set_budget_valid (cats : list category_row) (d : db) (c : string)
      (a : Q) (mo yr : Z) :
  Forall (budget_row_valid cats) (budget d) ->
  budget_row_valid cats (mk_budget 0 c a mo yr) ->
  Forall (budget_row_valid cats) (budget (set_budget d c a mo yr)).
Proof.
  intros Hv Hnew. unfold set_budget.
  destruct (existsb _ (budget d)); cbn [budget with_budget].
  - apply Forall_forall. intros b' Hb'. apply in_map_iff in Hb'.
    destruct Hb' as (b & <- & Hb). rewrite Forall_forall in Hv.
    specialize (Hv b Hb). now destruct (budget_key c mo yr b).
  - apply Forall_app. split; [assumption|]. repeat constructor; apply Hnew.
Qed.

(** One pass of the menu either leaves the store or sets a budget that
    the prompts have checked. *)
Lemma manage_budgets_pass_cases (d : db) (p : MainMenu.budget_pass) (d' : db) :
  MainMenu.manage_budgets_pass d p = Some d' ->
  d' = d \/
  exists c a mo yr,
    d' = set_budget d c a mo yr /\
    budget_row_valid (expense_categories d) (mk_budget 0 c a mo yr).
Proof.
  unfold MainMenu.manage_budgets_pass.
  destruct (String.eqb (MainMenu.pass_choice p) "1").
  - destruct (expense_categories d) as [|c0 cs] eqn:Ec; [intros [= <-]; now left|].
    rewrite <- Ec. clear Ec c0 cs.
    destruct (MainMenu.pass_category p) as [cat_id|]; [|intros [= <-]; now left].
    destruct (Ledger.pick_category (expense_categories d) cat_id) as [c|] eqn:P;
      [|intros [= <-]; now left].
    destruct (MainMenu.pass_amount p) as [a|]; [|intros [= <-]; now left].
    destruct (MainMenu.pass_month p) as [mo|]; [|intros [= <-]; now left].
    destruct ((1 <=? mo) && (mo <=? 12))%Z eqn:Hm; cbn [negb];
      [|intros [= <-]; now left].
    destruct (MainMenu.pass_year p) as [yr|]; [|intros [= <-]; now left].
    destruct (yr <=? 0)%Z eqn:Hy; [intros [= <-]; now left|].
    intros [= <-]. right. exists c, a, mo, yr. split; [reflexivity|].
    apply andb_true_iff in Hm. destruct (pick_category_In _ _ _ P) as [Hin _].
    unfold budget_row_valid. cbn. repeat split; try lia. exact Hin.
  - destruct (String.eqb (MainMenu.pass_choice p) "2"); [discriminate|].
    intros [= <-]. now left.
Qed.

(** X13.  Whatever is typed in the Manage Budgets menu, the budget table
    keeps its UNIQUE constraint and every budget row keeps a month in
    1..12, a positive year and the name of an expense category, if that
    held when the menu was entered; the menu writes to no other table. *)
Theorem manage_budgets_menu_keeps_valid (script : list MainMenu.budget_pass) :
  forall d : db,
    budget_unique (budget d) ->
    Forall (budget_row_valid (expense_categories d)) (budget d) ->
    let d' := MainMenu.manage_budgets_menu d script in
    budget_unique (budget d') /\
    Forall (budget_row_valid (expense_categories d)) (budget d') /\
    expenses d' = expenses d /\
    expense_categories d' = expense_categories d /\
    income d' = income d /\
    income_categories d' = income_categories d /\
    savings_goals d' = savings_goals d.
Proof.
  induction script as [|p rest IH]; intros d Hu Hv; cbn [MainMenu.manage_budgets_menu].
  - repeat split; assumption.
  - destruct (MainMenu.manage_budgets_pass d p) as [d1|] eqn:P;
      [|repeat split; assumption].
    destruct (manage_budgets_pass_cases d p d1 P)
      as [-> | (c & a & mo & yr & -> & Hnew)]; [now apply IH|].
    destruct (set_budget_frame d c a mo yr) as (F1 & F2 & F3 & F4 & F5).
    specialize (IH (set_budget d c a mo yr)).
    rewrite F2 in IH.
    destruct IH as (I1 & I2 & I3 & I4 & I5 & I6 & I7).
    + now apply set_budget_unique.
    + now apply set_budget_valid.
    + repeat split; try assumption; congruence.
Qed.

(** ** Goals, further *)

Lemma Qsum_app (l l' : list Q) : Qsum (l ++ l') == Qsum l + Qsum l'.
Proof.
  induction l as [|a l IH]; cbn [app].
  - unfold Qsum at 2. cbn. lra.
  - rewrite !Qsum_cons, IH. lra.
Qed.

Lemma available_excess_goals (d : db) (gs : list goal) (mo yr : Z) :
  available_excess (with_goals d gs) mo yr
  == available_excess d mo yr + total_saved (savings_goals d) - total_saved gs.
Proof.
  unfold available_excess, total_saved.
  cbn [income expenses savings_goals with_goals].
  rewrite !coalesce_sum. lra.
Qed.

(** X14.  [create_goal] with a target that is a number appends one goal
    with nothing saved: the new row gets an id no goal had, the name,
    target and date as typed and [current_saved] 0.  With a nan as
    target it prints "created successfully" as well, but the INSERT was
    refused and the store is as it was, as it is after a target that is
    not a number at all or a date that [strptime] refuses.  In every case
    goal ids stay unique and the total saved and the available excess of
    every month are as before. *)
Theorem create_goal_effect (strptime_ok : string -> bool) (d : db)
        (name : string) (target_in : option typed_float) (date_in : string) :
  unique_ids (savings_goals d) ->
  let r := create_goal_typed strptime_ok d name target_in date_in in
  unique_ids (savings_goals (snd r)) /\
  total_saved (savings_goals (snd r)) == total_saved (savings_goals d) /\
  (forall mo yr, available_excess (snd r) mo yr == available_excess d mo yr) /\
  (fst r = GoalCreated ->
   strptime_ok date_in = true /\
   ((exists id target,
       target_in = Some (Number target) /\
       ~ In id (map goal_id (savings_goals d)) /\
       snd r = with_goals d
                 (savings_goals d ++ [mk_goal id name target 0 date_in])) \/
    (target_in = Some NotANumber /\ snd r = d))) /\
  (fst r <> GoalCreated -> snd r = d).
Proof.
  intros Hu r. subst r. unfold create_goal_typed.
  assert (Hsame : unique_ids (savings_goals d) /\
                  total_saved (savings_goals d) == total_saved (savings_goals d) /\
                  (forall mo yr, available_excess d mo yr == available_excess d mo yr))
    by (split; [assumption|]; split; [reflexivity|]; intros; reflexivity).
  destruct Hsame as (S1 & S2 & S3).
  destruct target_in as [target|];
    [|cbn [fst snd]; do 3 (split; [assumption|]); split;
      [discriminate | reflexivity]].
  destruct (strptime_ok date_in) eqn:Hok;
    [|cbn [fst snd]; do 3 (split; [assumption|]); split;
      [discriminate | reflexivity]].
  destruct target as [target|];
    [|cbn [fst snd]; do 3 (split; [assumption|]); split;
      [intros _; split; [reflexivity | right; split; reflexivity]
      | reflexivity]].
  cbn [fst snd savings_goals with_goals].
  set (g := mk_goal (next_id (map goal_id (savings_goals d))) name target 0
                    date_in).
  assert (T : total_saved (savings_goals d ++ [g]) == total_saved (savings_goals d)).
  { unfold total_saved. rewrite map_app, Qsum_app. cbn [map current_saved g].
    unfold Qsum at 2. cbn. lra. }
  split; [|split; [exact T|split; [|split]]].
  - unfold unique_ids. rewrite map_app.
    apply NoDup_snoc; [exact Hu | apply next_id_fresh].
  - intros mo yr. rewrite available_excess_goals, T. lra.
  - intros _. split; [reflexivity|]. left.
    exists (next_id (map goal_id (savings_goals d))), target.
    split; [reflexivity|]. split; [apply next_id_fresh | reflexivity].
  - intros H. now elim H.
Qed.

Lemma update_target_ids (gs : list goal) (id : Z) (v : Q) :
  map goal_id (update_target gs id v) = map goal_id gs.
Proof.
  unfold update_target. rewrite map_map. apply map_ext.
  intros g. now destruct (goal_id g =? id)%Z.
Qed.

Lemma update_target_saved (gs : list goal) (id : Z) (v : Q) :
  map current_saved (update_target gs id v) = map current_saved gs.
Proof.
  unfold update_target. rewrite map_map. apply map_ext.
  intros g. now destruct (goal_id g =? id)%Z.
Qed.

Lemma update_target_absent (gs : list goal) (id : Z) (v : Q) :
  ~ In id (map goal_id gs) -> update_target gs id v = gs.
Proof.
  unfold update_target.
  induction gs as [|g gs IH]; simpl; intros H; [reflexivity|].
  destruct (Z.eqb_spec (goal_id g) id) as [E | _].
  - exfalso. apply H. now left.
  - f_equal. apply IH. intros HI. apply H. now right.
Qed.

(** X15.  [change_goal_amount] on what is typed.  A goal id that SQLite
    does not take as a 64-bit integer ends the method with
    [OverflowError].  When the method returns it has written target
    amounts only: every goal keeps its id, name, [current_saved] and
    date, a goal whose target differs afterwards is a goal of the id
    typed and holds the number typed, and the other tables are
    untouched.  An id that no goal has, and a nan as amount, change
    nothing, though the method has no check for either and prints "Goal
    updated successfully!" all the same. *)
Theorem change_goal_amount_frame (d : db) (goal_in : option Z)
        (amt_in : option typed_float) :
  let r := change_goal_amount_typed d goal_in amt_in in
  (forall id t,
     goal_in = Some id -> amt_in = Some t -> savings_goals d <> [] ->
     fits_int64 id = false -> r = Raised OverflowError) /\
  (forall o d',
     r = Returned (o, d') ->
     Forall2 (fun g g' =>
                goal_id g' = goal_id g /\ goal_name g' = goal_name g /\
                current_saved g' = current_saved g /\
                target_date g' = target_date g /\
                (target_amount g' <> target_amount g ->
                 goal_in = Some (goal_id g) /\
                 amt_in = Some (Number (target_amount g'))))
             (savings_goals d) (savings_goals d') /\
     expenses d' = expenses d /\
     expense_categories d' = expense_categories d /\
     income d' = income d /\
     income_categories d' = income_categories d /\
     budget d' = budget d) /\
  (forall id t,
     goal_in = Some id -> amt_in = Some t -> savings_goals d <> [] ->
     fits_int64 id = true ->
     ~ In id (map goal_id (savings_goals d)) \/ t = NotANumber ->
     r = Returned (GoalUpdated, d)).
Proof.
  intros r. subst r. unfold change_goal_amount_typed.
  assert (Hsame : forall (o : change_outcome) (d' : db),
             Returned (o, d) = Returned (o, d') ->
             Forall2 (fun g g' =>
                goal_id g' = goal_id g /\ goal_name g' = goal_name g /\
                current_saved g' = current_saved g /\
                target_date g' = target_date g /\
                (target_amount g' <> target_amount g ->
                 goal_in = Some (goal_id g) /\
                 amt_in = Some (Number (target_amount g'))))
               (savings_goals d) (savings_goals d') /\
             expenses d' = expenses d /\
             expense_categories d' = expense_categories d /\
             income d' = income d /\
             income_categories d' = income_categories d /\
             budget d' = budget d).
  { intros o d' E. injection E as <-. split; [|repeat split].
    apply Forall2_same. intros g.
    do 4 (split; [reflexivity|]). intros Hne. now elim Hne. }
  destruct (savings_goals d) as [|g0 gs0] eqn:G.
  { split; [|split].
    - intros id t _ _ H. now elim H.
    - intros o d' E. injection E as <- <-. now apply (Hsame ChangeNoGoals).
    - intros id t _ _ H. now elim H. }
  rewrite <- G in *. clear g0 gs0 G.
  destruct goal_in as [id|], amt_in as [t|];
    try (split; [intros ? ? ? ?; discriminate|]; split;
         [intros o d' E; injection E as <- <-;
          now apply (Hsame ChangeInvalidNumbers)
         | intros ? ? ? ?; discriminate]).
  destruct (fits_int64 id) eqn:Hfit.
  2:{ split; [reflexivity|]. split; [discriminate|].
      intros id' t' [= <-] _ _ H. congruence. }
  split; [intros id' t' [= <-] _ _ H; congruence|].
  destruct t as [v|].
  - split.
    + intros o d' [= <- <-].
      cbn [savings_goals with_goals expenses expense_categories income
           income_categories budget].
      split; [|repeat split].
      unfold update_target. apply Forall2_map_r. intros g _.
      destruct (Z.eqb_spec (goal_id g) id) as [E | _].
      * cbn. do 4 (split; [reflexivity|]). intros _. now rewrite E.
      * do 4 (split; [reflexivity|]). intros H. now elim H.
    + intros id' t' [= <-] [= <-] _ _ [Hnot | H]; [|discriminate H].
      rewrite (update_target_absent _ id v Hnot). now destruct d.
  - split.
    + intros o d' E. injection E as <- <-. now apply (Hsame GoalUpdated).
    + intros. reflexivity.
Qed.

Lemma update_saved_fields (f : Q -> Q) (gs : list goal) (id : Z) :
  Forall2 (fun g g' =>
             goal_id g' = goal_id g /\ goal_name g' = goal_name g /\
             target_amount g' = target_amount g /\
             target_date g' = target_date g)
          gs (update_saved f gs id).
Proof.
  unfold update_saved. apply Forall2_map_r. intros g _.
  destruct (goal_id g =? id)%Z; repeat split.
Qed.

Lemma Forall2_trans_fields (gs gs' gs'' : list goal) :
  Forall2 (fun g g' =>
             goal_id g' = goal_id g /\ goal_name g' = goal_name g /\
             target_amount g' = target_amount g /\
             target_date g' = target_date g) gs gs' ->
  Forall2 (fun g g' =>
             goal_id g' = goal_id g /\ goal_name g' = goal_name g /\
             target_amount g' = target_amount g /\
             target_date g' = target_date g) gs' gs'' ->
  Forall2 (fun g g' =>
             goal_id g' = goal_id g /\ goal_name g' = goal_name g /\
             target_amount g' = target_amount g /\
             target_date g' = target_date g) gs gs''.
Proof.
  intros H. revert gs''. induction H as [|g g' gs gs' Hg _ IH]; intros gs'' H'.
  - inversion H'. constructor.
  - inversion H' as [|? g'' ? gs2 Hg' Ht]; subst. constructor; [|now apply IH].
    destruct Hg as (A1 & A2 & A3 & A4), Hg' as (B1 & B2 & B3 & B4).
    repeat split; congruence.
Qed.

(** What [remove_or_move_savings] does to the goal table, case by case. *)
Lemma remove_or_move_cases (d : db) (goal_in : option Z) (amt_in : option Q)
      (action : string) (new_goal_in : option Z) :
  let r := remove_or_move_savings d goal_in amt_in action new_goal_in in
  (fst r <> AmountRemoved /\ fst r <> AmountTransferred /\ snd r = d) \/
  (exists id x,
     goal_in = Some id /\ amt_in = Some x /\
     r = (AmountRemoved, with_goals d (update_sub (savings_goals d) id x))) \/
  (exists id x new_id,
     goal_in = Some id /\ amt_in = Some x /\ new_goal_in = Some new_id /\
     r = (AmountTransferred,
          with_goals d (update_sub (update_add (savings_goals d) new_id x)
                                   id x))).
Proof.
  unfold remove_or_move_savings.
  destruct (savings_goals d) as [|g0 gs0] eqn:G;
    [left; repeat split; discriminate|].
  rewrite <- G. clear g0 gs0 G.
  destruct goal_in as [id|]; [|left; repeat split; discriminate].
  destruct amt_in as [x|]; [|left; repeat split; discriminate].
  destruct (select_current_saved (savings_goals d) id) as [|saved rest];
    [left; repeat split; discriminate|].
  destruct (Qlt_le_dec saved x); [left; repeat split; discriminate|].
  destruct (String.eqb action "1").
  { right. left. exists id, x. repeat split. }
  destruct (String.eqb action "2"); [|left; repeat split; discriminate].
  destruct new_goal_in as [new_id|]; [|left; repeat split; discriminate].
  right. right. exists id, x, new_id. repeat split.
Qed.

(** X16.  [remove_or_move_savings] writes [current_saved] only: whatever
    is typed, every goal keeps its id, name, target amount and date and
    the ledger, category and budget tables are untouched; unless it ends
    with "Amount removed" or "Amount transferred" the whole store is as
    it was. *)
Theorem remove_or_move_frame (d : db) (goal_in : option Z) (amt_in : option Q)
        (action : string) (new_goal_in : option Z) :
  let r := remove_or_move_savings d goal_in amt_in action new_goal_in in
  Forall2 (fun g g' =>
             goal_id g' = goal_id g /\ goal_name g' = goal_name g /\
             target_amount g' = target_amount g /\
             target_date g' = target_date g)
          (savings_goals d) (savings_goals (snd r)) /\
  expenses (snd r) = expenses d /\
  expense_categories (snd r) = expense_categories d /\
  income (snd r) = income d /\
  income_categories (snd r) = income_categories d /\
  budget (snd r) = budget d /\
  (fst r <> AmountRemoved -> fst r <> AmountTransferred -> snd r = d).
Proof.
  intros r.
  destruct (remove_or_move_cases d goal_in amt_in action new_goal_in)
    as [(N1 & N2 & Hr) | [(id & x & _ & _ & Hr) |
                          (id & x & new_id & _ & _ & _ & Hr)]];
    fold r in N1, N2, Hr || fold r in Hr; rewrite Hr.
  - split; [apply Forall2_same; intros; repeat split|].
    do 5 (split; [reflexivity|]). reflexivity.
  - cbn [fst snd savings_goals with_goals expenses expense_categories income
         income_categories budget].
    split; [rewrite update_sub_saved; apply update_saved_fields|].
    do 5 (split; [reflexivity|]). intros H. now elim H.
  - cbn [fst snd savings_goals with_goals expenses expense_categories income
         income_categories budget].
    split.
    + rewrite update_sub_saved, update_add_saved.
      eapply Forall2_trans_fields; apply update_saved_fields.
    + do 5 (split; [reflexivity|]). intros _ H. now elim H.
Qed.

(** ** Progress, further *)

(** X19.  The progress figure is a percentage while the goal is within
    its target and is not capped beyond it: for a positive target it is
    at least 0 when nothing negative is saved, at most 100 when
    [current_saved] is at most the target, and above 100 when more than
    the target is saved. *)
Theorem progress_bounds (target saved : Q) :
  0 < target ->
  (0 <= saved -> 0 <= progress target saved) /\
  (saved <= target -> progress target saved <= 100) /\
  (target < saved -> 100 < progress target saved).
Proof.
  intros Ht. unfold progress.
  destruct (Qlt_le_dec 0 target) as [_ | Hle]; [|lra].
  assert (Hq : saved / target * target == saved)
    by (field; intros E; rewrite E in Ht; lra).
  split; [|split]; intros H.
  - assert (0 <= saved / target) by (apply Qle_shift_div_l; lra). lra.
  - assert (saved / target <= 1) by (apply Qle_shift_div_r; lra). lra.
  - assert (1 < saved / target) by (apply Qlt_shift_div_l; lra). lra.
Qed.

(** ** The category view *)

Lemma filter_and {A} (f g : A -> bool) (l : list A) :
  filter (fun x => f x && g x) l = filter f (filter g l).
Proof.
  induction l as [|x l IH]; cbn [filter]; [reflexivity|].
  destruct (g x); cbn [filter]; rewrite ?andb_true_r, ?andb_false_r.
  - destruct (f x); now rewrite IH.
  - exact IH.
Qed.

(** X22.  The category view is the all-categories view narrowed to one
    category: what [view_expenses_by_category] lists for a chosen id is,
    in the same order, the rows of [view_expense] for that month and
    year whose category is the name stored under the id; an id with no
    category (or with an empty name) lists nothing and is reported as an
    invalid selection.  Passing the empty string as category to
    [view_expense] is the same as passing none. *)
Theorem category_view_narrows_all_view (cats : list category_row)
        (rows : list entry) (mo yr : Z) (cat_in : option Z) :
  (forall listed,
     Ledger.view_by_category cats rows mo yr cat_in = Ledger.Viewed listed ->
     exists id c,
       cat_in = Some id /\ Ledger.name_of_id cats id = Some c /\
       c <> ""%string /\
       listed = filter (fun e => String.eqb (category e) c)
                       (snd (Ledger.view rows mo yr None))) /\
  (forall id,
     cat_in = Some id -> cats <> [] -> Ledger.name_of_id cats id = None ->
     Ledger.view_by_category cats rows mo yr cat_in
     = Ledger.ViewInvalidSelection) /\
  Ledger.view rows mo yr (Some ""%string) = Ledger.view rows mo yr None.
Proof.
  split; [|split; [|reflexivity]].
  - intros listed. unfold Ledger.view_by_category.
    destruct cats as [|c0 cs] eqn:Ec; [discriminate|].
    rewrite <- Ec. clear Ec c0 cs.
    destruct cat_in as [id|]; [|discriminate].
    unfold Ledger.pick_category, Ledger.name_of_id.
    destruct (find (fun c => (category_id c =? id)%Z) cats) as [row|] eqn:F;
      [|discriminate].
    destruct (String.eqb_spec (category_name row) "") as [_ | N];
      [discriminate|].
    intros [= <-]. exists id, (category_name row).
    split; [reflexivity|]. split; [now rewrite F|]. split; [assumption|].
    unfold Ledger.view. cbn [snd].
    replace (String.eqb (category_name row) "") with false
      by (symmetry; now apply String.eqb_neq).
    apply filter_and.
  - intros id -> Hne Hnone. unfold Ledger.view_by_category.
    destruct cats as [|c0 cs] eqn:Ec; [now elim Hne|].
    rewrite <- Ec in *. clear Ec c0 cs.
    unfold Ledger.name_of_id in Hnone. unfold Ledger.pick_category.
    destruct (find (fun c => (category_id c =? id)%Z) cats); [discriminate|].
    reflexivity.
Qed.

Lemma category_view_narrows_all_view_witness :
  exists id c,
    Some 1%Z = Some id /\ Ledger.name_of_id some_categories id = Some c /\
    c <> ""%string /\
    [mk_entry 1 "Food" 400 "2025-03-15"]
    = filter (fun e => String.eqb (category e) c)
             (snd (Ledger.view some_rows 3 2025 None)).
Proof.
  destruct (category_view_narrows_all_view some_categories some_rows 3 2025
              (Some 1%Z)) as (H & _).
  apply H. reflexivity.
Defined.

(** ** The properties above on the example stores *)

Ltac nodup_literal :=
  repeat (constructor; [simpl; intuition (try discriminate; try congruence)|]);
  constructor.

Lemma some_categories_unique :
  names_unique some_categories /\ category_ids_unique some_categories.
Proof. split; unfold names_unique, category_ids_unique; simpl; nodup_literal. Defined.

Lemma some_rows_unique : entry_ids_unique some_rows.
Proof. unfold entry_ids_unique. simpl. nodup_literal. Defined.

Lemma some_rows_covered : categories_cover some_categories some_rows.
Proof.
  unfold categories_cover. repeat constructor; simpl; tauto.
Defined.

Lemma add_category_one_row_witness :
  exists row,
    filter (fun c => String.eqb (category_name c) "Pets")
           (snd (Ledger.add_category some_categories 4 "Pets")) = [row] /\
    category_name row = "Pets"%string.
Proof.
  destruct (add_category_one_row some_categories 4 "Pets"
              (proj1 some_categories_unique) (proj2 some_categories_unique))
    as (_ & _ & _ & H & _).
  - simpl. intuition discriminate.
  - apply H. discriminate.
Defined.

Lemma delete_category_guard_witness :
  Ledger.delete_category some_categories some_rows (Some 1%Z)
  = (Ledger.CategoryInUse, some_categories) /\
  exists id,
    Some 3%Z = Some id /\
    (forall c,
       In c (snd (Ledger.delete_category some_categories some_rows (Some 3%Z)))
       <-> In c some_categories /\ category_id c <> id) /\
    (forall c e, In c some_categories -> category_id c = id ->
                 In e some_rows -> category e <> category_name c).
Proof.
  destruct (delete_category_guard some_categories some_rows (Some 1%Z)
              (proj2 some_categories_unique)) as (A & _ & _).
  destruct (delete_category_guard some_categories some_rows (Some 3%Z)
              (proj2 some_categories_unique)) as (_ & B & _).
  split.
  - apply (A (mk_category 1 "Food") (mk_entry 1 "Food" 400 "2025-03-15"));
      simpl; auto.
  - apply B. reflexivity.
Defined.

Lemma add_entry_effect_witness :
  (exists date c,
     find accepts_iso ["15/03/2025"; "2025-03-20"]%string = Some date /\
     accepts_iso date = true /\
     In date ["15/03/2025"; "2025-03-20"]%string /\
     In c (map category_name
             (fst (snd (Ledger.add_entry_typed
                          accepts_iso some_categories some_rows
                          (Number (-25)) ["15/03/2025"; "2025-03-20"]%string
                          9 "" (Some 2%Z))))) /\
     c <> ""%string /\
     exists id,
       snd (snd (Ledger.add_entry_typed
                   accepts_iso some_categories some_rows (Number (-25))
                   ["15/03/2025"; "2025-03-20"]%string 9 "" (Some 2%Z)))
       = some_rows ++ [mk_entry id c (-25) date] /\
       ~ In id (map entry_id some_rows)) /\
  (exists date c,
     find accepts_iso ["2025-03-20"%string] = Some date /\
     accepts_iso date = true /\
     In date ["2025-03-20"%string] /\
     In c (map category_name
             (fst (snd (Ledger.add_entry_typed
                          accepts_iso some_categories some_rows
                          NotANumber ["2025-03-20"%string]
                          9 "" (Some 2%Z))))) /\
     c <> ""%string /\
     snd (snd (Ledger.add_entry_typed
                 accepts_iso some_categories some_rows NotANumber
                 ["2025-03-20"%string] 9 "" (Some 2%Z)))
     = some_rows).
Proof.
  split.
  - destruct (add_entry_effect accepts_iso some_categories some_rows
                (Number (-25)) ["15/03/2025"; "2025-03-20"]%string 9 ""
                (Some 2%Z) some_rows_unique) as (_ & H & _).
    apply H. reflexivity.
  - destruct (add_entry_effect accepts_iso some_categories some_rows
                NotANumber ["2025-03-20"%string] 9 ""
                (Some 2%Z) some_rows_unique) as (_ & H & _).
    apply H. reflexivity.
Defined.

Lemma categories_cover_kept_witness :
  categories_cover
    (snd (Ledger.delete_category some_categories some_rows (Some 3%Z)))
    some_rows /\
  categories_cover
    (snd (Ledger.delete_category some_categories some_rows (Some 1%Z)))
    some_rows.
Proof.
  destruct (categories_cover_kept accepts_iso some_categories some_rows
              (proj2 some_categories_unique) some_rows_covered)
    as (_ & H & _).
  split; apply H.
Defined.

Lemma update_amount_frame_witness :
  snd (Ledger.update_amount some_rows (Some 3%Z) (Some 2025%Z) (Some 2%Z)
         (Some 450))
  = some_rows.
Proof.
  destruct (update_amount_frame some_rows (Some 3%Z) (Some 2025%Z) (Some 2%Z)
              (Some 450) some_rows_unique) as (_ & H).
  apply (H 3%Z 2025%Z 2%Z); try reflexivity.
  simpl. intuition discriminate.
Defined.



Lemma set_budget_then_view_witness :
  (set_budget_typed march_2025 "Food" (Number 150) 3 (2 ^ 63)
   = Raised OverflowError /\
   view_budget_for_category_typed march_2025 "Food" 3 (2 ^ 63)
   = Raised OverflowError) /\
  (exists d',
     set_budget_typed march_2025 "Food" (Number 150) 3 2025 = Returned d' /\
     exists v,
       view_budget_for_category_typed d' "Food" 3 2025
       = Returned
           (BudgetReport 150
              (total_amount (category_period_substr "Food" 3 2025)
                            (expenses march_2025)) v)).
Proof.
  split.
  - apply (set_budget_then_view march_2025 "Food" (Number 150) 3 (2 ^ 63)
             march_2025_budget_unique). reflexivity.
  - apply (set_budget_then_view march_2025 "Food" (Number 150) 3 2025
             march_2025_budget_unique). reflexivity.
Defined.

Lemma view_all_budgets_sorted_witness :
  Permutation (budget unordered_budgets)
    [mk_budget 3 "Food" 250 12 2024; mk_budget 4 "Car" 80 3 2025;
     mk_budget 2 "Food" 300 3 2025; mk_budget 1 "Rent" 900 4 2025] /\
  Sorted budget_ordered
    [mk_budget 3 "Food" 250 12 2024; mk_budget 4 "Car" 80 3 2025;
     mk_budget 2 "Food" 300 3 2025; mk_budget 1 "Rent" 900 4 2025].
Proof.
  destruct (view_all_budgets_sorted unordered_budgets) as (_ & H).
  apply H. reflexivity.
Defined.

Lemma manage_budgets_menu_keeps_valid_witness :
  let d' :=
    MainMenu.manage_budgets_menu household
      [MainMenu.mk_budget_pass "1" (Some 2%Z) (Some 900) (Some 4%Z) (Some 2025%Z);
       MainMenu.mk_budget_pass "1" (Some 7%Z) (Some 10) (Some 4%Z) (Some 2025%Z);
       MainMenu.mk_budget_pass "1" (Some 1%Z) (Some 10) (Some 13%Z) (Some 2025%Z);
       MainMenu.mk_budget_pass "1" (Some 1%Z) (Some 350) (Some 3%Z) (Some 2025%Z);
       MainMenu.mk_budget_pass "9" None None None None;
       MainMenu.mk_budget_pass "2" None None None None] in
  budget_unique (budget d') /\
  Forall (budget_row_valid (expense_categories household)) (budget d') /\
  expenses d' = expenses household /\
  expense_categories d' = expense_categories household /\
  income d' = income household /\
  income_categories d' = income_categories household /\
  savings_goals d' = savings_goals household.
Proof.
  apply (manage_budgets_menu_keeps_valid _ household).
  - exact march_2025_budget_unique.
  - repeat constructor; simpl; try lia; try tauto.
Defined.

Lemma create_goal_effect_witness :
  (accepts_iso "2026-09-01" = true /\
   ((exists id target,
       Some (Number 300) = Some (Number target) /\
       ~ In id (map goal_id (savings_goals two_goals)) /\
       snd (create_goal_typed accepts_iso two_goals "Bike" (Some (Number 300))
                              "2026-09-01")
       = with_goals two_goals
           (savings_goals two_goals
            ++ [mk_goal id "Bike" target 0 "2026-09-01"])) \/
    (Some (Number 300) = Some NotANumber /\
     snd (create_goal_typed accepts_iso two_goals "Bike" (Some (Number 300))
                            "2026-09-01") = two_goals))) /\
  (accepts_iso "2026-09-01" = true /\
   ((exists id target,
       Some NotANumber = Some (Number target) /\
       ~ In id (map goal_id (savings_goals two_goals)) /\
       snd (create_goal_typed accepts_iso two_goals "Bike" (Some NotANumber)
                              "2026-09-01")
       = with_goals two_goals
           (savings_goals two_goals
            ++ [mk_goal id "Bike" target 0 "2026-09-01"])) \/
    (Some NotANumber = Some NotANumber /\
     snd (create_goal_typed accepts_iso two_goals "Bike" (Some NotANumber)
                            "2026-09-01") = two_goals))).
Proof.
  split.
  - destruct (create_goal_effect accepts_iso two_goals "Bike"
                (Some (Number 300)) "2026-09-01" unique_ids_two_goals)
      as (_ & _ & _ & H & _).
    apply H. reflexivity.
  - destruct (create_goal_effect accepts_iso two_goals "Bike"
                (Some NotANumber) "2026-09-01" unique_ids_two_goals)
      as (_ & _ & _ & H & _).
    apply H. reflexivity.
Defined.

Lemma change_goal_amount_frame_witness :
  change_goal_amount_typed two_goals (Some (2 ^ 63)%Z) (Some (Number 5))
  = Raised OverflowError /\
  change_goal_amount_typed two_goals (Some 99%Z) (Some (Number 5))
  = Returned (GoalUpdated, two_goals) /\
  change_goal_amount_typed two_goals (Some 1%Z) (Some NotANumber)
  = Returned (GoalUpdated, two_goals).
Proof.
  split; [|split].
  - destruct (change_goal_amount_frame two_goals (Some (2 ^ 63)%Z)
                                       (Some (Number 5))) as (H & _).
    apply (H (2 ^ 63)%Z (Number 5)); try reflexivity. discriminate.
  - destruct (change_goal_amount_frame two_goals (Some 99%Z)
                                       (Some (Number 5))) as (_ & _ & H).
    apply (H 99%Z (Number 5)); try reflexivity; [discriminate|].
    left. simpl. intuition discriminate.
  - destruct (change_goal_amount_frame two_goals (Some 1%Z)
                                       (Some NotANumber)) as (_ & _ & H).
    apply (H 1%Z NotANumber); try reflexivity; [discriminate|].
    now right.
Defined.

Lemma remove_or_move_frame_witness :
  snd (remove_or_move_savings two_goals (Some 1%Z) (Some 500) "1" None)
  = two_goals.
Proof.
  destruct (remove_or_move_frame two_goals (Some 1%Z) (Some 500) "1" None)
    as (_ & _ & _ & _ & _ & _ & H).
  apply H; discriminate.
Defined.

Lemma progress_bounds_witness :
  0 <= progress 200 50 /\ progress 200 50 <= 100 /\ 100 < progress 200 250.
Proof.
  destruct (progress_bounds 200 50) as (A & B & _); [reflexivity|].
  destruct (progress_bounds 200 250) as (_ & _ & C); [reflexivity|].
  split; [apply A; discriminate|]. split; [apply B; discriminate|].
  apply C. reflexivity.
Defined.

Lemma add_excess_income_keeps_nonneg_witness :
  saved_nonneg
    (savings_goals
       (snd (add_excess_income march_goals (Some 3%Z) (Some 2025%Z)
               [Some 500; None; Some (-5); Some 100; Some 300; Some 0]))).
Proof.
  apply (add_excess_income_keeps_nonneg march_goals).
  - exact unique_ids_two_goals.
  - repeat constructor; simpl; discriminate.
Defined.

Lemma remove_or_move_keeps_nonneg_witness :
  saved_nonneg
    (savings_goals
       (snd (remove_or_move_savings two_goals (Some 1%Z) (Some 50) "2"
               (Some 2%Z)))) /\
  saved_nonneg
    (savings_goals
       (snd (remove_or_move_savings two_goals (Some 1%Z) (Some (-50)) "1"
               None))).
Proof.
  split; apply (remove_or_move_keeps_nonneg two_goals).
  - exact unique_ids_two_goals.
  - repeat constructor; simpl; discriminate.
  - intros x [= <-] _. discriminate.
  - exact unique_ids_two_goals.
  - repeat constructor; simpl; discriminate.
  - intros x _ A. discriminate A.
Defined.
